(** * Incremental GCS ingestion with a processed-file ledger

    Shallow embedding of [read_gcs_files_to_dataframes_aserta]
    (src/cloudrun/api_plantilla/Tools.py).  Python exceptions are modelled
    by [exc]; the object store holding the ledger object
    [{prefix}/file_already_read.txt] is threaded as explicit state, and it
    survives an exception exactly as a Python object would.  The other
    collaborators (storage client, listing, downloads, pandas readers,
    upload) are the fields of an [Env] record, each of which may raise. *)

From Stdlib Require Import String Ascii List Bool Arith NArith ZArith Lia Permutation.
Import ListNotations.
Local Open Scope string_scope.
Local Open Scope list_scope.

(** ** Python [str] helpers

    A Python [str] is held as its UTF-8 encoding, one [ascii] per byte:
    GCS object names are UTF-8, and [download_as_text] and
    [upload_from_string] decode and encode the ledger as UTF-8.  On such
    bytes, splitting on ["/"] or ["\n"], [startswith], [endswith] and [==]
    answer as they do on the code points, since no byte of a multi-byte
    character is an ASCII byte and every encoding starts with a byte that
    no other character continues with. *)
Module PyStr.

(** [s.split(sep)] for a one-character separator: never empty. *)
Fixpoint split_on (sep : ascii) (s : string) : list string :=
  match s with
  | EmptyString => [EmptyString]
  | String c s' =>
      let r := split_on sep s' in
      if Ascii.eqb c sep then EmptyString :: r
      else match r with
           | h :: t => String c h :: t
           | [] => [String c EmptyString]
           end
  end.

Definition slash : ascii := "/"%char.
Definition newline_char : ascii := "010"%char.
Definition newline : string := String newline_char EmptyString.

(** [s.startswith(p)] *)
Definition startswith (s p : string) : bool := String.prefix p s.

(** [s.endswith(suf)] *)
Definition endswith (s suf : string) : bool :=
  let ls := String.length s in
  let lf := String.length suf in
  Nat.leb lf ls && String.eqb (substring (ls - lf) lf s) suf.

(** [str.isspace]: the code points [str.strip()] removes. *)
Definition whitespace : list N :=
  [9; 10; 11; 12; 13; 28; 29; 30; 31; 32; 133; 160; 5760]%N
  ++ [8192; 8193; 8194; 8195; 8196; 8197; 8198; 8199; 8200; 8201; 8202]%N
  ++ [8232; 8233; 8239; 8287; 12288]%N.

(** The UTF-8 encoding of a code point. *)
Definition utf8_encode (cp : N) : list ascii :=
  if (cp <? 128)%N then [ascii_of_N cp]
  else if (cp <? 2048)%N then
    [ascii_of_N (192 + cp / 64); ascii_of_N (128 + cp mod 64)]
  else if (cp <? 65536)%N then
    [ascii_of_N (224 + cp / 4096); ascii_of_N (128 + cp / 64 mod 64);
     ascii_of_N (128 + cp mod 64)]
  else
    [ascii_of_N (240 + cp / 262144); ascii_of_N (128 + cp / 4096 mod 64);
     ascii_of_N (128 + cp / 64 mod 64); ascii_of_N (128 + cp mod 64)].

Definition ws_encodings : list (list ascii) := map utf8_encode whitespace.

Fixpoint list_prefix (p l : list ascii) : bool :=
  match p, l with
  | [], _ => true
  | x :: p', y :: l' => Ascii.eqb x y && list_prefix p' l'
  | _ :: _, [] => false
  end.

(** Drops the words of [ws] found at the front, one at a time; each step
    drops at least one byte, so [length l] steps suffice. *)
Fixpoint drop_words_fuel (ws : list (list ascii)) (fuel : nat) (l : list ascii)
    : list ascii :=
  match fuel with
  | O => l
  | S f =>
      match find (fun w => list_prefix w l) ws with
      | Some w => drop_words_fuel ws f (skipn (length w) l)
      | None => l
      end
  end.

Definition drop_words (ws : list (list ascii)) (l : list ascii) : list ascii :=
  drop_words_fuel ws (length l) l.

(** Leading whitespace, and trailing whitespace read on the reversed bytes. *)
Definition drop_ws (l : list ascii) : list ascii := drop_words ws_encodings l.
Definition drop_ws_rev (l : list ascii) : list ascii :=
  drop_words (map (@rev ascii) ws_encodings) l.

(** [s.strip()] *)
Definition strip (s : string) : string :=
  string_of_list_ascii
    (rev (drop_ws_rev (rev (drop_ws (list_ascii_of_string s))))).

(** [sep.join(l)] *)
Definition join (sep : string) (l : list string) : string := String.concat sep l.

(** [x in l] for a list of strings *)
Definition mem (x : string) (l : list string) : bool := existsb (String.eqb x) l.

(** [l.remove(x)]: drops the first occurrence. *)
Fixpoint remove (x : string) (l : list string) : list string :=
  match l with
  | [] => []
  | h :: t => if String.eqb h x then t else h :: remove x t
  end.

(** whether a string contains a line feed *)
Definition has_newline (s : string) : bool :=
  existsb (Ascii.eqb newline_char) (list_ascii_of_string s).

End PyStr.
Import PyStr.

(** [blob.name.split("/")[-1]] *)
Definition trailing_name (name : string) : string :=
  last (split_on slash name) EmptyString.

(** ** pandas DataFrames

    A row maps column names to cells; a column missing from a row is NaN.
    [df_columns] is the column index in order. *)
Definition Row := list (string * string).

Record DataFrame := mkDF { df_columns : list string; df_rows : list Row }.

(** [pd.DataFrame()] *)
Definition empty_df : DataFrame := mkDF [] [].

(** [df.empty]: true when either axis has length zero. *)
Definition df_empty (df : DataFrame) : bool :=
  match df_columns df, df_rows df with
  | [], _ => true
  | _, [] => true
  | _, _ => false
  end.

Fixpoint row_set (c v : string) (r : Row) : Row :=
  match r with
  | [] => [(c, v)]
  | (k, x) :: t => if String.eqb k c then (k, v) :: t else (k, x) :: row_set c v t
  end.

Fixpoint row_get (c : string) (r : Row) : option string :=
  match r with
  | [] => None
  | (k, x) :: t => if String.eqb k c then Some x else row_get c t
  end.

(** [df[c] = v] for a scalar [v] *)
Definition set_column (c v : string) (df : DataFrame) : DataFrame :=
  mkDF (if mem c (df_columns df) then df_columns df else df_columns df ++ [c])
       (map (row_set c v) (df_rows df)).

Definition union_columns (acc cs : list string) : list string :=
  fold_left (fun acc c => if mem c acc then acc else acc ++ [c]) cs acc.

(** [pd.concat(dfs, ignore_index=True)]: outer join on columns, rows stacked. *)
Definition concat (dfs : list DataFrame) : DataFrame :=
  mkDF (fold_left (fun acc df => union_columns acc (df_columns df)) dfs [])
       (flat_map df_rows dfs).

(** ** Exceptions and the object store *)
Inductive exc (A : Type) : Type :=
| Ok (a : A)
| Raise.
Arguments Ok {A} a.
Arguments Raise {A}.

Definition of_option {A} (o : option A) : exc A :=
  match o with Some a => Ok a | None => Raise end.

(** The ledger object ([None] when absent) and the number of uploads
    attempted on it. *)
Record Store := mkStore { ledger : option string; uploads : nat }.

Definition M (A : Type) : Type := Store -> exc A * Store.

Definition ret {A} (a : A) : M A := fun s => (Ok a, s).
Definition raise {A} : M A := fun s => (Raise, s).
Definition bind {A B} (m : M A) (k : A -> M B) : M B :=
  fun s => match m s with
           | (Ok a, s') => k a s'
           | (Raise, s') => (Raise, s')
           end.
Definition lift {A} (e : exc A) : M A := fun s => (e, s).

(** [try: m except Exception: h] *)
Definition try_except {A} (m : M A) (h : M A) : M A :=
  fun s => match m s with
           | (Ok a, s') => (Ok a, s')
           | (Raise, s') => h s'
           end.

Notation "x <- m ;; k" := (bind m (fun x => k))
  (at level 61, m at next level, right associativity).

(** ** Collaborators *)
Record Env := mkEnv {
  client_ok : bool;                 (** [storage.Client()], [client.bucket] *)
  exists_ok : bool;                 (** [log_blob.exists()] does not raise *)
  text_ok : bool;                   (** [log_blob.download_as_text()] does not raise *)
  list_blobs : string -> bool -> option (list string);
                                    (** names listed for (prefix, delimiter) *)
  download_as_bytes : string -> option (list Byte.byte);
  read_excel : list Byte.byte -> option DataFrame;  (** with the kwargs *)
  read_csv : list Byte.byte -> option DataFrame;    (** with the kwargs *)
  upload_ok : bool                  (** [log_blob.upload_from_string] does not raise *)
}.

Record Args := mkArgs {
  bucket_name : string;
  prefix : string;
  file_type : string;
  file_prefix : option string;
  delimiter : bool;
  read_log_file : bool
}.

Definition log_filename : string := "file_already_read.txt".

Section Run.
Variable env : Env.

Definition log_exists : M bool := fun s =>
  if exists_ok env
  then (Ok (match ledger s with Some _ => true | None => false end), s)
  else (Raise, s).

Definition download_as_text : M string := fun s =>
  match ledger s with
  | Some t => if text_ok env then (Ok t, s) else (Raise, s)
  | None => (Raise, s)
  end.

Definition upload_from_string (content : string) : M unit := fun s =>
  if upload_ok env
  then (Ok tt, mkStore (Some content) (S (uploads s)))
  else (Raise, mkStore (ledger s) (S (uploads s))).

(** [[f.strip() for f in log_content.split("\n") if f.strip()]] *)
Definition parse_ledger (log_content : string) : list string :=
  filter (fun f => negb (String.eqb f EmptyString))
         (map strip (split_on newline_char log_content)).

(** Step 2: reading the log *)
Definition read_files_already_read : M (list string) :=
  b <- log_exists ;;
  if b then (t <- download_as_text ;; ret (parse_ledger t)) else ret [].

(** Step 3: the list comprehension building [candidate_files] *)
Definition is_candidate (file_type : string) (file_prefix : option string)
    (name : string) : bool :=
  endswith name file_type
  && match file_prefix with
     | None => true
     | Some p => startswith (trailing_name name) p
     end
  && negb (String.eqb (trailing_name name) log_filename).

Definition candidate_files (file_type : string) (file_prefix : option string)
    (blobs : list string) : list string :=
  filter (is_candidate file_type file_prefix) blobs.

(** Step 4: one iteration of the loop building [files_to_read] and
    [files_to_update_log] *)
Definition select_step (read_log : bool) (already : list string)
    (acc : list string * list string) (blob : string) : list string * list string :=
  let '(to_read, to_update) := acc in
  let file_name := trailing_name blob in
  if read_log && mem file_name already then acc
  else (to_read ++ [blob], to_update ++ [file_name]).

Definition select_files (read_log : bool) (already cands : list string)
    : list string * list string :=
  fold_left (select_step read_log already) cands ([], []).

(** Step 5, body of the inner [try]: [Ok None] is the [continue] of an
    unsupported [file_type]. *)
Definition read_table (file_type : string) (blob : string) : exc (option DataFrame) :=
  match download_as_bytes env blob with
  | None => Raise
  | Some file_bytes =>
      if String.eqb file_type ".xlsx" then
        match read_excel env file_bytes with Some df => Ok (Some df) | None => Raise end
      else if String.eqb file_type ".csv" then
        match read_csv env file_bytes with Some df => Ok (Some df) | None => Raise end
      else Ok None
  end.

Definition read_step (file_type : string) (acc : list DataFrame * list string)
    (blob : string) : list DataFrame * list string :=
  let '(all_dataframes, to_update) := acc in
  let file_name := trailing_name blob in
  match read_table file_type blob with
  | Ok (Some df) => (all_dataframes ++ [set_column "file" file_name df], to_update)
  | Ok None => acc
  | Raise =>
      (all_dataframes,
       if mem file_name to_update then remove file_name to_update else to_update)
  end.

Definition read_loop (file_type : string) (to_read to_update : list string)
    : list DataFrame * list string :=
  fold_left (read_step file_type) to_read ([], to_update).

Definition is_nil {A} (l : list A) : bool := match l with [] => true | _ => false end.

(** Step 6: the ledger write with its own [try].  [log_blob] is a Blob
    object, truthy exactly when [read_log_file] holds. *)
Definition write_log (read_log : bool) (already to_update : list string) : M unit :=
  if read_log && negb (is_nil to_update)
  then try_except (upload_from_string (join newline (already ++ to_update))) (ret tt)
  else ret tt.

(** Steps 3 to 6, once the log has been read and the bucket listed. *)
Definition process_blobs (a : Args) (already blobs : list string) : M DataFrame :=
  let cands := candidate_files (file_type a) (file_prefix a) blobs in
  if is_nil cands then ret empty_df else
  let '(to_read, to_update) := select_files (read_log_file a) already cands in
  if is_nil to_read then ret empty_df else
  let '(all_dataframes, to_update') := read_loop (file_type a) to_read to_update in
  if is_nil all_dataframes then ret empty_df else
  let final_df := concat all_dataframes in
  _ <- write_log (read_log_file a) already to_update' ;;
  ret final_df.

(** The body of the outer [try]. *)
Definition body (a : Args) : M DataFrame :=
  if negb (client_ok env) then raise else
  already <- (if read_log_file a then read_files_already_read else ret []) ;;
  blobs <- lift (of_option (list_blobs env (prefix a) (delimiter a))) ;;
  process_blobs a already blobs.

Definition read_gcs_files_to_dataframes_aserta (a : Args) : M DataFrame :=
  try_except (body a) (ret empty_df).

End Run.

(** Names that survive the ledger's text format unchanged. *)
Definition clean_name (n : string) : bool :=
  String.eqb (strip n) n && negb (String.eqb n EmptyString) && negb (has_newline n).

(** The names recorded in the ledger object of a store. *)
Definition ledger_names (s : Store) : list string :=
  match ledger s with Some t => parse_ledger t | None => [] end.

(** Files of [to_read] whose inner [try] did not raise, and those that
    produced a DataFrame. *)
Definition not_failed (env : Env) (ft b : string) : bool :=
  match read_table env ft b with Raise => false | Ok _ => true end.

Definition parsed_ok (env : Env) (ft b : string) : bool :=
  match read_table env ft b with Ok (Some _) => true | _ => false end.

Definition tagged_frames (env : Env) (ft : string) (l : list string) : list DataFrame :=
  flat_map (fun b => match read_table env ft b with
                     | Ok (Some df) => [set_column "file" (trailing_name b) df]
                     | _ => []
                     end) l.

(** The store after the ledger-write block of step 6. *)
Definition after_write (env : Env) (read_log : bool) (already to_update : list string)
    (s : Store) : Store :=
  if read_log && negb (is_nil to_update)
  then if upload_ok env
       then mkStore (Some (join newline (already ++ to_update))) (S (uploads s))
       else mkStore (ledger s) (S (uploads s))
  else s.

(** A sequence of runs against one store. *)
Fixpoint run_all (runs : list (Env * Args)) (s : Store) : Store :=
  match runs with
  | [] => s
  | (e, a) :: rest => run_all rest (snd (read_gcs_files_to_dataframes_aserta e a s))
  end.

(** [files_to_read] keeps a candidate unless the log is used and lists it. *)
Definition keep (read_log : bool) (already : list string) (b : string) : bool :=
  negb (read_log && mem (trailing_name b) already).

(** The names the run starts from: the ledger's when the log is used. *)
Definition already_of (a : Args) (s : Store) : list string :=
  if read_log_file a then ledger_names s else [].

(** The same collaborators with a different upload behaviour. *)
Definition with_upload (env : Env) (ok : bool) : Env :=
  mkEnv (client_ok env) (exists_ok env) (text_ok env) (list_blobs env)
        (download_as_bytes env) (read_excel env) (read_csv env) ok.

(** Concrete stores and collaborators used to exercise the run. *)
Module Examples.

Definition args (ft : string) (read_log : bool) : Args :=
  mkArgs "bucket" "data" ft None false read_log.

Definition store0 : Store := mkStore None 0.

Definition frame1 : DataFrame := mkDF ["x"] [[("x", "1")]].

(** A CSV with a header line and no data rows. *)
Definition header_only : DataFrame := mkDF ["x"] [].

(** Lists [names]; downloading a name of [bad] raises; every download
    that succeeds parses to [df]; uploads succeed when [up]. *)
Definition env (names bad : list string) (df : DataFrame) (up : bool) : Env :=
  mkEnv true true true (fun _ _ => Some names)
        (fun n => if mem n bad then None else Some [])
        (fun _ => Some df) (fun _ => Some df) up.

End Examples.

(** ** [extraer_excel_gcs]

    One download and one [pd.read_excel] with the caller's kwargs, with no
    [try]: the collaborators are those of the bucket [bucket_name]. *)
Definition extraer_excel_gcs (env : Env) (file_path : string) : exc DataFrame :=
  if negb (client_ok env) then Raise else
  match download_as_bytes env file_path with
  | None => Raise
  | Some file_bytes =>
      match read_excel env file_bytes with
      | Some df => Ok df
      | None => Raise
      end
  end.

(** ** Account codes: [serie_cuentaajustada] and [buscarcuenta]

    [serie_cuentaajustada] is modelled on a column [df[columnacuenta]] of
    an integer dtype, given by its values.  [astype("int64")] keeps an
    int64 value and wraps any other integer modulo 2^64 into the int64
    range, as numpy's integer casts do; [astype(str)] then renders each
    value as Python's [str(int)], whose characters are ASCII, one byte
    each.  Whether that [astype(str)] has the object dtype the [assert]
    asks for depends on the pandas version: it does before pandas 3, and
    it has the [str] dtype from pandas 3 on or under
    [future.infer_string]; [str_object] says which.  A cell of
    [datos_eeva.Cuenta] is a Python string, or [None] for any other value
    (NaN, None, a number). *)
Module Cuentas.

(** [str(n)] for [n >= 0]: decimal digits, most significant first.  The
    fuel [S (N.size_nat n)] exceeds the number of decimal digits. *)
Definition digit_char (d : N) : ascii := ascii_of_N (48 + d).

Fixpoint digits_fuel (fuel : nat) (n : N) : list ascii :=
  match fuel with
  | O => []
  | S f =>
      if (n <? 10)%N then [digit_char n]
      else digits_fuel f (n / 10) ++ [digit_char (n mod 10)]
  end.

Definition digits (n : N) : list ascii := digits_fuel (S (N.size_nat n)) n.

(** [str(n)] on an int64 value *)
Definition str_Z (z : Z) : string :=
  if (z <? 0)%Z then String "-" (string_of_list_ascii (digits (Z.abs_N z)))
  else string_of_list_ascii (digits (Z.abs_N z)).

(** [astype("int64")] on an integer value: two's complement on 64 bits. *)
Definition wrap64 (z : Z) : Z :=
  let m := (z mod 2 ^ 64)%Z in if (m <? 2 ^ 63)%Z then m else (m - 2 ^ 64)%Z.

(** [s[i:j]] for [0 <= i <= j], on an ASCII string *)
Definition slice (i j : nat) (s : string) : string := substring i (j - i) s.

(** A UTF-8 continuation byte *)
Definition is_cont (b : ascii) : bool :=
  let n := nat_of_ascii b in Nat.leb 128 n && Nat.ltb n 192.

(** The characters of a string, each as its bytes: a leading byte and the
    continuation bytes after it. *)
Fixpoint code_points (l : list ascii) : list (list ascii) :=
  match l with
  | [] => []
  | b :: t =>
      match code_points t with
      | (c :: cs) :: rest =>
          if is_cont c then (b :: c :: cs) :: rest else [b] :: (c :: cs) :: rest
      | r => [b] :: r
      end
  end.

(** [len(s)] *)
Definition py_len (s : string) : nat := length (code_points (list_ascii_of_string s)).

(** [s[i:j]] for [0 <= i <= j], on the characters *)
Definition py_slice (i j : nat) (s : string) : string :=
  string_of_list_ascii
    (List.concat (firstn (j - i) (skipn i (code_points (list_ascii_of_string s))))).

(** [s[-k:]] *)
Definition slice_last (k : nat) (s : string) : string :=
  substring (String.length s - k) k s.

(** [s[-k]] for [k >= 1]; [None] is the [IndexError]. *)
Definition index_last (k : nat) (s : string) : option ascii :=
  if Nat.ltb (String.length s) k then None else String.get (String.length s - k) s.

Fixpoint drop_zeros (l : list ascii) : list ascii :=
  match l with
  | [] => []
  | c :: t => if Ascii.eqb c "0"%char then drop_zeros t else l
  end.

(** [s.rstrip("0")] *)
Definition rstrip0 (s : string) : string :=
  string_of_list_ascii (rev (drop_zeros (rev (list_ascii_of_string s)))).

(** [s.ljust(w, c)] *)
Definition ljust (w : nat) (c : ascii) (s : string) : string :=
  (s ++ string_of_list_ascii (repeat c (w - String.length s)))%string.

(** [s.zfill(w)]: zeros go after a leading sign. *)
Definition zfill (w : nat) (s : string) : string :=
  if Nat.leb w (String.length s) then s
  else
    let fill := string_of_list_ascii (repeat "0"%char (w - String.length s)) in
    match s with
    | String c rest =>
        if Ascii.eqb c "+"%char || Ascii.eqb c "-"%char
        then String c (fill ++ rest)%string else (fill ++ s)%string
    | EmptyString => fill
    end.

(** [cuentaoriginal.str[-3:] == "000"] on one cell *)
Definition es_principal (x : string) : bool := String.eqb (slice_last 3 x) "000".

(** [lambda x: x[1:5].rstrip("0").ljust(4, "0")] *)
Definition ajuste_principal (x : string) : exc string :=
  Ok (ljust 4 "0"%char (rstrip0 (slice 1 5 x))).

(** [lambda x: x[1:5].rstrip("0") + x[-3].zfill(2)] *)
Definition ajuste_secundaria (x : string) : exc string :=
  match index_last 3 x with
  | Some c => Ok (rstrip0 (slice 1 5 x) ++ zfill 2 (String c EmptyString))%string
  | None => Raise
  end.

(** [cur[mask] = orig[mask].apply(f)]: the selected cells are recomputed
    from [orig]; any exception of [f] propagates. *)
Fixpoint assign_masked (mask : list bool) (f : string -> exc string)
    (orig cur : list string) : exc (list string) :=
  match mask, orig, cur with
  | m :: ms, o :: os, c :: cs =>
      match (if m then f o else Ok c), assign_masked ms f os cs with
      | Ok v, Ok r => Ok (v :: r)
      | _, _ => Raise
      end
  | _, _, _ => Ok []
  end.

Definition serie_cuentaajustada (str_object : bool) (cuenta : list Z)
    : exc (list string) :=
  let cuentaoriginal := map (fun n => str_Z (wrap64 n)) cuenta in
  if negb str_object then Raise else
  let esprincipal := map es_principal cuentaoriginal in
  let essecundaria :=
    map (fun '(x, p) => String.eqb (slice_last 2 x) "00" && negb p)
        (combine cuentaoriginal esprincipal) in
  match assign_masked esprincipal ajuste_principal cuentaoriginal cuentaoriginal with
  | Raise => Raise
  | Ok cuentaajustada =>
      assign_masked essecundaria ajuste_secundaria cuentaoriginal cuentaajustada
  end.

(** [datos_eeva.Cuenta.str[1:limite] == cuenta] on one row *)
Definition cuenta_match (limite : nat) (cuenta : string) (r : Row) : bool :=
  match row_get "Cuenta" r with
  | Some c => String.eqb (py_slice 1 limite c) cuenta
  | None => false
  end.

(** [buscarcuenta].  [datos_eeva.Cuenta] raises without a [Cuenta]
    column, and with a repeated label it is a DataFrame, which has no
    [.str].  [.str] accepts a column holding a string; on a column holding
    none it accepts the object and string dtypes and refuses the others (a
    float column of NaN, a numeric column): [str_dtype] says which. *)
Definition buscarcuenta (str_dtype : bool) (datos_eeva : DataFrame) (cuenta : string)
    : exc DataFrame :=
  let tipo := if Nat.eqb (py_len cuenta) 4 then "madre" else "padre" in
  let limite := if String.eqb tipo "madre" then 5 else 7 in
  if negb (Nat.eqb (count_occ string_dec (df_columns datos_eeva) "Cuenta") 1) then Raise
  else if negb (str_dtype
                || existsb (fun r => match row_get "Cuenta" r with
                                     | Some _ => true | None => false end)
                           (df_rows datos_eeva))
  then Raise
  else Ok (mkDF (df_columns datos_eeva)
                (filter (cuenta_match limite cuenta) (df_rows datos_eeva))).

(** The adjusted code of one account, as the three branches compute it. *)
Definition ajustada (n : Z) : string :=
  let x := str_Z n in
  if es_principal x then ljust 4 "0"%char (rstrip0 (slice 1 5 x))
  else if String.eqb (slice_last 2 x) "00" then
    match index_last 3 x with
    | Some c => (rstrip0 (slice 1 5 x) ++ zfill 2 (String c EmptyString))%string
    | None => x
    end
  else x.

End Cuentas.

(** ** [upload_to_bigquery]

    The caller's DataFrame is shared with the function, which assigns its
    partition column in place; it is part of the state, beside the log of
    the calls made to BigQuery.  Client, dataset, table and [to_gbq] calls
    are the fields of a [BqEnv], each of which may raise.  The [print]s are
    left out. *)
Module BigQuery.

(** The dtypes the schema step tells apart. *)
Inductive dtype :=
| DInt | DFloat | DBool
| DDatetime (tz_aware : bool)
  (* a naive [datetime64[s]], [[ms]] or [[us]] column holding a value
     outside the [datetime64[ns]] range (1677-2262), on which
     [astype("datetime64[ns]")] raises [OutOfBoundsDatetime] *)
| DDatetimeWide
| DObject | DString
| DOther.

(** A column: its name, dtype and, for a datetime column, each row's
    [x.time()] in microseconds after midnight ([None] for NaT). *)
Record BqCol := mkCol { cname : string; cdtype : dtype; ctimes : list (option N) }.

(** Rows are what [df.iloc] slices; the columns carry what the schema step
    reads. *)
Record BqFrame := mkBq { bq_cols : list BqCol; bq_rows : list Row }.

Inductive event :=
| CreateDataset (dataset_id location : string)
| CreateTable (table_id : string) (schema : list (string * string))
    (time_partitioning : option (string * string)) (clustering_fields : option (list string))
| ToGbq (destination_table : string) (chunk : list Row) (if_exists : string).

Record BqState := mkBqState { bq_df : BqFrame; bq_calls : list event }.

Record BqEnv := mkBqEnv {
  bq_client_ok : bool;          (** [bigquery.Client()], [client.dataset(...)] *)
  get_dataset_ok : bool;        (** [client.get_dataset] does not raise *)
  create_dataset_ok : bool;     (** [client.create_dataset] does not raise *)
  to_datetime : BqCol -> option BqCol;  (** [pd.to_datetime(..., errors="raise")] *)
  create_table_error : option string;   (** [str(e)] of [client.create_table] *)
  to_gbq_ok : nat -> bool       (** the [to_gbq] call for the chunk at offset [i] *)
}.

Record UploadArgs := mkUploadArgs {
  project_id : string;
  dataset_id : string;
  table_id : string;
  partitioning_field : option string;
  time_partitioning_type : string;
  clustering_fields : option (list string);
  chunk_size : Z;
  if_exists : string;
  location : string
}.

Definition BM (A : Type) : Type := BqState -> exc A * BqState.

Definition bret {A} (a : A) : BM A := fun st => (Ok a, st).
Definition bfail {A} : BM A := fun st => (Raise, st).
Definition bbind {A B} (m : BM A) (k : A -> BM B) : BM B :=
  fun st => match m st with
            | (Ok a, st') => k a st'
            | (Raise, st') => (Raise, st')
            end.
Definition blift {A} (e : exc A) : BM A := fun st => (e, st).
Definition btry {A} (m h : BM A) : BM A :=
  fun st => match m st with
            | (Ok a, st') => (Ok a, st')
            | (Raise, st') => h st'
            end.

Local Notation "x <~ m ;; k" := (bbind m (fun x => k))
  (at level 61, m at next level, right associativity).

Definition emit (e : event) : BM unit :=
  fun st => (Ok tt, mkBqState (bq_df st) (bq_calls st ++ [e])).

Definition get_frame : BM BqFrame := fun st => (Ok (bq_df st), st).

(** [df[p] = c] on an existing column *)
Definition set_col (p : string) (c : BqCol) : BM unit :=
  fun st =>
    (Ok tt,
     mkBqState
       (mkBq (map (fun d => if String.eqb (cname d) p then mkCol p (cdtype c) (ctimes c) else d)
                  (bq_cols (bq_df st)))
             (bq_rows (bq_df st)))
       (bq_calls st)).

(** [df[p]] as a Series: with a repeated label it is a DataFrame, which
    has no [.dtype]. *)
Definition lookup_col (p : string) (cols : list BqCol) : exc BqCol :=
  match filter (fun d => String.eqb (cname d) p) cols with
  | [d] => Ok d
  | _ => Raise
  end.

Definition is_object (d : dtype) : bool := match d with DObject => true | _ => false end.

(** [pd.api.types.is_datetime64_any_dtype] *)
Definition is_datetime (d : dtype) : bool :=
  match d with DDatetime _ | DDatetimeWide => true | _ => false end.

(** [s.upper()] on ASCII *)
Definition upper_char (c : ascii) : ascii :=
  let n := nat_of_ascii c in
  if Nat.leb 97 n && Nat.leb n 122 then ascii_of_nat (n - 32) else c.

Definition upper (s : string) : string :=
  string_of_list_ascii (map upper_char (list_ascii_of_string s)).

(** [sub in s] *)
Fixpoint str_contains (sub s : string) : bool :=
  String.prefix sub s
  || match s with
     | EmptyString => false
     | String _ s' => str_contains sub s'
     end.

(** [if partitioning_field:] *)
Definition truthy_field (f : option string) : option string :=
  match f with
  | Some p => if String.eqb p EmptyString then None else Some p
  | None => None
  end.

(** [df[p].dt.date]: a column of [datetime.date] objects *)
Definition dt_date (c : BqCol) : BqCol := mkCol (cname c) DObject (ctimes c).

(** Step 1: [get_dataset], and [create_dataset] when it raises. *)
Definition ensure_dataset (env : BqEnv) (a : UploadArgs) : BM unit :=
  btry (if get_dataset_ok env then bret tt else bfail)
       (if create_dataset_ok env then emit (CreateDataset (dataset_id a) (location a))
        else bfail).

(** Step 2, under [if partitioning_field:] *)
Definition check_partition (env : BqEnv) (p tpt : string) : BM unit :=
  df <~ get_frame ;;
  if negb (mem p (map cname (bq_cols df))) then bfail else
  col <~ blift (lookup_col p (bq_cols df)) ;;
  _ <~ (if is_object (cdtype col)
        then match to_datetime env col with
             | Some c' => set_col p c'
             | None => bfail
             end
        else bret tt) ;;
  df' <~ get_frame ;;
  col' <~ blift (lookup_col p (bq_cols df')) ;;
  if negb (is_datetime (cdtype col')) then bfail else
  if String.eqb (upper tpt) "DAY" then set_col p (dt_date col') else bret tt.

Definition partition_step (env : BqEnv) (a : UploadArgs) : BM unit :=
  match truthy_field (partitioning_field a) with
  | Some p => check_partition env p (time_partitioning_type a)
  | None => bret tt
  end.

(** [pd.Timestamp.min] is 1677-09-21 00:12:43.145224193; its [.time()]
    keeps the microseconds. *)
Definition timestamp_min_time : N := 763145224.

Definition dropna (l : list (option N)) : list N :=
  flat_map (fun o => match o with Some t => [t] | None => [] end) l.

(** Step 3, one column.  A datetime column is read again as [df[col]]:
    with a repeated label that is a DataFrame, whose iteration yields the
    labels, on which [.time()] raises; a tz-aware column, and a naive one
    holding a value outside the nanosecond range, raise in
    [astype("datetime64[ns]")]. *)
Definition schema_field (cols : list BqCol) (c : BqCol) : exc (string * string) :=
  match cdtype c with
  | DInt => Ok (cname c, "INTEGER")
  | DFloat => Ok (cname c, "FLOAT")
  | DBool => Ok (cname c, "BOOLEAN")
  | DDatetime tz =>
      if tz || negb (Nat.eqb (length (filter (fun d => String.eqb (cname d) (cname c)) cols)) 1)
      then Raise
      else if forallb (fun t => N.eqb t timestamp_min_time) (dropna (ctimes c))
      then Ok (cname c, "DATE")
      else Ok (cname c, "TIMESTAMP")
  | DDatetimeWide => Raise
  | DObject | DString => Ok (cname c, "STRING")
  | DOther => Ok (cname c, "STRING")
  end.

Fixpoint schema_of (cols cs : list BqCol) : exc (list (string * string)) :=
  match cs with
  | [] => Ok []
  | c :: t =>
      match schema_field cols c, schema_of cols t with
      | Ok f, Ok r => Ok (f :: r)
      | _, _ => Raise
      end
  end.

Definition build_schema : BM (list (string * string)) :=
  df <~ get_frame ;; blift (schema_of (bq_cols df) (bq_cols df)).

(** [getattr(TimePartitioningType, ...)] finds these. *)
Definition partition_types : list string := ["DAY"; "HOUR"; "MONTH"; "YEAR"].

(** Step 4 *)
Definition table_partitioning (a : UploadArgs) : BM (option (string * string)) :=
  match truthy_field (partitioning_field a) with
  | Some p =>
      if mem (upper (time_partitioning_type a)) partition_types
      then bret (Some (p, upper (time_partitioning_type a)))
      else bfail
  | None => bret None
  end.

(** [if clustering_fields:] *)
Definition table_clustering (a : UploadArgs) : option (list string) :=
  match clustering_fields a with
  | Some [] | None => None
  | Some l => Some l
  end.

Definition full_table_id (a : UploadArgs) : string :=
  (project_id a ++ "." ++ dataset_id a ++ "." ++ table_id a)%string.

(** Step 5: an error naming an existing table is passed over. *)
Definition create_table (env : BqEnv) (a : UploadArgs)
    (schema : list (string * string)) (part : option (string * string)) : BM unit :=
  match create_table_error env with
  | None => emit (CreateTable (full_table_id a) schema part (table_clustering a))
  | Some msg => if str_contains "Already Exists" msg then bret tt else bfail
  end.

(** [range(0, stop, step)] *)
Fixpoint range_up (fuel i step stop : nat) : list nat :=
  match fuel with
  | O => []
  | S f => if Nat.ltb i stop then i :: range_up f (i + step) step stop else []
  end.

Definition py_range (stop : nat) (step : Z) : exc (list nat) :=
  if Z.eqb step 0 then Raise
  else if Z.ltb step 0 then Ok []
  else Ok (range_up stop 0 (Z.to_nat step) stop).

Definition if_exists_at (i : nat) (if_exists : string) : string :=
  if Nat.eqb i 0 && String.eqb if_exists "replace" then "replace" else "append".

(** The loop of step 6 *)
Fixpoint upload_chunks (env : BqEnv) (dest : string) (rows : list Row) (size : nat)
    (if_exists : string) (offsets : list nat) : BM unit :=
  match offsets with
  | [] => bret tt
  | i :: rest =>
      let df_chunk := firstn size (skipn i rows) in
      if to_gbq_ok env i
      then (_ <~ emit (ToGbq dest df_chunk (if_exists_at i if_exists)) ;;
            upload_chunks env dest rows size if_exists rest)
      else bfail
  end.

(** Step 6 *)
Definition upload_rows (env : BqEnv) (a : UploadArgs) : BM unit :=
  df <~ get_frame ;;
  offsets <~ blift (py_range (length (bq_rows df)) (chunk_size a)) ;;
  upload_chunks env (full_table_id a) (bq_rows df) (Z.to_nat (chunk_size a)) (if_exists a) offsets.

(** Steps 1 to 5 *)
Definition prepare (env : BqEnv) (a : UploadArgs) : BM unit :=
  _ <~ ensure_dataset env a ;;
  _ <~ partition_step env a ;;
  schema <~ build_schema ;;
  part <~ table_partitioning a ;;
  create_table env a schema part.

Definition upload_body (env : BqEnv) (a : UploadArgs) : BM unit :=
  if negb (bq_client_ok env) then bfail else
  _ <~ prepare env a ;;
  upload_rows env a.

Definition upload_to_bigquery (env : BqEnv) (a : UploadArgs) : BM unit :=
  btry (upload_body env a) (bret tt).

(** The [to_gbq] calls of a log: destination, rows and [if_exists]. *)
Definition gbq_calls (calls : list event) : list (string * list Row * string) :=
  flat_map (fun e => match e with
                     | ToGbq d ch m => [(d, ch, m)]
                     | _ => []
                     end) calls.

End BigQuery.

(** Concrete inputs used to exercise [upload_to_bigquery] and the account
    code helpers. *)
Module BqExamples.
Import BigQuery.

(** Every collaborator succeeds; [pd.to_datetime] gives a naive column. *)
Definition env_ok : BqEnv :=
  mkBqEnv true true true (fun c => Some (mkCol (cname c) (DDatetime false) (ctimes c)))
          None (fun _ => true).

(** As [env_ok], but the [to_gbq] call for the chunk at offset [i] raises. *)
Definition env_fail_at (i : nat) : BqEnv :=
  mkBqEnv true true true (fun c => Some (mkCol (cname c) (DDatetime false) (ctimes c)))
          None (fun j => negb (Nat.eqb j i)).

(** As [env_ok], but [create_table] raises with message [msg]. *)
Definition env_create_error (msg : string) : BqEnv :=
  mkBqEnv true true true (fun c => Some (mkCol (cname c) (DDatetime false) (ctimes c)))
          (Some msg) (fun _ => true).

Definition args (part : option string) (tpt : string) (size : Z) (ie : string) : UploadArgs :=
  mkUploadArgs "project" "dataset" "table" part tpt None size ie "us-south1".

Definition row (k : string) : Row := [("id", k)].

(** An integer column and a naive datetime column whose values are all at
    midnight. *)
Definition cols : list BqCol := [mkCol "id" DInt []; mkCol "fecha" (DDatetime false) [Some 0%N; None; Some 0%N]].

Definition frame3 : BqFrame := mkBq cols [row "1"; row "2"; row "3"].

Definition frame0 : BqFrame := mkBq cols [].

(** A ledger of account codes. *)
Definition cuentas_df : DataFrame :=
  mkDF ["Cuenta"] [[("Cuenta", "1101000")]; [("Cuenta", "1101100")]; [("Cuenta", "1000")]].

End BqExamples.

(** ** Python string facts *)
Module StrFacts.

Lemma split_on_not_nil c s : split_on c s <> [].
Proof.
  destruct s as [|x s]; simpl; [discriminate|].
  destruct (Ascii.eqb x c); [discriminate|].
  destruct (split_on c s); discriminate.
Qed.

Lemma split_on_app c a b :
  split_on c (a ++ String c b)%string = split_on c a ++ split_on c b.
Proof.
  induction a as [|x a IH]; simpl.
  - rewrite Ascii.eqb_refl. reflexivity.
  - rewrite IH. destruct (Ascii.eqb x c); [reflexivity|].
    destruct (split_on c a) eqn:E; [exfalso; exact (split_on_not_nil c a E)|].
    reflexivity.
Qed.

Lemma split_on_no_sep s :
  has_newline s = false -> split_on newline_char s = [s].
Proof.
  unfold has_newline. induction s as [|x s IH];
    cbn [existsb list_ascii_of_string split_on]; [reflexivity|].
  intros H. apply orb_false_iff in H as [H1 H2].
  rewrite Ascii.eqb_sym, H1, IH by exact H2. reflexivity.
Qed.

Lemma split_on_pieces s :
  Forall (fun p => has_newline p = false) (split_on newline_char s).
Proof.
  unfold has_newline. induction s as [|x s IH]; cbn [split_on].
  - constructor; [reflexivity | constructor].
  - destruct (Ascii.eqb x newline_char) eqn:E.
    + constructor; [reflexivity | exact IH].
    + destruct (split_on newline_char s) as [|h t] eqn:Es.
      * constructor; [cbn [existsb list_ascii_of_string];
                       rewrite Ascii.eqb_sym, E; reflexivity | constructor].
      * inversion IH; subst. constructor; [|assumption].
        cbn [existsb list_ascii_of_string]. rewrite Ascii.eqb_sym, E. assumption.
Qed.

Lemma split_join l :
  l <> [] -> split_on newline_char (join newline l) = flat_map (split_on newline_char) l.
Proof.
  unfold join. induction l as [|x l IH]; intros Hne; [congruence|].
  destruct l as [|y l].
  - simpl. rewrite app_nil_r. reflexivity.
  - change (String.concat newline (x :: y :: l))
      with (x ++ String newline_char (String.concat newline (y :: l)))%string.
    rewrite split_on_app, IH by discriminate. reflexivity.
Qed.

Lemma parse_ledger_join l :
  parse_ledger (join newline l) = flat_map parse_ledger l.
Proof.
  destruct l as [|x l]; [reflexivity|].
  unfold parse_ledger. rewrite split_join by discriminate.
  generalize (x :: l) as m. clear. induction m as [|y m IH]; [reflexivity|].
  simpl. rewrite map_app, filter_app, IH. reflexivity.
Qed.

Lemma find_all_false {A} (f : A -> bool) l :
  (forall x, In x l -> f x = false) -> find f l = None.
Proof.
  induction l as [|a l IH]; simpl; intros H; [reflexivity|].
  rewrite H by (left; reflexivity). apply IH. intros x Hx. apply H. right. exact Hx.
Qed.

Lemma list_prefix_app p : forall l t, list_prefix p l = true -> list_prefix p (l ++ t) = true.
Proof.
  induction p as [|x p IH]; intros [|y l] t; simpl; try easy.
  intros H. apply andb_true_iff in H as [H1 H2]. rewrite H1, (IH l t H2). reflexivity.
Qed.

Lemma list_prefix_length p : forall l, list_prefix p l = true -> length p <= length l.
Proof.
  induction p as [|x p IH]; intros [|y l]; simpl; try easy; [lia|].
  intros H. apply andb_true_iff in H as [_ H]. apply IH in H. lia.
Qed.

Section Words.
Variable ws : list (list ascii).
Hypothesis ws_nonempty : forall w, In w ws -> w <> [].

Definition no_word (l : list ascii) : Prop := find (fun w => list_prefix w l) ws = None.

Lemma drop_words_fuel_none n l : no_word l -> drop_words_fuel ws n l = l.
Proof. destruct n; simpl; [reflexivity|]. unfold no_word. intros ->. reflexivity. Qed.

Lemma drop_words_fuel_spec n : forall l, length l <= n -> no_word (drop_words_fuel ws n l).
Proof.
  induction n as [|n IH]; intros l Hl; simpl.
  - destruct l; [|simpl in Hl; lia]. apply find_all_false.
    intros w Hw. destruct w; [exfalso; exact (ws_nonempty _ Hw eq_refl)|reflexivity].
  - destruct (find (fun w => list_prefix w l) ws) as [w|] eqn:E; [|exact E].
    apply find_some in E as [Hw Hp]. apply IH.
    apply list_prefix_length in Hp. rewrite length_skipn.
    destruct w; [exfalso; exact (ws_nonempty _ Hw eq_refl)|]. simpl in Hp |- *. lia.
Qed.

Lemma drop_words_fuel_suffix n : forall l, exists p, l = p ++ drop_words_fuel ws n l.
Proof.
  induction n as [|n IH]; intros l; simpl; [exists []; reflexivity|].
  destruct (find (fun w => list_prefix w l) ws) as [w|]; [|exists []; reflexivity].
  destruct (IH (skipn (length w) l)) as [p Hp].
  exists (firstn (length w) l ++ p). rewrite <- app_assoc, <- Hp.
  symmetry. apply firstn_skipn.
Qed.

Lemma no_word_prefix l t : no_word (l ++ t) -> no_word l.
Proof.
  unfold no_word. intros H. apply find_all_false. intros w Hw.
  apply not_true_iff_false. intros Hp.
  apply (list_prefix_app _ _ t) in Hp.
  pose proof (find_none _ _ H w Hw) as Hf. simpl in Hf. congruence.
Qed.

End Words.

Lemma utf8_encode_not_nil cp : utf8_encode cp <> [].
Proof.
  unfold utf8_encode.
  destruct (cp <? 128)%N; [discriminate|].
  destruct (cp <? 2048)%N; [discriminate|].
  destruct (cp <? 65536)%N; discriminate.
Qed.

Lemma ws_encodings_nonempty w : In w ws_encodings -> w <> [].
Proof.
  unfold ws_encodings. intros Hw. apply in_map_iff in Hw as [cp [<- _]].
  apply utf8_encode_not_nil.
Qed.

Lemma ws_rev_nonempty w : In w (map (@rev ascii) ws_encodings) -> w <> [].
Proof.
  intros Hw. apply in_map_iff in Hw as [v [<- Hv]].
  intros E. apply (ws_encodings_nonempty v Hv).
  rewrite <- (rev_involutive v), E. reflexivity.
Qed.

Lemma strip_idem s : strip (strip s) = strip s.
Proof.
  unfold strip. rewrite list_ascii_of_string_of_list_ascii. f_equal.
  set (m := drop_ws (list_ascii_of_string s)).
  assert (Hm : no_word ws_encodings m)
    by (apply drop_words_fuel_spec; [exact ws_encodings_nonempty|lia]).
  set (rr := drop_ws_rev (rev m)).
  destruct (drop_words_fuel_suffix (map (@rev ascii) ws_encodings) (length (rev m)) (rev m))
    as [p Hp].
  change (drop_words_fuel _ (length (rev m)) (rev m)) with rr in Hp.
  assert (Hrr : no_word (map (@rev ascii) ws_encodings) rr)
    by (apply drop_words_fuel_spec; [exact ws_rev_nonempty|lia]).
  assert (Em : m = rev rr ++ rev p)
    by (rewrite <- rev_app_distr, <- Hp, rev_involutive; reflexivity).
  assert (E1 : drop_ws (rev rr) = rev rr).
  { unfold drop_ws, drop_words. apply drop_words_fuel_none.
    apply (no_word_prefix _ _ (rev p)). rewrite <- Em. exact Hm. }
  assert (E2 : drop_ws_rev rr = rr).
  { unfold drop_ws_rev, drop_words. apply drop_words_fuel_none. exact Hrr. }
  rewrite E1, rev_involutive, E2. reflexivity.
Qed.

Lemma drop_words_incl ws n l x : In x (drop_words_fuel ws n l) -> In x l.
Proof.
  intros H. destruct (drop_words_fuel_suffix ws n l) as [p Hp].
  rewrite Hp. apply in_or_app. right. exact H.
Qed.

Lemma strip_no_newline s : has_newline s = false -> has_newline (strip s) = false.
Proof.
  unfold has_newline, strip. rewrite list_ascii_of_string_of_list_ascii.
  intros H. apply not_true_iff_false. intros Hx.
  apply existsb_exists in Hx as [x [Hin Hx]].
  apply in_rev, drop_words_incl, in_rev, drop_words_incl in Hin.
  assert (existsb (Ascii.eqb newline_char) (list_ascii_of_string s) = true)
    by (apply existsb_exists; eauto).
  congruence.
Qed.

Lemma parse_ledger_clean_one n : clean_name n = true -> parse_ledger n = [n].
Proof.
  unfold clean_name. intros H.
  apply andb_true_iff in H as [H H3]. apply andb_true_iff in H as [H1 H2].
  apply String.eqb_eq in H1. apply negb_true_iff in H2, H3.
  unfold parse_ledger. rewrite split_on_no_sep by exact H3.
  simpl. rewrite H1, H2. reflexivity.
Qed.

Lemma parse_ledger_clean t : Forall (fun n => clean_name n = true) (parse_ledger t).
Proof.
  unfold parse_ledger. pose proof (split_on_pieces t) as Hp.
  induction Hp as [|p l Hp _ IH]; simpl; [constructor|].
  destruct (String.eqb (strip p) EmptyString) eqn:E; simpl; [exact IH|].
  constructor; [|exact IH].
  unfold clean_name. rewrite strip_idem, String.eqb_refl, E, strip_no_newline by exact Hp.
  reflexivity.
Qed.

Lemma flat_map_parse_clean l :
  Forall (fun n => clean_name n = true) l -> flat_map parse_ledger l = l.
Proof.
  induction 1 as [|n l Hn _ IH]; [reflexivity|].
  simpl. rewrite parse_ledger_clean_one by exact Hn. simpl. rewrite IH. reflexivity.
Qed.

(** Rewriting the ledger with [already ++ new] keeps [already] in front. *)
Lemma parse_ledger_append t l :
  parse_ledger (join newline (parse_ledger t ++ l)) = parse_ledger t ++ flat_map parse_ledger l.
Proof.
  rewrite parse_ledger_join, flat_map_app, flat_map_parse_clean
    by apply parse_ledger_clean.
  reflexivity.
Qed.

Lemma in_flat_map_parse n l :
  clean_name n = true -> In n l -> In n (flat_map parse_ledger l).
Proof.
  intros Hc Hin. apply in_flat_map. exists n. split; [exact Hin|].
  rewrite parse_ledger_clean_one by exact Hc. left; reflexivity.
Qed.

End StrFacts.

(** ** Facts about one run *)
Module RunFacts.
Import StrFacts.

Lemma select_files_spec rl already cands :
  select_files rl already cands =
  (filter (keep rl already) cands, map trailing_name (filter (keep rl already) cands)).
Proof.
  unfold select_files.
  assert (G : forall tr up,
    fold_left (select_step rl already) cands (tr, up) =
    (tr ++ filter (keep rl already) cands,
     up ++ map trailing_name (filter (keep rl already) cands))).
  { induction cands as [|b cands IH]; intros tr up; simpl.
    - rewrite !app_nil_r. reflexivity.
    - change (keep rl already b) with (negb (rl && mem (trailing_name b) already)).
      destruct (rl && mem (trailing_name b) already); simpl.
      + apply IH.
      + rewrite IH, <- !app_assoc. reflexivity. }
  apply G.
Qed.

Lemma read_loop_frames env ft l dfs up :
  fst (fold_left (read_step env ft) l (dfs, up)) = dfs ++ tagged_frames env ft l.
Proof.
  revert dfs up. induction l as [|b l IH]; intros dfs up; simpl.
  - rewrite app_nil_r. reflexivity.
  - destruct (read_table env ft b) as [[df|]|]; rewrite IH;
      rewrite ?app_assoc, ?app_nil_r; reflexivity.
Qed.

Lemma remove_perm x l : In x l -> Permutation l (x :: remove x l).
Proof.
  induction l as [|h l IH]; simpl; [tauto|].
  destruct (String.eqb h x) eqn:E.
  - apply String.eqb_eq in E. subst. intros _. reflexivity.
  - apply String.eqb_neq in E. intros [H|H]; [congruence|].
    rewrite (IH H) at 1. apply perm_swap.
Qed.

Lemma remove_app_notin x pre r :
  ~ In x pre -> remove x (pre ++ x :: r) = pre ++ r.
Proof.
  induction pre as [|h pre IH]; simpl; intros H.
  - rewrite String.eqb_refl. reflexivity.
  - destruct (String.eqb h x) eqn:E.
    + apply String.eqb_eq in E. tauto.
    + rewrite IH by tauto. reflexivity.
Qed.

Lemma mem_In x l : mem x l = true <-> In x l.
Proof.
  unfold mem. rewrite existsb_exists. split.
  - intros [y [Hy E]]. apply String.eqb_eq in E. subst. exact Hy.
  - intros H. exists x. split; [exact H | apply String.eqb_refl].
Qed.

(** The pending-update list, up to order: the names of the files whose
    inner [try] did not raise. *)
Lemma read_step_not_failed env ft dfs up b :
  not_failed env ft b = true -> exists dfs', read_step env ft (dfs, up) b = (dfs', up).
Proof.
  unfold not_failed, read_step. destruct (read_table env ft b) as [[df|]|];
    [eexists; reflexivity | eexists; reflexivity | discriminate].
Qed.

Lemma read_step_failed env ft dfs up b :
  not_failed env ft b = false ->
  read_step env ft (dfs, up) b =
  (dfs, if mem (trailing_name b) up then remove (trailing_name b) up else up).
Proof.
  unfold not_failed, read_step. destruct (read_table env ft b) as [[df|]|];
    [discriminate | discriminate | reflexivity].
Qed.

(** The pending-update list, up to order: the names of the files whose
    inner [try] did not raise. *)
Lemma read_loop_perm env ft l dfs up pre :
  Permutation up (pre ++ map trailing_name l) ->
  Permutation (snd (fold_left (read_step env ft) l (dfs, up)))
              (pre ++ map trailing_name (filter (not_failed env ft) l)).
Proof.
  revert dfs up pre.
  induction l as [|b l IH]; intros dfs up pre Hp; cbn [fold_left filter map] in *;
    [exact Hp|].
  destruct (not_failed env ft b) eqn:Enf.
  - destruct (read_step_not_failed env ft dfs up b Enf) as [dfs' ->].
    specialize (IH dfs' up (pre ++ [trailing_name b])).
    rewrite <- !app_assoc in IH. cbn [app map] in *. apply IH. exact Hp.
  - rewrite read_step_failed by exact Enf.
    assert (Hin : In (trailing_name b) up).
    { apply (Permutation_in _ (Permutation_sym Hp)). apply in_app_iff. right. left. reflexivity. }
    apply mem_In in Hin as Hm. rewrite Hm.
    apply IH. apply Permutation_cons_inv with (a := trailing_name b).
    rewrite <- (remove_perm _ _ Hin), Hp. apply Permutation_sym, Permutation_middle.
Qed.

(** The pending-update list exactly, when no failed file shares its
    trailing name with a file that did not fail. *)
Lemma read_loop_exact env ft l dfs pre :
  (forall b, In b l -> not_failed env ft b = false ->
     ~ In (trailing_name b) (pre ++ map trailing_name (filter (not_failed env ft) l))) ->
  snd (fold_left (read_step env ft) l (dfs, pre ++ map trailing_name l)) =
  pre ++ map trailing_name (filter (not_failed env ft) l).
Proof.
  revert dfs pre.
  induction l as [|b l IH]; intros dfs pre H; cbn [fold_left filter map] in *;
    [reflexivity|].
  destruct (not_failed env ft b) eqn:Enf; cbn [map] in H.
  - destruct (read_step_not_failed env ft dfs (pre ++ trailing_name b :: map trailing_name l) b Enf)
      as [dfs' ->].
    specialize (IH dfs' (pre ++ [trailing_name b])).
    rewrite <- !app_assoc in IH. cbn [app map] in *. apply IH.
    intros b' Hb' Hf. apply H; [right; exact Hb' | exact Hf].
  - rewrite read_step_failed by exact Enf.
    assert (Hn : ~ In (trailing_name b) pre).
    { intros Hi. apply (H b (or_introl eq_refl) Enf). apply in_app_iff. left. exact Hi. }
    assert (Hm : mem (trailing_name b) (pre ++ trailing_name b :: map trailing_name l) = true).
    { apply mem_In, in_app_iff. right. left. reflexivity. }
    rewrite Hm, remove_app_notin by exact Hn.
    apply IH. intros b' Hb' Hf. apply H; [right; exact Hb' | exact Hf].
Qed.

Lemma parsed_ok_type env ft b :
  parsed_ok env ft b = true -> ft = ".xlsx" \/ ft = ".csv".
Proof.
  unfold parsed_ok, read_table.
  destruct (download_as_bytes env b); [|discriminate].
  destruct (String.eqb ft ".xlsx") eqn:E1; [left; apply String.eqb_eq; exact E1|].
  destruct (String.eqb ft ".csv") eqn:E2; [right; apply String.eqb_eq; exact E2|].
  discriminate.
Qed.

Lemma not_failed_parsed env ft b :
  ft = ".xlsx" \/ ft = ".csv" -> not_failed env ft b = parsed_ok env ft b.
Proof.
  intros Hft. unfold not_failed, parsed_ok, read_table.
  destruct (download_as_bytes env b); [|reflexivity].
  destruct Hft; subst; simpl.
  - destruct (read_excel env l); reflexivity.
  - destruct (read_csv env l); reflexivity.
Qed.

Lemma tagged_frames_nil env ft l :
  tagged_frames env ft l = [] -> forall b, In b l -> parsed_ok env ft b = false.
Proof.
  unfold tagged_frames, parsed_ok. intros H b Hb.
  destruct (read_table env ft b) as [[df|]|] eqn:E; try reflexivity.
  assert (In (set_column "file" (trailing_name b) df) (flat_map (fun b => match read_table env ft b with
    | Ok (Some df) => [set_column "file" (trailing_name b) df] | _ => [] end) l)).
  { apply in_flat_map. exists b. rewrite E. split; [exact Hb | left; reflexivity]. }
  rewrite H in H0. destruct H0.
Qed.

Lemma write_log_eq env rl already up s :
  write_log env rl already up s = (Ok tt, after_write env rl already up s).
Proof.
  unfold write_log, after_write, try_except, upload_from_string, ret.
  destruct (rl && negb (is_nil up)); [|reflexivity].
  destruct (upload_ok env); reflexivity.
Qed.

Lemma process_blobs_eq env a already blobs s :
  process_blobs env a already blobs s =
  let sel := select_files (read_log_file a) already
               (candidate_files (file_type a) (file_prefix a) blobs) in
  let lp := read_loop env (file_type a) (fst sel) (snd sel) in
  if is_nil (fst sel) || is_nil (fst lp) then (Ok empty_df, s)
  else (Ok (concat (fst lp)), after_write env (read_log_file a) already (snd lp) s).
Proof.
  unfold process_blobs. cbv zeta.
  destruct (candidate_files (file_type a) (file_prefix a) blobs) as [|c cs] eqn:Ec;
    [reflexivity|].
  cbn [is_nil].
  destruct (select_files (read_log_file a) already (c :: cs)) as [tr up] eqn:Es.
  cbn [fst snd].
  destruct tr as [|t trs]; [reflexivity|]. cbn [is_nil orb].
  destruct (read_loop env (file_type a) (t :: trs) up) as [dfs up'] eqn:El.
  cbn [fst snd]. destruct dfs as [|d ds]; [reflexivity|]. cbn [is_nil].
  unfold bind, ret. rewrite write_log_eq. reflexivity.
Qed.

Lemma read_files_already_read_eq env s :
  exists_ok env = true -> (ledger s = None \/ text_ok env = true) ->
  read_files_already_read env s = (Ok (ledger_names s), s).
Proof.
  intros He Ht. unfold read_files_already_read, bind, log_exists, ledger_names.
  rewrite He. destruct (ledger s) as [t|] eqn:El.
  - unfold download_as_text. rewrite El. destruct Ht as [Ht|Ht]; [discriminate|].
    rewrite Ht. reflexivity.
  - reflexivity.
Qed.

Lemma read_files_already_read_store env s :
  snd (read_files_already_read env s) = s.
Proof.
  unfold read_files_already_read, bind, log_exists, download_as_text, ret.
  destruct (exists_ok env), (text_ok env), (ledger s) eqn:E; cbn; rewrite ?E;
    reflexivity.
Qed.

Lemma read_gcs_setup env a s blobs :
  client_ok env = true -> exists_ok env = true ->
  (ledger s = None \/ text_ok env = true) ->
  list_blobs env (prefix a) (delimiter a) = Some blobs ->
  read_gcs_files_to_dataframes_aserta env a s =
  process_blobs env a (already_of a s) blobs s.
Proof.
  intros Hc He Ht Hl.
  unfold read_gcs_files_to_dataframes_aserta, try_except, body, already_of.
  rewrite Hc. cbn [negb]. unfold bind at 1.
  destruct (read_log_file a).
  - rewrite read_files_already_read_eq by assumption.
    unfold bind, lift. rewrite Hl. cbn [of_option].
    rewrite process_blobs_eq. cbv zeta.
    destruct (_ || _); [reflexivity|]. reflexivity.
  - unfold ret at 1. unfold bind, lift. rewrite Hl. cbn [of_option].
    rewrite process_blobs_eq. cbv zeta.
    destruct (_ || _); [reflexivity|]. reflexivity.
Qed.

Local Ltac unfold_run :=
  unfold read_gcs_files_to_dataframes_aserta, try_except, body,
    read_files_already_read, log_exists, download_as_text, bind, ret, lift, raise.

(** Every run either returns [pd.DataFrame()] with the store untouched, or
    gets through the setup and runs steps 3 to 6. *)
Lemma read_gcs_shape env a s :
  read_gcs_files_to_dataframes_aserta env a s = (Ok empty_df, s) \/
  exists blobs,
    list_blobs env (prefix a) (delimiter a) = Some blobs /\
    (read_log_file a = true -> exists_ok env = true /\ (ledger s = None \/ text_ok env = true)) /\
    read_gcs_files_to_dataframes_aserta env a s =
    process_blobs env a (already_of a s) blobs s.
Proof.
  destruct (client_ok env) eqn:Hc.
  2: { left. unfold_run. rewrite Hc. reflexivity. }
  destruct (list_blobs env (prefix a) (delimiter a)) as [blobs|] eqn:Hl.
  2: { left. unfold_run. rewrite Hc. cbn [negb].
       destruct (read_log_file a), (exists_ok env), (text_ok env), (ledger s) eqn:E;
         cbn; rewrite ?E, ?Hl; reflexivity. }
  destruct (read_log_file a) eqn:Hr.
  - destruct (exists_ok env) eqn:He.
    + destruct (ledger s) as [t|] eqn:Els; [destruct (text_ok env) eqn:Ht|].
      * right. exists blobs. split; [first [exact Hl | reflexivity]|]. split; [auto|].
        apply read_gcs_setup; auto.
      * left. unfold_run. rewrite Hc, Hr, He. cbn. rewrite ?Els, ?Ht. cbn. reflexivity.
      * right. exists blobs. split; [first [exact Hl | reflexivity]|]. split; [auto|].
        apply read_gcs_setup; auto.
    + left. unfold_run. rewrite Hc, Hr, He. reflexivity.
  - right. exists blobs. split; [first [exact Hl | reflexivity]|]. split; [discriminate|].
    unfold read_gcs_files_to_dataframes_aserta at 1. unfold try_except, body.
    rewrite Hc. cbn [negb]. rewrite Hr. unfold bind at 1, ret at 1.
    unfold bind, lift. rewrite Hl. cbn [of_option].
    unfold already_of. rewrite Hr.
    rewrite process_blobs_eq. cbv zeta. destruct (_ || _); reflexivity.
Qed.

Lemma filter_all_false {A} (f : A -> bool) l :
  (forall x, In x l -> f x = false) -> filter f l = [].
Proof.
  induction l as [|x l IH]; intros H; simpl; [reflexivity|].
  rewrite (H x (or_introl eq_refl)). apply IH. intros y Hy. apply H. right. exact Hy.
Qed.

Lemma filter_all_true {A} (f : A -> bool) l :
  (forall x, In x l -> f x = true) -> filter f l = l.
Proof.
  induction l as [|x l IH]; intros H; simpl; [reflexivity|].
  rewrite (H x (or_introl eq_refl)), IH; [reflexivity|].
  intros y Hy. apply H. right. exact Hy.
Qed.

Lemma tagged_frames_none env ft l :
  (forall b, In b l -> parsed_ok env ft b = false) -> tagged_frames env ft l = [].
Proof.
  unfold tagged_frames, parsed_ok.
  induction l as [|b l IH]; intros H; simpl; [reflexivity|].
  specialize (H b (or_introl eq_refl)) as Hb.
  destruct (read_table env ft b) as [[df|]|]; try discriminate;
    apply IH; intros b' Hb'; apply H; right; exact Hb'.
Qed.

Lemma read_loop_fst env ft l up :
  fst (read_loop env ft l up) = tagged_frames env ft l.
Proof. unfold read_loop. rewrite read_loop_frames. reflexivity. Qed.

End RunFacts.


(** ** Ledger facts shared by the claims *)
Module LedgerFacts.
Import StrFacts RunFacts.

Lemma row_get_row_set c v r : row_get c (row_set c v r) = Some v.
Proof.
  induction r as [|[k x] r IH]; simpl.
  - rewrite String.eqb_refl. reflexivity.
  - destruct (String.eqb k c) eqn:E; simpl; rewrite E; [reflexivity|exact IH].
Qed.

Lemma ledger_names_clean s : Forall (fun n => clean_name n = true) (ledger_names s).
Proof.
  unfold ledger_names. destruct (ledger s); [apply parse_ledger_clean|constructor].
Qed.

Lemma ledger_names_written s up k :
  ledger_names (mkStore (Some (join newline (ledger_names s ++ up))) k) =
  ledger_names s ++ flat_map parse_ledger up.
Proof.
  unfold ledger_names at 1. cbn [ledger].
  rewrite parse_ledger_join, flat_map_app, flat_map_parse_clean
    by apply ledger_names_clean.
  reflexivity.
Qed.

Lemma tagged_frames_in env ft l b :
  In b l -> parsed_ok env ft b = true -> tagged_frames env ft l <> [].
Proof.
  intros Hb Hp Hnil. pose proof (tagged_frames_nil env ft l Hnil b Hb). congruence.
Qed.

Lemma tagged_frames_some env ft l :
  tagged_frames env ft l <> [] -> exists b, In b l /\ parsed_ok env ft b = true.
Proof.
  intros H. destruct (existsb (parsed_ok env ft) l) eqn:E.
  - apply existsb_exists in E. exact E.
  - exfalso. apply H. apply tagged_frames_none. intros b Hb.
    destruct (parsed_ok env ft b) eqn:Eb; [|reflexivity].
    assert (existsb (parsed_ok env ft) l = true) by (apply existsb_exists; eauto).
    congruence.
Qed.

Lemma is_nil_false {A} (l : list A) : l <> [] -> is_nil l = false.
Proof. destruct l; [congruence|reflexivity]. Qed.

(** Nothing left to read: [pd.DataFrame()] and an untouched store. *)
Lemma run_nothing_to_read env a s blobs :
  list_blobs env (prefix a) (delimiter a) = Some blobs ->
  filter (keep (read_log_file a) (already_of a s))
         (candidate_files (file_type a) (file_prefix a) blobs) = [] ->
  read_gcs_files_to_dataframes_aserta env a s = (Ok empty_df, s).
Proof.
  intros Hl Hf.
  destruct (read_gcs_shape env a s) as [H|[blobs' [Hl' [_ Heq]]]]; [exact H|].
  rewrite Hl in Hl'. injection Hl' as <-.
  rewrite Heq, process_blobs_eq. cbv zeta. rewrite select_files_spec. cbn [fst snd].
  rewrite Hf. reflexivity.
Qed.

(** A run only ever appends to the names the ledger holds. *)
Lemma ledger_monotone env a s n :
  In n (ledger_names s) ->
  In n (ledger_names (snd (read_gcs_files_to_dataframes_aserta env a s))).
Proof.
  intros Hn.
  destruct (read_gcs_shape env a s) as [H|[blobs [_ [_ Heq]]]]; [rewrite H; exact Hn|].
  rewrite Heq, process_blobs_eq. cbv zeta.
  destruct (_ || _); [exact Hn|]. cbn [snd]. unfold after_write.
  destruct (read_log_file a) eqn:Hr; cbn [andb]; [|exact Hn].
  destruct (negb _); [|exact Hn].
  destruct (upload_ok env); [|exact Hn].
  unfold already_of. rewrite Hr, ledger_names_written.
  apply in_app_iff. left. exact Hn.
Qed.

Lemma run_all_monotone runs s n :
  In n (ledger_names s) -> In n (ledger_names (run_all runs s)).
Proof.
  revert s. induction runs as [|[e a] runs IH]; intros s Hn; simpl; [exact Hn|].
  apply IH, ledger_monotone, Hn.
Qed.

(** A candidate whose trailing name the log lists is never read. *)
Lemma skipped_if_listed already cands p :
  In (trailing_name p) already -> ~ In p (fst (select_files true already cands)).
Proof.
  intros Hin H. rewrite select_files_spec in H. cbn [fst] in H.
  apply filter_In in H as [_ H]. unfold keep in H. cbn [andb] in H.
  apply negb_true_iff in H. apply (proj2 (mem_In _ _)) in Hin. congruence.
Qed.

End LedgerFacts.

Import StrFacts.
Import RunFacts.
Import LedgerFacts.

(** ** DataFrame facts *)
Module FrameFacts.
Import RunFacts.

Lemma union_columns_keeps acc cs c : In c acc -> In c (union_columns acc cs).
Proof.
  unfold union_columns. revert acc. induction cs as [|x cs IH]; intros acc H; simpl;
    [exact H|].
  apply IH. destruct (mem x acc); [exact H|]. apply in_app_iff. left. exact H.
Qed.

Lemma union_columns_adds acc cs c : In c cs -> In c (union_columns acc cs).
Proof.
  unfold union_columns. revert acc. induction cs as [|x cs IH]; intros acc H; simpl;
    [destruct H|].
  destruct H as [->|H]; [|apply IH, H].
  apply union_columns_keeps.
  destruct (mem c acc) eqn:E; [apply mem_In, E|]. apply in_app_iff. right. left. reflexivity.
Qed.

Lemma concat_columns dfs df c :
  In df dfs -> In c (df_columns df) -> In c (df_columns (concat dfs)).
Proof.
  unfold concat. cbn [df_columns]. generalize (@nil string) as acc.
  induction dfs as [|d dfs IH]; intros acc Hd Hc; simpl; [destruct Hd|].
  destruct Hd as [<-|Hd]; [|apply IH; assumption].
  assert (G : forall l acc', In c acc' ->
            In c (fold_left (fun acc df => union_columns acc (df_columns df)) l acc')).
  { induction l as [|d' l IHl]; intros acc' H; simpl; [exact H|].
    apply IHl, union_columns_keeps, H. }
  apply G, union_columns_adds, Hc.
Qed.

Lemma concat_not_empty dfs df c :
  In df dfs -> In c (df_columns df) -> df_rows df <> [] ->
  df_empty (concat dfs) = false.
Proof.
  intros Hd Hc Hr. pose proof (concat_columns dfs df c Hd Hc) as Hcc.
  assert (Hrr : df_rows (concat dfs) <> []).
  { unfold concat. cbn [df_rows]. destruct (df_rows df) as [|r rs] eqn:E; [congruence|].
    intros Hn. assert (In r (flat_map df_rows dfs)) as Hin.
    { apply in_flat_map. exists df. rewrite E. split; [exact Hd|left; reflexivity]. }
    rewrite Hn in Hin. destruct Hin. }
  unfold df_empty. destruct (df_columns (concat dfs)); [destruct Hcc|].
  destruct (df_rows (concat dfs)); [congruence|reflexivity].
Qed.

Lemma set_column_has c v df : In c (df_columns (set_column c v df)).
Proof.
  unfold set_column. cbn [df_columns]. destruct (mem c (df_columns df)) eqn:E.
  - apply mem_In, E.
  - apply in_app_iff. right. left. reflexivity.
Qed.

End FrameFacts.
Import FrameFacts.

(** ** Facts about the account codes and the BigQuery upload *)

Module CuentasFacts.
Import Cuentas.

Lemma pos_size_bound p : (Npos p < 2 ^ N.of_nat (Pos.size_nat p))%N.
Proof.
  induction p; cbn [Pos.size_nat]; try (rewrite Nat2N.inj_succ, N.pow_succ_r').
  - change (Npos p~1) with (2 * Npos p + 1)%N. lia.
  - change (Npos p~0) with (2 * Npos p)%N. lia.
  - reflexivity.
Qed.

Lemma size_bound n : (n < 10 ^ N.of_nat (N.size_nat n))%N.
Proof.
  destruct n as [|p]; [reflexivity|].
  eapply N.lt_le_trans; [apply pos_size_bound|].
  apply N.pow_le_mono_l. lia.
Qed.

Lemma digits_fuel_S f m :
  digits_fuel (S f) m =
  if (m <? 10)%N then [digit_char m]
  else digits_fuel f (m / 10) ++ [digit_char (m mod 10)].
Proof. reflexivity. Qed.

Lemma digits_fuel_stable f : forall m, (m < 10 ^ N.of_nat f)%N ->
  forall g, f <= g -> digits_fuel (S f) m = digits_fuel (S g) m.
Proof.
  induction f as [|f IH]; intros m Hm g Hg.
  - assert (m = 0%N) by (cbn in Hm; lia). subst m.
    rewrite !digits_fuel_S. reflexivity.
  - destruct g as [|g]; [lia|].
    rewrite (digits_fuel_S (S f)), (digits_fuel_S (S g)).
    destruct (m <? 10)%N eqn:E; [reflexivity|].
    f_equal. apply IH; [|lia].
    rewrite Nat2N.inj_succ, N.pow_succ_r' in Hm.
    apply N.Div0.div_lt_upper_bound; lia.
Qed.

Lemma digits_small m : (m < 10)%N -> digits m = [digit_char m].
Proof.
  intros H. unfold digits. rewrite digits_fuel_S.
  rewrite (proj2 (N.ltb_lt _ _) H). reflexivity.
Qed.

Lemma digits_big m : (10 <= m)%N -> digits m = digits (m / 10) ++ [digit_char (m mod 10)].
Proof.
  intros H. unfold digits at 1. rewrite digits_fuel_S.
  rewrite (proj2 (N.ltb_ge _ _) H). f_equal.
  pose proof (size_bound m) as Hb.
  destruct (N.size_nat m) as [|s] eqn:Es; [cbn in Hb; lia|].
  assert (H1 : (m / 10 < 10 ^ N.of_nat s)%N).
  { rewrite Nat2N.inj_succ, N.pow_succ_r' in Hb. apply N.Div0.div_lt_upper_bound; lia. }
  unfold digits.
  rewrite (digits_fuel_stable s _ H1 (Nat.max s (N.size_nat (m / 10)))) by lia.
  rewrite (digits_fuel_stable (N.size_nat (m / 10)) _ (size_bound _)
             (Nat.max s (N.size_nat (m / 10)))) by lia.
  reflexivity.
Qed.

Lemma digits_two m : (10 <= m < 100)%N ->
  digits m = [digit_char (m / 10); digit_char (m mod 10)].
Proof.
  intros H. rewrite digits_big by lia. rewrite digits_small.
  - reflexivity.
  - apply N.Div0.div_lt_upper_bound; lia.
Qed.

Lemma digits_last2 m : (10 <= m)%N ->
  exists P, digits m = P ++ [digit_char (m / 10 mod 10); digit_char (m mod 10)].
Proof.
  intros H. rewrite digits_big by exact H.
  destruct (N.lt_ge_cases (m / 10) 10) as [Hs|Hs].
  - rewrite digits_small by exact Hs. exists [].
    rewrite (N.mod_small (m / 10) 10) by exact Hs. reflexivity.
  - rewrite (digits_big (m / 10)) by exact Hs.
    exists (digits (m / 10 / 10)). rewrite <- app_assoc. reflexivity.
Qed.

Lemma digits_last3 m : (100 <= m)%N ->
  exists P, digits m = P ++ [digit_char (m / 100 mod 10);
                             digit_char (m / 10 mod 10); digit_char (m mod 10)].
Proof.
  intros H. rewrite digits_big by lia.
  rewrite (digits_big (m / 10)) by (apply N.div_le_lower_bound; lia).
  rewrite N.Div0.div_div. change (10 * 10)%N with 100%N.
  destruct (N.lt_ge_cases (m / 100) 10) as [Hs|Hs].
  - rewrite digits_small by exact Hs. exists [].
    rewrite (N.mod_small (m / 100) 10) by exact Hs. reflexivity.
  - rewrite (digits_big (m / 100)) by exact Hs.
    exists (digits (m / 100 / 10)). rewrite <- !app_assoc. reflexivity.
Qed.

Lemma digit_char_cases d : (d < 10)%N ->
  d = 0%N \/ d = 1%N \/ d = 2%N \/ d = 3%N \/ d = 4%N \/
  d = 5%N \/ d = 6%N \/ d = 7%N \/ d = 8%N \/ d = 9%N.
Proof. intros. lia. Qed.

Lemma digit_char_zero d : (d < 10)%N -> digit_char d = "0"%char <-> d = 0%N.
Proof.
  intros H. destruct (digit_char_cases d H) as [E0|[E0|[E0|[E0|[E0|[E0|[E0|[E0|[E0|E0]]]]]]]]]; subst d;
    split; intros E; try reflexivity; vm_compute in E; discriminate.
Qed.

Lemma digit_char_not_sign d : (d < 10)%N ->
  Ascii.eqb (digit_char d) "+"%char || Ascii.eqb (digit_char d) "-"%char = false.
Proof.
  intros H. destruct (digit_char_cases d H) as [E0|[E0|[E0|[E0|[E0|[E0|[E0|[E0|[E0|E0]]]]]]]]]; subst d;
    reflexivity.
Qed.

Lemma length_list_ascii s : String.length s = length (list_ascii_of_string s).
Proof. induction s; cbn; congruence. Qed.

Lemma list_ascii_inj s1 s2 :
  list_ascii_of_string s1 = list_ascii_of_string s2 -> s1 = s2.
Proof.
  intros H. rewrite <- (string_of_list_ascii_of_string s1),
    <- (string_of_list_ascii_of_string s2), H. reflexivity.
Qed.

Lemma list_ascii_append s1 s2 :
  list_ascii_of_string (s1 ++ s2)%string = list_ascii_of_string s1 ++ list_ascii_of_string s2.
Proof. induction s1; cbn; congruence. Qed.

Lemma substring_tail s : forall n m, String.length s <= n + m ->
  substring n m s = string_of_list_ascii (skipn n (list_ascii_of_string s)).
Proof.
  induction s as [|a s IH]; intros [|n] [|m] H; cbn in *; try reflexivity; try lia.
  - rewrite IH by lia. cbn. rewrite string_of_list_ascii_of_string. reflexivity.
  - apply IH. lia.
  - apply IH. lia.
Qed.

Lemma substring_length s : forall n m,
  String.length (substring n m s) = Nat.min m (String.length s - n).
Proof.
  induction s as [|a s IH]; intros [|n] [|m]; cbn; try reflexivity.
  - rewrite IH. lia.
  - rewrite IH. reflexivity.
  - rewrite IH. reflexivity.
Qed.

Lemma slice_last_list k s :
  slice_last k s = string_of_list_ascii
    (skipn (length (list_ascii_of_string s) - k) (list_ascii_of_string s)).
Proof.
  unfold slice_last. rewrite substring_tail by lia.
  rewrite length_list_ascii. reflexivity.
Qed.

Lemma get_list s : forall i, String.get i s = nth_error (list_ascii_of_string s) i.
Proof. induction s; intros [|i]; cbn; auto. Qed.

Lemma string_eqb_list l s :
  String.eqb (string_of_list_ascii l) s = true <-> l = list_ascii_of_string s.
Proof.
  rewrite String.eqb_eq. split.
  - intros <-. rewrite list_ascii_of_string_of_list_ascii. reflexivity.
  - intros ->. apply string_of_list_ascii_of_string.
Qed.

Lemma skipn_suffix {A} (P S : list A) :
  skipn (length (P ++ S) - length S) (P ++ S) = S.
Proof.
  rewrite length_app, Nat.add_sub, skipn_app, skipn_all, Nat.sub_diag. reflexivity.
Qed.

(** The characters of [str(n)]. *)
Lemma list_str_Z n :
  list_ascii_of_string (str_Z n) =
  (if (n <? 0)%Z then "-"%char :: digits (Z.abs_N n) else digits (Z.abs_N n)).
Proof.
  unfold str_Z. destruct (n <? 0)%Z; cbn;
    rewrite ?list_ascii_of_string_of_list_ascii; reflexivity.
Qed.

Lemma abs_N_mod n k : (0 < k)%Z ->
  ((n mod k = 0)%Z <-> (Z.abs_N n mod Z.to_N k = 0)%N).
Proof.
  intros Hk. rewrite <- (N2Z.inj_iff _ 0), N2Z.inj_mod, Zabs2N.id_abs, Z2N.id by lia.
  rewrite !Z.mod_divide by lia. rewrite Z.divide_abs_r. reflexivity.
Qed.

Lemma skipn_last3 (P : list ascii) a b c :
  skipn (length (P ++ [a; b; c]) - 3) (P ++ [a; b; c]) = [a; b; c].
Proof. exact (skipn_suffix P [a; b; c]). Qed.

Lemma skipn_last2 (P : list ascii) a b :
  skipn (length (P ++ [a; b]) - 2) (P ++ [a; b]) = [a; b].
Proof. exact (skipn_suffix P [a; b]). Qed.

Lemma digit_mod_lt m : (m mod 10 < 10)%N.
Proof. apply N.mod_lt. lia. Qed.

Lemma three_zero_iff m :
  [digit_char (m / 100 mod 10); digit_char (m / 10 mod 10); digit_char (m mod 10)]
    = ["0"%char; "0"%char; "0"%char] <-> (m mod 1000 = 0)%N.
Proof.
  split.
  - intros H. injection H as H1 H2 H3.
    apply digit_char_zero in H1; [|apply digit_mod_lt].
    apply digit_char_zero in H2; [|apply digit_mod_lt].
    apply digit_char_zero in H3; [|apply digit_mod_lt].
    pose proof (N.div_mod m 10 ltac:(lia)) as D1.
    pose proof (N.div_mod (m / 10) 10 ltac:(lia)) as D2.
    pose proof (N.div_mod (m / 100) 10 ltac:(lia)) as D3.
    rewrite H3 in D1. rewrite H2 in D2. rewrite H1 in D3.
    rewrite N.Div0.div_div in D2. change (10 * 10)%N with 100%N in D2.
    assert (Hm : m = (1000 * (m / 100 / 10))%N) by lia.
    rewrite Hm, N.mul_comm. apply N.Div0.mod_mul.
  - intros H. pose proof (N.div_mod m 1000 ltac:(lia)) as D.
    rewrite H, N.add_0_r in D. set (k := (m / 1000)%N) in D.
    assert (E1 : (m / 100 = k * 10)%N).
    { rewrite D. replace (1000 * k)%N with (k * 10 * 100)%N by lia. apply N.div_mul. lia. }
    assert (E2 : (m / 10 = k * 10 * 10)%N).
    { rewrite D. replace (1000 * k)%N with (k * 10 * 10 * 10)%N by lia. apply N.div_mul. lia. }
    assert (E3 : (m = k * 100 * 10)%N) by lia.
    rewrite E1, E2. rewrite E3 at 1. rewrite !N.Div0.mod_mul. reflexivity.
Qed.

Lemma two_zero_iff m :
  [digit_char (m / 10 mod 10); digit_char (m mod 10)]
    = ["0"%char; "0"%char] <-> (m mod 100 = 0)%N.
Proof.
  split.
  - intros H. injection H as H2 H3.
    apply digit_char_zero in H2; [|apply digit_mod_lt].
    apply digit_char_zero in H3; [|apply digit_mod_lt].
    pose proof (N.div_mod m 10 ltac:(lia)) as D1.
    pose proof (N.div_mod (m / 10) 10 ltac:(lia)) as D2.
    rewrite H3 in D1. rewrite H2 in D2.
    assert (Hm : m = (100 * (m / 10 / 10))%N) by lia.
    rewrite Hm, N.mul_comm. apply N.Div0.mod_mul.
  - intros H. pose proof (N.div_mod m 100 ltac:(lia)) as D.
    rewrite H, N.add_0_r in D. set (k := (m / 100)%N) in D.
    assert (E2 : (m / 10 = k * 10)%N).
    { rewrite D. replace (100 * k)%N with (k * 10 * 10)%N by lia. apply N.div_mul. lia. }
    assert (E3 : (m = k * 10 * 10)%N) by lia.
    rewrite E2. rewrite E3 at 1. rewrite !N.Div0.mod_mul. reflexivity.
Qed.

Lemma abs_N_eq n : Z.of_N (Z.abs_N n) = Z.abs n.
Proof. apply Zabs2N.id_abs. Qed.

(** [x[-3:] == "000"] holds of [str(n)] exactly for the nonzero multiples
    of 1000. *)
Lemma principal_iff n :
  es_principal (str_Z n) = true <-> (n <> 0 /\ n mod 1000 = 0)%Z.
Proof.
  unfold es_principal. rewrite slice_last_list, string_eqb_list, list_str_Z.
  rewrite (abs_N_mod n 1000) by lia. change (Z.to_N 1000) with 1000%N.
  pose proof (abs_N_eq n) as Hm.
  destruct (N.lt_ge_cases (Z.abs_N n) 100) as [Hs|Hb].
  - split.
    + intros H. exfalso. destruct (N.lt_ge_cases (Z.abs_N n) 10).
      * rewrite digits_small in H by assumption.
        destruct (n <? 0)%Z; cbn in H; discriminate.
      * rewrite digits_two in H by lia.
        destruct (n <? 0)%Z; cbn in H; discriminate.
    + intros [Hn Hmod]. exfalso. rewrite N.mod_small in Hmod by lia.
      rewrite Hmod in Hm. cbn in Hm. lia.
  - destruct (digits_last3 _ Hb) as [P HP]. rewrite HP.
    destruct (n <? 0)%Z;
      [rewrite app_comm_cons, skipn_last3 | rewrite skipn_last3];
      cbn [list_ascii_of_string]; rewrite three_zero_iff; lia.
Qed.

(** [x[-2:] == "00"] holds of [str(n)] exactly for the nonzero multiples
    of 100. *)
Lemma last2_iff n :
  String.eqb (slice_last 2 (str_Z n)) "00" = true <-> (n <> 0 /\ n mod 100 = 0)%Z.
Proof.
  rewrite slice_last_list, string_eqb_list, list_str_Z.
  rewrite (abs_N_mod n 100) by lia. change (Z.to_N 100) with 100%N.
  pose proof (abs_N_eq n) as Hm.
  destruct (N.lt_ge_cases (Z.abs_N n) 10) as [Hs|Hb].
  - split.
    + intros H. exfalso. rewrite digits_small in H by assumption.
      destruct (n <? 0)%Z; cbn in H; discriminate.
    + intros [Hn Hmod]. exfalso. rewrite N.mod_small in Hmod by lia.
      rewrite Hmod in Hm. cbn in Hm. lia.
  - destruct (digits_last2 _ Hb) as [P HP]. rewrite HP.
    destruct (n <? 0)%Z;
      [rewrite app_comm_cons, skipn_last2 | rewrite skipn_last2];
      cbn [list_ascii_of_string]; rewrite two_zero_iff; lia.
Qed.

(** [x[-3]] is the hundreds digit once [|n| >= 100]. *)
Lemma index_last3 n : (100 <= Z.abs_N n)%N ->
  index_last 3 (str_Z n) = Some (digit_char (Z.abs_N n / 100 mod 10)).
Proof.
  intros Hb. unfold index_last. rewrite length_list_ascii, get_list, list_str_Z.
  destruct (digits_last3 _ Hb) as [P HP]. rewrite HP.
  destruct (n <? 0)%Z; [rewrite app_comm_cons|];
    match goal with |- context [nth_error (?Q ++ _) _] => set (L := Q) end;
    rewrite length_app; cbn [length];
    replace (length L + 3 - 3) with (length L) by lia;
    replace (Nat.ltb (length L + 3) 3) with false by (symmetry; apply Nat.ltb_ge; lia);
    rewrite nth_error_app2, Nat.sub_diag by lia; reflexivity.
Qed.

Lemma drop_zeros_spec l : exists k, l = repeat "0"%char k ++ drop_zeros l.
Proof.
  induction l as [|a l [k Hk]]; [exists 0; reflexivity|].
  cbn. destruct (Ascii.eqb a "0"%char) eqn:E.
  - apply Ascii.eqb_eq in E. subst a. exists (S k). cbn. f_equal. exact Hk.
  - exists 0. reflexivity.
Qed.

(** [s.rstrip("0").ljust(4, "0")] restores the zeros it strips. *)
Lemma ljust_rstrip0 s : String.length s <= 4 ->
  ljust 4 "0"%char (rstrip0 s) = ljust 4 "0"%char s.
Proof.
  intros Hl. apply list_ascii_inj. unfold ljust, rstrip0.
  rewrite !list_ascii_append, !list_ascii_of_string_of_list_ascii.
  rewrite !length_list_ascii, list_ascii_of_string_of_list_ascii.
  rewrite length_list_ascii in Hl.
  set (L := list_ascii_of_string s) in *.
  destruct (drop_zeros_spec (rev L)) as [k Hk].
  set (D := drop_zeros (rev L)) in *.
  assert (HL : L = rev D ++ repeat "0"%char k).
  { rewrite <- (rev_involutive L), Hk, rev_app_distr, rev_repeat. reflexivity. }
  rewrite HL in Hl |- *. rewrite length_app, repeat_length in Hl.
  rewrite length_app, repeat_length, <- app_assoc, <- repeat_app.
  f_equal. f_equal. lia.
Qed.

Lemma abs_ge_100 (n : Z) : n <> 0%Z -> (n mod 100 = 0)%Z -> (100 <= Z.abs_N n)%N.
Proof.
  intros Hn Hmod. pose proof (abs_N_eq n) as Hm.
  apply (abs_N_mod n 100) in Hmod; [|lia]. change (Z.to_N 100) with 100%N in Hmod.
  destruct (N.lt_ge_cases (Z.abs_N n) 100) as [Hs|Hs]; [|exact Hs].
  rewrite N.mod_small in Hmod by exact Hs. rewrite Hmod in Hm. cbn in Hm. lia.
Qed.

Lemma zfill_digit d : (d < 10)%N ->
  zfill 2 (String (digit_char d) EmptyString) =
  String "0"%char (String (digit_char d) EmptyString).
Proof.
  intros Hd. unfold zfill. cbn [String.length Nat.leb].
  rewrite (digit_char_not_sign d Hd). reflexivity.
Qed.

Lemma ajustada_principal (n : Z) : (n <> 0 -> n mod 1000 = 0 ->
  ajustada n = ljust 4 "0" (slice 1 5 (str_Z n)))%Z.
Proof.
  intros Hn Hmod. unfold ajustada.
  rewrite (proj2 (principal_iff n) (conj Hn Hmod)).
  apply ljust_rstrip0. unfold slice. rewrite substring_length. lia.
Qed.

Lemma ajustada_secundaria (n : Z) : (n <> 0 -> n mod 100 = 0 -> n mod 1000 <> 0 ->
  ajustada n = rstrip0 (slice 1 5 (str_Z n))
               ++ String "0" (String (digit_char (Z.abs_N n / 100 mod 10)) EmptyString))%Z%string.
Proof.
  intros Hn H100 H1000. unfold ajustada.
  destruct (es_principal (str_Z n)) eqn:Ep.
  { apply principal_iff in Ep. tauto. }
  rewrite (proj2 (last2_iff n) (conj Hn H100)).
  rewrite (index_last3 n (abs_ge_100 n Hn H100)).
  rewrite zfill_digit by apply digit_mod_lt. reflexivity.
Qed.

Lemma ajustada_other (n : Z) : (n = 0 \/ n mod 100 <> 0 -> ajustada n = str_Z n)%Z.
Proof.
  intros H. unfold ajustada.
  destruct (es_principal (str_Z n)) eqn:Ep.
  { apply principal_iff in Ep. exfalso. destruct Ep as [Hn Hm].
    destruct H as [H|H]; [lia|]. apply H. rewrite Z.mod_divide in Hm |- * by lia.
    apply (Z.divide_trans _ 1000); [exists 10%Z; reflexivity|exact Hm]. }
  destruct (String.eqb (slice_last 2 (str_Z n)) "00") eqn:E2; [|reflexivity].
  apply last2_iff in E2. lia.
Qed.

Lemma assign_principal orig :
  assign_masked (map es_principal orig) ajuste_principal orig orig =
  Ok (map (fun x => if es_principal x then ljust 4 "0" (rstrip0 (slice 1 5 x)) else x) orig).
Proof.
  induction orig as [|x orig IH]; [reflexivity|].
  cbn [map assign_masked]. rewrite IH.
  destruct (es_principal x); reflexivity.
Qed.

(** The two masked assignments compute [ajustada] cell by cell, and the
    [x[-3]] of the second never raises. *)
Lemma serie_cuentaajustada_map col :
  serie_cuentaajustada true col = Ok (map (fun n => ajustada (wrap64 n)) col).
Proof.
  unfold serie_cuentaajustada. cbn [negb].
  replace (map (fun n => str_Z (wrap64 n)) col) with (map str_Z (map wrap64 col))
    by (rewrite map_map; reflexivity).
  replace (map (fun n => ajustada (wrap64 n)) col) with (map ajustada (map wrap64 col))
    by (rewrite map_map; reflexivity).
  generalize (map wrap64 col) as c. clear col. intros col.
  rewrite assign_principal.
  induction col as [|n col IH]; [reflexivity|].
  cbn [map combine assign_masked]. rewrite IH.
  destruct (es_principal (str_Z n)) eqn:Ep.
  - cbn [negb andb]. rewrite andb_false_r. unfold ajustada. rewrite Ep. reflexivity.
  - cbn [negb]. rewrite andb_true_r.
    destruct (String.eqb (slice_last 2 (str_Z n)) "00") eqn:E2.
    + pose proof (proj1 (last2_iff n) E2) as [Hn H100].
      unfold ajuste_secundaria. unfold ajustada. rewrite Ep, E2.
      rewrite (index_last3 n (abs_ge_100 n Hn H100)). reflexivity.
    + unfold ajustada. rewrite Ep, E2. reflexivity.
Qed.

(** [astype("int64")] keeps an int64 value. *)
Lemma wrap64_small n : (- 2 ^ 63 <= n < 2 ^ 63)%Z -> wrap64 n = n.
Proof.
  intros H. unfold wrap64. destruct (Z.le_gt_cases 0 n) as [Hp|Hneg].
  - rewrite Z.mod_small by lia. destruct (Z.ltb_spec n (2 ^ 63)); lia.
  - replace (n mod 2 ^ 64)%Z with (n + 2 ^ 64)%Z
      by (apply (Z.mod_unique _ _ (-1)); lia).
    destruct (Z.ltb_spec (n + 2 ^ 64) (2 ^ 63)); lia.
Qed.

Lemma hundreds_nonzero (n : Z) : (n mod 100 = 0)%Z -> (n mod 1000 <> 0)%Z ->
  (Z.abs_N n / 100 mod 10 <> 0)%N.
Proof.
  intros H100 H1000 H.
  apply (abs_N_mod n 100) in H100; [|lia]. change (Z.to_N 100) with 100%N in H100.
  apply H1000. apply (abs_N_mod n 1000); [lia|]. change (Z.to_N 1000) with 1000%N.
  set (m := Z.abs_N n) in *.
  pose proof (N.div_mod m 100 ltac:(lia)) as D1.
  pose proof (N.div_mod (m / 100) 10 ltac:(lia)) as D2.
  rewrite H100, N.add_0_r in D1. rewrite H, N.add_0_r in D2.
  assert (Hm : m = (m / 100 / 10 * 1000)%N) by lia.
  rewrite Hm. apply N.Div0.mod_mul.
Qed.

Lemma ljust_length s : String.length s <= 4 ->
  String.length (ljust 4 "0"%char s) = 4.
Proof.
  intros H. unfold ljust. rewrite length_list_ascii, list_ascii_append, length_app,
    list_ascii_of_string_of_list_ascii, repeat_length, <- length_list_ascii. lia.
Qed.

Lemma ljust_full s : String.length s = 4 -> ljust 4 "0"%char s = s.
Proof.
  intros H. unfold ljust. rewrite H. cbn. apply list_ascii_inj.
  rewrite list_ascii_append, app_nil_r. reflexivity.
Qed.

Lemma slice_length i j s : String.length (slice i j s) = Nat.min (j - i) (String.length s - i).
Proof. unfold slice. apply substring_length. Qed.

Lemma mem_iff x l : mem x l = true <-> In x l.
Proof.
  unfold mem. rewrite existsb_exists. split.
  - intros [y [Hy E]]. apply String.eqb_eq in E. subst. exact Hy.
  - intros H. exists x. split; [exact H|apply String.eqb_refl].
Qed.

(** *** Characters of a UTF-8 string *)

Definition chunk_ok (c : list ascii) : bool :=
  match c with [] => false | _ :: t => forallb is_cont t end.

Definition chunk_new (c : list ascii) : bool :=
  match c with [] => false | b :: _ => negb (is_cont b) end.

(** The shape [code_points] gives: each character a byte and continuation
    bytes, every character but the first starting with a leading byte. *)
Definition chunks_wf (L : list (list ascii)) : Prop :=
  Forall (fun c => chunk_ok c = true) L /\ Forall (fun c => chunk_new c = true) (tl L).

Lemma code_points_wf l : chunks_wf (code_points l).
Proof.
  induction l as [|b t [IH1 IH2]]; [split; constructor|].
  cbn [code_points].
  destruct (code_points t) as [|[|c cs] rest] eqn:E.
  - split; repeat constructor.
  - inversion IH1 as [|? ? Hc _]. discriminate.
  - inversion IH1 as [|? ? Hc Hr]; subst. cbn [tl] in IH2.
    destruct (is_cont c) eqn:Ec.
    + split; [constructor; [|exact Hr]|exact IH2].
      cbn [chunk_ok forallb]. cbn [chunk_ok] in Hc. rewrite Ec, Hc. reflexivity.
    + split; [constructor; [reflexivity|constructor; assumption]|].
      cbn [tl]. constructor; [cbn; rewrite Ec; reflexivity|exact IH2].
Qed.

Lemma code_points_cons b t :
  code_points (b :: t) =
  match code_points t with
  | (c :: cs) :: rest => if is_cont c then (b :: c :: cs) :: rest else [b] :: (c :: cs) :: rest
  | r => [b] :: r
  end.
Proof. reflexivity. Qed.

Lemma code_points_chunk b t rest :
  forallb is_cont t = true ->
  (forall c cs r, code_points rest = (c :: cs) :: r -> is_cont c = false) ->
  (forall r, code_points rest <> [] :: r) ->
  code_points (b :: t ++ rest) = (b :: t) :: code_points rest.
Proof.
  intros Ht Hn He. revert b Ht. induction t as [|c t IH]; intros b Ht.
  - cbn [app code_points].
    destruct (code_points rest) as [|[|c cs] r] eqn:E; [reflexivity| |].
    + exfalso. exact (He r eq_refl).
    + rewrite (Hn c cs r eq_refl). reflexivity.
  - cbn [forallb] in Ht. apply andb_true_iff in Ht as [Hc Ht].
    rewrite <- app_comm_cons, code_points_cons, (IH c Ht), Hc. reflexivity.
Qed.

Lemma code_points_concat L : chunks_wf L -> code_points (List.concat L) = L.
Proof.
  induction L as [|c L IH]; intros [H1 H2]; [reflexivity|].
  inversion H1 as [|? ? Hc HL]; subst. cbn [tl] in H2.
  assert (IHL : code_points (List.concat L) = L).
  { apply IH. split; [exact HL|]. destruct L; [constructor|]. inversion H2; assumption. }
  destruct c as [|b t]; [discriminate|]. cbn [List.concat]. cbn [chunk_ok] in Hc.
  rewrite <- app_comm_cons, code_points_chunk, IHL; [reflexivity|exact Hc| |].
  - rewrite IHL. intros c0 cs r E. subst L. inversion H2 as [|? ? Hn _].
    cbn in Hn. destruct (is_cont c0); [discriminate|reflexivity].
  - rewrite IHL. intros r E. subst L. inversion HL as [|? ? Hn _]. discriminate.
Qed.

Lemma Forall_skipn' {A} (P : A -> Prop) n l : Forall P l -> Forall P (skipn n l).
Proof.
  intros H. apply Forall_forall. intros x Hx. rewrite Forall_forall in H. apply H.
  rewrite <- (firstn_skipn n l). apply in_or_app. right. exact Hx.
Qed.

Lemma Forall_firstn' {A} (P : A -> Prop) n l : Forall P l -> Forall P (firstn n l).
Proof.
  intros H. apply Forall_forall. intros x Hx. rewrite Forall_forall in H. apply H.
  rewrite <- (firstn_skipn n l). apply in_or_app. left. exact Hx.
Qed.

Lemma tl_skipn {A} n (l : list A) : tl (skipn n l) = skipn n (tl l).
Proof.
  revert l. induction n as [|n IH]; intros [|x l]; cbn [skipn tl]; try reflexivity.
  rewrite IH. destruct l as [|y l]; cbn [tl skipn]; [apply skipn_nil|reflexivity].
Qed.

Lemma tl_firstn {A} n (l : list A) : tl (firstn n l) = firstn (n - 1) (tl l).
Proof.
  destruct n as [|n]; [reflexivity|]. destruct l as [|x l]; cbn; [destruct n; reflexivity|].
  rewrite Nat.sub_0_r. reflexivity.
Qed.

Lemma chunks_wf_slice i k L : chunks_wf L -> chunks_wf (firstn k (skipn i L)).
Proof.
  intros [H1 H2]. split.
  - apply Forall_firstn', Forall_skipn', H1.
  - rewrite tl_firstn, tl_skipn. apply Forall_firstn', Forall_skipn', H2.
Qed.

(** [len(s[i:j])] *)
Lemma py_len_slice i j s :
  py_len (py_slice i j s) = Nat.min (j - i) (py_len s - i).
Proof.
  unfold py_len, py_slice. rewrite list_ascii_of_string_of_list_ascii.
  rewrite code_points_concat by apply chunks_wf_slice, code_points_wf.
  rewrite length_firstn, length_skipn. reflexivity.
Qed.

Lemma py_slice_nil_iff i j s :
  py_slice i j s = EmptyString <-> Nat.min (j - i) (py_len s - i) = 0.
Proof.
  rewrite <- py_len_slice. split; [intros ->; reflexivity|].
  unfold py_len, py_slice. rewrite list_ascii_of_string_of_list_ascii.
  rewrite code_points_concat by apply chunks_wf_slice, code_points_wf.
  intros H. apply length_zero_iff_nil in H. rewrite H. reflexivity.
Qed.

(** *** ASCII strings: one byte per character *)

Definition ascii7 (l : list ascii) : Prop := forall b, In b l -> nat_of_ascii b < 128.

Lemma code_points_ascii l : ascii7 l -> code_points l = map (fun b => [b]) l.
Proof.
  induction l as [|b l IH]; intros H; [reflexivity|]. cbn [code_points].
  rewrite IH by (intros x Hx; apply H; right; exact Hx).
  destruct l as [|c l]; [reflexivity|]. cbn [map].
  assert (Hc : is_cont c = false).
  { unfold is_cont. specialize (H c (or_intror (or_introl eq_refl))).
    apply andb_false_iff. left. apply Nat.leb_gt. lia. }
  rewrite Hc. reflexivity.
Qed.

Lemma py_len_ascii s : ascii7 (list_ascii_of_string s) -> py_len s = String.length s.
Proof.
  intros H. unfold py_len. rewrite code_points_ascii by exact H.
  rewrite length_map, length_list_ascii. reflexivity.
Qed.

Lemma list_substring s : forall n m,
  list_ascii_of_string (substring n m s) = firstn m (skipn n (list_ascii_of_string s)).
Proof.
  induction s as [|a s IH]; intros [|n] [|m]; cbn; try reflexivity.
  - rewrite IH. reflexivity.
  - apply IH.
  - apply IH.
Qed.

Lemma concat_singletons (l : list ascii) : List.concat (map (fun b => [b]) l) = l.
Proof. induction l as [|b l IH]; cbn; [reflexivity|]. rewrite IH. reflexivity. Qed.

Lemma py_slice_ascii i j s :
  ascii7 (list_ascii_of_string s) -> py_slice i j s = slice i j s.
Proof.
  intros H. unfold py_slice, slice. rewrite code_points_ascii by exact H.
  apply list_ascii_inj. rewrite list_ascii_of_string_of_list_ascii, list_substring.
  rewrite skipn_map, firstn_map, concat_singletons. reflexivity.
Qed.

Lemma ascii7_app l1 l2 : ascii7 l1 -> ascii7 l2 -> ascii7 (l1 ++ l2).
Proof. intros H1 H2 b Hb. apply in_app_or in Hb as [Hb|Hb]; auto. Qed.

Lemma ascii7_incl l1 l2 : (forall b, In b l1 -> In b l2) -> ascii7 l2 -> ascii7 l1.
Proof. intros Hi H b Hb. apply H, Hi, Hb. Qed.

Lemma digit_char_ascii d : (d < 10)%N -> nat_of_ascii (digit_char d) < 128.
Proof.
  intros H. destruct (digit_char_cases d H) as [E0|[E0|[E0|[E0|[E0|[E0|[E0|[E0|[E0|E0]]]]]]]]];
    subst d; vm_compute; lia.
Qed.

Lemma digits_fuel_ascii f : forall m, ascii7 (digits_fuel f m).
Proof.
  induction f as [|f IH]; intros m; cbn [digits_fuel]; [intros b []|].
  destruct (m <? 10)%N eqn:E.
  - intros b [<-|[]]. apply digit_char_ascii. apply N.ltb_lt. exact E.
  - apply ascii7_app; [apply IH|]. intros b [<-|[]]. apply digit_char_ascii, N.mod_lt. lia.
Qed.

Lemma str_Z_ascii n : ascii7 (list_ascii_of_string (str_Z n)).
Proof.
  rewrite list_str_Z. unfold digits. destruct (n <? 0)%Z.
  - intros b [<-|Hb]; [vm_compute; lia|]. exact (digits_fuel_ascii _ _ b Hb).
  - apply digits_fuel_ascii.
Qed.

Lemma slice_ascii i j s : ascii7 (list_ascii_of_string s) -> ascii7 (list_ascii_of_string (slice i j s)).
Proof.
  apply ascii7_incl. intros b Hb. unfold slice in Hb. rewrite list_substring in Hb.
  rewrite <- (firstn_skipn i (list_ascii_of_string s)). apply in_or_app. right.
  rewrite <- (firstn_skipn (j - i) (skipn i _)). apply in_or_app. left. exact Hb.
Qed.

Lemma ljust_ascii s :
  ascii7 (list_ascii_of_string s) -> ascii7 (list_ascii_of_string (ljust 4 "0"%char s)).
Proof.
  intros H. unfold ljust. rewrite list_ascii_append, list_ascii_of_string_of_list_ascii.
  apply ascii7_app; [exact H|].
  intros b Hb. apply repeat_spec in Hb. subst b. vm_compute. lia.
Qed.

(** *** [buscarcuenta] *)

Lemma buscarcuenta_ok sd df cuenta df' :
  buscarcuenta sd df cuenta = Ok df' ->
  df' = mkDF (df_columns df)
             (filter (cuenta_match (if Nat.eqb (py_len cuenta) 4 then 5 else 7) cuenta)
                     (df_rows df)).
Proof.
  unfold buscarcuenta.
  destruct (negb (Nat.eqb _ 1)); [discriminate|].
  destruct (negb (_ || _)); [discriminate|].
  destruct (Nat.eqb (py_len cuenta) 4); cbn; congruence.
Qed.

(** A frame with one [Cuenta] column holding a string is searched. *)
Lemma buscarcuenta_some sd df cuenta r c :
  count_occ string_dec (df_columns df) "Cuenta" = 1 -> In r (df_rows df) ->
  row_get "Cuenta" r = Some c ->
  exists df', buscarcuenta sd df cuenta = Ok df'.
Proof.
  intros H1 Hr Hc. unfold buscarcuenta. rewrite H1. cbn [Nat.eqb negb].
  replace (existsb _ (df_rows df)) with true.
  - rewrite orb_true_r. cbn [negb]. eexists. reflexivity.
  - symmetry. apply existsb_exists. exists r. rewrite Hc. auto.
Qed.

Lemma in_buscarcuenta sd df cuenta df' r :
  buscarcuenta sd df cuenta = Ok df' ->
  (In r (df_rows df') <->
   In r (df_rows df) /\ exists c, row_get "Cuenta" r = Some c /\
     py_slice 1 (if Nat.eqb (py_len cuenta) 4 then 5 else 7) c = cuenta).
Proof.
  intros H. apply buscarcuenta_ok in H. subst df'. cbn [df_rows].
  rewrite filter_In. unfold cuenta_match.
  destruct (row_get "Cuenta" r) as [c|]; split.
  - intros [Hr E]. apply String.eqb_eq in E. split; [exact Hr|]. exists c. auto.
  - intros [Hr [c' [E1 E2]]]. injection E1 as <-. split; [exact Hr|].
    apply String.eqb_eq. exact E2.
  - intros [_ E]. discriminate.
  - intros [_ [c' [E _]]]. discriminate.
Qed.

End CuentasFacts.

Module BqFacts.
Import BigQuery.

Definition is_gbq (e : event) : bool := match e with ToGbq _ _ _ => true | _ => false end.
Definition is_dataset_call (e : event) : bool :=
  match e with CreateDataset _ _ => true | _ => false end.

(** The [to_gbq] call for the chunk at offset [i]. *)
Definition gbq_event (a : UploadArgs) (rows : list Row) (i : nat) : event :=
  ToGbq (full_table_id a) (firstn (Z.to_nat (chunk_size a)) (skipn i rows))
        (if_exists_at i (if_exists a)).

Lemma gbq_calls_app l1 l2 : gbq_calls (l1 ++ l2) = gbq_calls l1 ++ gbq_calls l2.
Proof. unfold gbq_calls. apply flat_map_app. Qed.

Lemma gbq_calls_none l : forallb (fun e => negb (is_gbq e)) l = true -> gbq_calls l = [].
Proof.
  induction l as [|e l IH]; [reflexivity|]. cbn. intros H.
  apply andb_true_iff in H as [H1 H2]. destruct e; cbn in *; try discriminate; auto.
Qed.

Lemma datasets_no_gbq l : forallb is_dataset_call l = true -> forallb (fun e => negb (is_gbq e)) l = true.
Proof.
  induction l as [|e l IH]; [reflexivity|]. cbn. intros H.
  apply andb_true_iff in H as [H1 H2]. destruct e; cbn in *; try discriminate; auto.
Qed.

Lemma gbq_calls_events a rows l :
  gbq_calls (map (gbq_event a rows) l)
  = map (fun i => (full_table_id a, firstn (Z.to_nat (chunk_size a)) (skipn i rows),
                   if_exists_at i (if_exists a))) l.
Proof. unfold gbq_calls. induction l as [|i l IH]; cbn; [reflexivity|]. f_equal. exact IH. Qed.

(** *** One step at a time *)

Lemma ensure_dataset_spec env a st :
  exists new, snd (ensure_dataset env a st) = mkBqState (bq_df st) (bq_calls st ++ new)
              /\ forallb is_dataset_call new = true.
Proof.
  unfold ensure_dataset, btry, bret, bfail, emit.
  destruct (get_dataset_ok env), (create_dataset_ok env); cbn;
    first [ exists []; rewrite app_nil_r; destruct st; split; reflexivity
          | exists [CreateDataset (dataset_id a) (location a)]; split; reflexivity ].
Qed.

Lemma ensure_dataset_ok env a st :
  get_dataset_ok env = true \/ create_dataset_ok env = true ->
  fst (ensure_dataset env a st) = Ok tt.
Proof.
  unfold ensure_dataset, btry, bret, bfail, emit.
  destruct (get_dataset_ok env), (create_dataset_ok env); cbn; intuition discriminate.
Qed.

Lemma set_col_rows p c st : bq_rows (bq_df (snd (set_col p c st))) = bq_rows (bq_df st).
Proof. reflexivity. Qed.

Ltac split_matches :=
  repeat (match goal with
          | |- context [match ?x with Ok _ => _ | Raise => _ end] => destruct x
          | |- context [match ?x with Some _ => _ | None => _ end] => destruct x
          | |- context [if ?b then _ else _] => destruct b
          end; cbn).

Lemma check_partition_spec env p tpt st :
  exists cols', snd (check_partition env p tpt st)
                = mkBqState (mkBq cols' (bq_rows (bq_df st))) (bq_calls st).
Proof.
  destruct st as [[cols rows] calls].
  unfold check_partition, bbind, get_frame, blift, bret, bfail, set_col. cbn.
  split_matches; eexists; reflexivity.
Qed.

Lemma partition_step_spec env a st :
  exists cols', snd (partition_step env a st)
                = mkBqState (mkBq cols' (bq_rows (bq_df st))) (bq_calls st).
Proof.
  unfold partition_step. destruct (truthy_field (partitioning_field a)).
  - apply check_partition_spec.
  - exists (bq_cols (bq_df st)). destruct st as [[] ]. reflexivity.
Qed.

Lemma build_schema_eq st :
  build_schema st = (schema_of (bq_cols (bq_df st)) (bq_cols (bq_df st)), st).
Proof. reflexivity. Qed.

Lemma table_partitioning_state a st : snd (table_partitioning a st) = st.
Proof.
  unfold table_partitioning. destruct (truthy_field (partitioning_field a)); [|reflexivity].
  destruct (mem _ _); reflexivity.
Qed.

Lemma create_table_spec env a sch part st :
  create_table env a sch part st
  = match create_table_error env with
    | None => (Ok tt, mkBqState (bq_df st)
                        (bq_calls st ++ [CreateTable (full_table_id a) sch part (table_clustering a)]))
    | Some msg => (if str_contains "Already Exists" msg then Ok tt else Raise, st)
    end.
Proof.
  unfold create_table. destruct (create_table_error env); [|reflexivity].
  destruct (str_contains _ _); reflexivity.
Qed.

Lemma upload_chunks_spec env a rows offs st :
  exists k, k <= length offs
    /\ snd (upload_chunks env (full_table_id a) rows (Z.to_nat (chunk_size a)) (if_exists a) offs st)
       = mkBqState (bq_df st) (bq_calls st ++ map (gbq_event a rows) (firstn k offs))
    /\ (forall j, j < k -> to_gbq_ok env (nth j offs 0) = true)
    /\ (k < length offs -> to_gbq_ok env (nth k offs 0) = false).
Proof.
  revert st. induction offs as [|i offs IH]; intros st; cbn.
  - exists 0. rewrite app_nil_r. destruct st. repeat split; intros; lia.
  - destruct (to_gbq_ok env i) eqn:Ei.
    + unfold bbind, emit. cbn.
      destruct (IH (mkBqState (bq_df st) (bq_calls st ++ [gbq_event a rows i]))) as (k & Hk & E & H1 & H2).
      exists (S k). split; [lia|]. split.
      * unfold gbq_event in E |- *. rewrite E. cbn. rewrite <- app_assoc. reflexivity.
      * split; intros.
        -- destruct j; [exact Ei|]. apply H1. lia.
        -- apply H2. lia.
    + exists 0. cbn. rewrite app_nil_r. destruct st. repeat split; intros; try lia. exact Ei.
Qed.

Lemma upload_rows_spec env a st :
  exists post, snd (upload_rows env a st) = mkBqState (bq_df st) (bq_calls st ++ post)
    /\ (post = []
        \/ exists offs k, py_range (length (bq_rows (bq_df st))) (chunk_size a) = Ok offs
             /\ post = map (gbq_event a (bq_rows (bq_df st))) (firstn k offs)).
Proof.
  unfold upload_rows, bbind, get_frame, blift. cbn.
  destruct (py_range (length (bq_rows (bq_df st))) (chunk_size a)) as [offs|] eqn:E.
  - destruct (upload_chunks_spec env a (bq_rows (bq_df st)) offs st) as (k & _ & Hs & _).
    exists (map (gbq_event a (bq_rows (bq_df st))) (firstn k offs)). split; [exact Hs|].
    right. exists offs, k. split; reflexivity || assumption.
  - exists []. rewrite app_nil_r. destruct st. split; [reflexivity|left; reflexivity].
Qed.

(** *** [range] *)

Lemma range_up_shape fuel i step stop :
  range_up fuel i step stop
  = map (fun j => i + j * step) (seq 0 (length (range_up fuel i step stop))).
Proof.
  revert i. induction fuel as [|f IH]; intros i; cbn [range_up]; [reflexivity|].
  destruct (Nat.ltb i stop); cbn [map length seq]; [|reflexivity].
  rewrite Nat.add_0_r. f_equal. rewrite IH at 1. rewrite <- seq_shift, map_map.
  apply map_ext. intros j. cbn. lia.
Qed.

Lemma range_up_bound fuel i step stop x : In x (range_up fuel i step stop) -> x < stop.
Proof.
  revert i. induction fuel as [|f IH]; intros i; cbn [range_up]; [intros []|].
  destruct (Nat.ltb i stop) eqn:E; cbn [In]; [|tauto].
  intros [<-|H]; [apply Nat.ltb_lt; exact E|exact (IH _ H)].
Qed.

Lemma range_up_cover fuel i step stop :
  0 < step -> stop - i <= fuel -> stop <= i + length (range_up fuel i step stop) * step.
Proof.
  revert i. induction fuel as [|f IH]; intros i Hs Hf; cbn [range_up]; [cbn; lia|].
  destruct (Nat.ltb i stop) eqn:E; cbn [length]; [|apply Nat.ltb_ge in E; lia].
  specialize (IH (i + step) Hs ltac:(lia)). lia.
Qed.

Lemma py_range_ok n cs offs :
  py_range n cs = Ok offs ->
  offs = map (fun j => j * Z.to_nat cs) (seq 0 (length offs))
  /\ (offs = [] \/ (0 < cs)%Z /\ (length offs - 1) * Z.to_nat cs < n)
  /\ ((0 < cs)%Z -> n <= length offs * Z.to_nat cs).
Proof.
  unfold py_range. destruct (Z.eqb_spec cs 0); [discriminate|].
  destruct (Z.ltb_spec cs 0).
  - intros [= <-]. cbn. split; [reflexivity|]. split; [left; reflexivity|]. lia.
  - intros [= <-]. split; [|split].
    + rewrite range_up_shape at 1. apply map_ext. intros. lia.
    + assert (Hsh : range_up n 0 (Z.to_nat cs) n
                    = map (fun j => j * Z.to_nat cs) (seq 0 (length (range_up n 0 (Z.to_nat cs) n)))).
      { rewrite range_up_shape at 1. apply map_ext. intros. lia. }
      destruct (length (range_up n 0 (Z.to_nat cs) n)) as [|L] eqn:EL.
      * left. rewrite Hsh. reflexivity.
      * right. split; [lia|].
        assert (Hin : In (L * Z.to_nat cs) (range_up n 0 (Z.to_nat cs) n)).
        { rewrite Hsh. apply in_map_iff. exists L. split; [reflexivity|apply in_seq; lia]. }
        apply range_up_bound in Hin. replace (S L - 1) with L by lia. exact Hin.
    + intros Hc. pose proof (range_up_cover n 0 (Z.to_nat cs) n ltac:(lia) ltac:(lia)). lia.
Qed.

Lemma firstn_add {A} n m (l : list A) : firstn (n + m) l = firstn n l ++ firstn m (skipn n l).
Proof.
  revert l. induction n as [|n IH]; intros [|x l]; cbn; try reflexivity.
  - destruct m; reflexivity.
  - f_equal. apply IH.
Qed.

Lemma chunks_concat (rows : list Row) c L :
  List.concat (map (fun j => firstn c (skipn (j * c) rows)) (seq 0 L)) = firstn (L * c) rows.
Proof.
  induction L as [|L IH]; [reflexivity|].
  rewrite seq_S, map_app, List.concat_app, IH. cbn [map List.concat]. rewrite app_nil_r, Nat.add_0_l.
  replace (S L * c) with (L * c + c) by lia. rewrite firstn_add. reflexivity.
Qed.

Lemma firstn_seq k s L : firstn k (seq s L) = seq s (Nat.min k L).
Proof.
  revert s L. induction k as [|k IH]; intros s [|L]; cbn; try reflexivity.
  f_equal. apply IH.
Qed.

Lemma if_exists_at_scaled k c ie : 0 < c -> if_exists_at (k * c) ie = if_exists_at k ie.
Proof.
  intros Hc. unfold if_exists_at. destruct k as [|k]; [reflexivity|].
  replace (Nat.eqb (S k * c) 0) with false by (symmetry; apply Nat.eqb_neq; lia).
  reflexivity.
Qed.

Lemma lookup_col_filter p cols c :
  lookup_col p cols = Ok c -> filter (fun d => String.eqb (cname d) p) cols = [c].
Proof.
  unfold lookup_col. destruct (filter _ cols) as [|x [|y l]]; congruence.
Qed.

Lemma filter_lookup_col p cols c :
  filter (fun d => String.eqb (cname d) p) cols = [c] -> lookup_col p cols = Ok c.
Proof. unfold lookup_col. intros ->. reflexivity. Qed.

Lemma filter_set_col p c cols :
  filter (fun d => String.eqb (cname d) p)
    (map (fun d => if String.eqb (cname d) p then mkCol p (cdtype c) (ctimes c) else d) cols)
  = map (fun _ => mkCol p (cdtype c) (ctimes c)) (filter (fun d => String.eqb (cname d) p) cols).
Proof.
  induction cols as [|d cols IH]; [reflexivity|]. cbn.
  destruct (String.eqb (cname d) p) eqn:E; cbn.
  - rewrite String.eqb_refl. f_equal. exact IH.
  - rewrite E. exact IH.
Qed.

Lemma check_partition_day env p tpt st st' :
  check_partition env p tpt st = (Ok tt, st') -> upper tpt = "DAY" ->
  exists c, filter (fun d => String.eqb (cname d) p) (bq_cols (bq_df st')) = [c]
            /\ cdtype c = DObject.
Proof.
  intros H Hday. revert H.
  destruct st as [[cols rows] calls].
  unfold check_partition, bbind, get_frame, blift, bret, bfail, set_col. cbn.
  rewrite Hday. cbn.
  repeat (match goal with
          | |- context [match ?x with Ok _ => _ | Raise => _ end] => destruct x eqn:?
          | |- context [match ?x with Some _ => _ | None => _ end] => destruct x eqn:?
          | |- context [if ?b then _ else _] => destruct b eqn:?
          end; cbn); intros H; try discriminate; injection H as <-; cbn;
  match goal with
  | E : lookup_col p ?l = Ok ?c' |- context [map _ ?l] =>
      exists (mkCol p DObject (ctimes c')); split; [|reflexivity];
      rewrite (filter_set_col p (dt_date c')), (lookup_col_filter _ _ _ E); reflexivity
  end.
Qed.

(** *** Steps 1 to 5 *)

Definition partition_of (a : UploadArgs) : option (string * string) :=
  match truthy_field (partitioning_field a) with
  | Some p => Some (p, upper (time_partitioning_type a))
  | None => None
  end.

Lemma prepare_spec env a st :
  exists new cols',
    snd (prepare env a st) = mkBqState (mkBq cols' (bq_rows (bq_df st))) (bq_calls st ++ new)
    /\ (forallb is_dataset_call new = true
        \/ exists dnew sch,
             new = dnew ++ [CreateTable (full_table_id a) sch (partition_of a) (table_clustering a)]
             /\ forallb is_dataset_call dnew = true
             /\ fst (prepare env a st) = Ok tt
             /\ create_table_error env = None
             /\ schema_of cols' cols' = Ok sch
             /\ (forall p, truthy_field (partitioning_field a) = Some p ->
                   upper (time_partitioning_type a) = "DAY" ->
                   exists c, filter (fun d => String.eqb (cname d) p) cols' = [c]
                             /\ cdtype c = DObject)).
Proof.
  pose proof (ensure_dataset_spec env a st) as [n1 [E1s H1]].
  unfold prepare, bbind.
  destruct (ensure_dataset env a st) as [[[]|] s1]; cbn in E1s; subst s1.
  2: { exists n1, (bq_cols (bq_df st)). split; [destruct st as [[]]; reflexivity|left; exact H1]. }
  pose proof (partition_step_spec env a (mkBqState (bq_df st) (bq_calls st ++ n1))) as [cols2 E2s].
  destruct (partition_step env a (mkBqState (bq_df st) (bq_calls st ++ n1))) as [[[]|] s2] eqn:E2;
    cbn in E2s; subst s2.
  2: { exists n1, cols2. split; [reflexivity|left; exact H1]. }
  rewrite build_schema_eq. cbn [bq_df bq_cols].
  destruct (schema_of cols2 cols2) as [sch|] eqn:Esch.
  2: { exists n1, cols2. split; [reflexivity|left; exact H1]. }
  unfold table_partitioning, partition_of in *.
  destruct (truthy_field (partitioning_field a)) as [p|] eqn:Ep.
  - destruct (mem (upper (time_partitioning_type a)) partition_types); cbn [bret bfail].
    2: { exists n1, cols2. split; [reflexivity|left; exact H1]. }
    rewrite create_table_spec. destruct (create_table_error env) as [msg|] eqn:Ec.
    + exists n1, cols2. split; [destruct (str_contains _ _); reflexivity|left; exact H1].
    + eexists _, cols2. split; [cbn; rewrite app_assoc; reflexivity|].
      right. exists n1, sch. repeat split; try assumption.
      intros q [= <-] Hday. unfold partition_step in E2. rewrite Ep in E2.
      exact (check_partition_day _ _ _ _ _ E2 Hday).
  - cbn [bret]. rewrite create_table_spec. destruct (create_table_error env) as [msg|] eqn:Ec.
    + exists n1, cols2. split; [destruct (str_contains _ _); reflexivity|left; exact H1].
    + eexists _, cols2. split; [cbn; rewrite app_assoc; reflexivity|].
      right. exists n1, sch. repeat split; try assumption. discriminate.
Qed.

Lemma prepare_new_no_gbq a new :
  (forallb is_dataset_call new = true
   \/ exists dnew sch, new = dnew ++ [CreateTable (full_table_id a) sch (partition_of a) (table_clustering a)]
        /\ forallb is_dataset_call dnew = true /\ True) ->
  gbq_calls new = [].
Proof.
  intros [H|(dnew & sch & -> & H & _)].
  - apply gbq_calls_none, datasets_no_gbq, H.
  - rewrite gbq_calls_app, (gbq_calls_none dnew (datasets_no_gbq _ H)). reflexivity.
Qed.

Lemma upload_state env a st : snd (upload_to_bigquery env a st) = snd (upload_body env a st).
Proof. unfold upload_to_bigquery, btry, bret. destruct (upload_body env a st) as [[]]; reflexivity. Qed.

(** The log of a run: steps 1 to 5 make no [to_gbq] call; step 6 makes the
    calls for a prefix of the offsets. *)
Lemma body_shape env a st :
  exists pre post,
    bq_calls (snd (upload_body env a st)) = bq_calls st ++ pre ++ post
    /\ gbq_calls pre = []
    /\ (post = []
        \/ exists offs k, py_range (length (bq_rows (bq_df st))) (chunk_size a) = Ok offs
             /\ post = map (gbq_event a (bq_rows (bq_df st))) (firstn k offs)).
Proof.
  unfold upload_body. destruct (bq_client_ok env); cbn [negb].
  2: { exists [], []. split; [rewrite app_nil_r; reflexivity|auto]. }
  unfold bbind.
  pose proof (prepare_spec env a st) as (new & cols' & Es & Hd).
  assert (Hn : gbq_calls new = []).
  { apply (prepare_new_no_gbq a). destruct Hd as [Hd|(dnew & sch & E & H & _)]; [left; exact Hd|].
    right. exists dnew, sch. auto. }
  destruct (prepare env a st) as [[[]|] s5]; cbn in Es; subst s5.
  - pose proof (upload_rows_spec env a (mkBqState (mkBq cols' (bq_rows (bq_df st))) (bq_calls st ++ new)))
      as (post & Eu & Hp).
    rewrite Eu. exists new, post. cbn. split; [rewrite app_assoc; reflexivity|]. split; [exact Hn|].
    exact Hp.
  - exists new, []. cbn. split; [rewrite !app_nil_r; reflexivity|auto].
Qed.

Lemma upload_layout env a df :
  let rows := bq_rows df in
  let c := Z.to_nat (chunk_size a) in
  let ups := gbq_calls (bq_calls (snd (upload_to_bigquery env a (mkBqState df [])))) in
  ups = map (fun k => (full_table_id a, firstn c (skipn (k * c) rows), if_exists_at k (if_exists a)))
            (seq 0 (length ups))
  /\ (ups = [] \/ (0 < chunk_size a)%Z /\ (length ups - 1) * c < length rows).
Proof.
  cbv zeta. rewrite upload_state.
  destruct (body_shape env a (mkBqState df [])) as (pre & post & E & Hpre & Hpost).
  rewrite E. cbn [bq_calls app]. rewrite gbq_calls_app, Hpre. cbn [app]. cbn [bq_df] in Hpost.
  destruct Hpost as [->|(offs & k & Hr & ->)].
  - split; [reflexivity|left; reflexivity].
  - rewrite gbq_calls_events.
    destruct (py_range_ok _ _ _ Hr) as (Hsh & [->|[Hc Hb]] & _).
    + rewrite firstn_nil. split; [reflexivity|left; reflexivity].
    + rewrite Hsh, firstn_map, firstn_seq, !map_map, length_map, length_seq.
      split.
      * apply map_ext. intros j. rewrite if_exists_at_scaled by lia. reflexivity.
      * right. split; [exact Hc|].
        assert (Nat.min k (length offs) - 1 <= length offs - 1) by lia.
        pose proof (Nat.mul_le_mono_r _ _ (Z.to_nat (chunk_size a)) H). lia.
Qed.

(** *** The schema *)

Lemma schema_of_in all cs sch c :
  schema_of all cs = Ok sch -> In c cs -> exists f, schema_field all c = Ok f /\ In f sch.
Proof.
  revert sch. induction cs as [|c' cs IH]; intros sch; cbn; [tauto|].
  destruct (schema_field all c') as [f|] eqn:Ef; [|discriminate].
  destruct (schema_of all cs) as [r|] eqn:Er; [|discriminate].
  intros [= <-] [<-|Hin].
  - exists f. split; [exact Ef|left; reflexivity].
  - destruct (IH r eq_refl Hin) as (g & Hg & Hg'). exists g. split; [exact Hg|right; exact Hg'].
Qed.

Lemma schema_of_from all cs sch f :
  schema_of all cs = Ok sch -> In f sch -> exists c, In c cs /\ schema_field all c = Ok f.
Proof.
  revert sch. induction cs as [|c' cs IH]; intros sch; cbn.
  - intros [= <-] [].
  - destruct (schema_field all c') as [g|] eqn:Ef; [|discriminate].
    destruct (schema_of all cs) as [r|] eqn:Er; [|discriminate].
    intros [= <-] [<-|Hin].
    + exists c'. split; [left; reflexivity|exact Ef].
    + destruct (IH r eq_refl Hin) as (c & Hc & Hc'). exists c. split; [right; exact Hc|exact Hc'].
Qed.

Lemma filter_unique_name all c :
  NoDup (map cname all) -> In c all -> filter (fun d => String.eqb (cname d) (cname c)) all = [c].
Proof.
  induction all as [|x all IH]; intros Hnd Hin; [destruct Hin|].
  cbn in Hnd. inversion Hnd as [|? ? Hx Hnd']; subst.
  cbn. destruct Hin as [<-|Hin].
  - rewrite String.eqb_refl. f_equal.
    apply RunFacts.filter_all_false. intros d Hd. apply String.eqb_neq. intros E.
    apply Hx. rewrite <- E. apply in_map. exact Hd.
  - destruct (String.eqb_spec (cname x) (cname c)) as [E|E].
    + exfalso. apply Hx. rewrite E. apply in_map. exact Hin.
    + apply IH; assumption.
Qed.

Lemma schema_of_ok all cs :
  NoDup (map cname all) ->
  (forall c, In c all -> cdtype c <> DDatetime true /\ cdtype c <> DDatetimeWide) ->
  incl cs all -> exists sch, schema_of all cs = Ok sch.
Proof.
  intros Hnd Htz. induction cs as [|c cs IH]; intros Hincl; [exists []; reflexivity|].
  destruct (IH (proj2 (incl_cons_inv Hincl))) as [r Hr].
  assert (Hc : In c all) by (apply Hincl; left; reflexivity).
  cbn. rewrite Hr. unfold schema_field.
  destruct (cdtype c) as [| | |[]| | | |] eqn:Ed; try (eexists; reflexivity).
  - exfalso. exact (proj1 (Htz c Hc) Ed).
  - rewrite (filter_unique_name all c Hnd Hc). cbn.
    destruct (forallb _ _); eexists; reflexivity.
  - exfalso. exact (proj2 (Htz c Hc) Ed).
Qed.

Lemma in_dropna t ts : In t (dropna ts) <-> In (Some t) ts.
Proof.
  induction ts as [|[u|] ts IH]; cbn; [tauto| |].
  - rewrite <- IH. split; intros [H|H]; auto; left; congruence.
  - rewrite IH. split; [auto|intros [H|H]; [discriminate|exact H]].
Qed.

Lemma forallb_min_iff ts :
  forallb (fun t => N.eqb t timestamp_min_time) (dropna ts) = true
  <-> (forall t, In (Some t) ts -> t = timestamp_min_time).
Proof.
  rewrite forallb_forall. split.
  - intros H t Ht. apply N.eqb_eq, H, in_dropna, Ht.
  - intros H t Ht. apply N.eqb_eq, H, in_dropna, Ht.
Qed.

Lemma forallb_min_false ts :
  forallb (fun t => N.eqb t timestamp_min_time) (dropna ts) = false
  <-> (exists t, In (Some t) ts /\ t <> timestamp_min_time).
Proof.
  split.
  - intros H. destruct (existsb (fun t => negb (N.eqb t timestamp_min_time)) (dropna ts)) eqn:E.
    + apply existsb_exists in E as (t & Ht & Hn). exists t. split; [apply in_dropna, Ht|].
      apply negb_true_iff, N.eqb_neq in Hn. exact Hn.
    + exfalso. assert (forallb (fun t => N.eqb t timestamp_min_time) (dropna ts) = true).
      { apply forallb_forall. intros t Ht. destruct (N.eqb t timestamp_min_time) eqn:Et; [reflexivity|].
        assert (existsb (fun t => negb (N.eqb t timestamp_min_time)) (dropna ts) = true)
          by (apply existsb_exists; exists t; rewrite Et; auto).
        congruence. }
      congruence.
  - intros (t & Ht & Hn). apply not_true_iff_false. rewrite forallb_min_iff. intros H.
    exact (Hn (H t Ht)).
Qed.

(** A field typed DATE or TIMESTAMP comes from a naive datetime column
    that is the only one of its name. *)
Lemma schema_field_datetime all c n x :
  In c all -> schema_field all c = Ok (n, x) -> x = "DATE" \/ x = "TIMESTAMP" ->
  n = cname c /\ cdtype c = DDatetime false
  /\ filter (fun d => String.eqb (cname d) (cname c)) all = [c]
  /\ (x = "DATE" <-> forallb (fun t => N.eqb t timestamp_min_time) (dropna (ctimes c)) = true).
Proof.
  intros Hin. unfold schema_field.
  destruct (cdtype c) as [| | |[]| | | |] eqn:Ed;
    try (intros [= _ <-] [H|H]; discriminate).
  cbn [orb].
    destruct (Nat.eqb_spec (length (filter (fun d => String.eqb (cname d) (cname c)) all)) 1) as [Hl|];
      [|discriminate]. cbn [negb].
    assert (Hf : filter (fun d => String.eqb (cname d) (cname c)) all = [c]).
    { assert (Hc : In c (filter (fun d => String.eqb (cname d) (cname c)) all))
        by (apply filter_In; split; [exact Hin|apply String.eqb_refl]).
      destruct (filter _ all) as [|y [|z l]]; cbn in Hl; try discriminate.
      destruct Hc as [<-|[]]. reflexivity. }
    destruct (forallb _ _); intros [= <- <-] _; repeat split; try reflexivity; try assumption;
      discriminate.
Qed.

(** *** Runs that reach step 6 *)

Lemma prepare_reaches env a st sch :
  get_dataset_ok env = true \/ create_dataset_ok env = true ->
  truthy_field (partitioning_field a) = None ->
  schema_of (bq_cols (bq_df st)) (bq_cols (bq_df st)) = Ok sch ->
  create_table_error env = None ->
  exists new, prepare env a st
              = (Ok tt, mkBqState (bq_df st)
                          (bq_calls st ++ new ++ [CreateTable (full_table_id a) sch None (table_clustering a)]))
              /\ forallb is_dataset_call new = true.
Proof.
  intros Hds Hp Hs Hc.
  pose proof (ensure_dataset_spec env a st) as [n1 [E1s H1]].
  pose proof (ensure_dataset_ok env a st Hds) as E1f.
  exists n1. split; [|exact H1].
  unfold prepare, bbind.
  destruct (ensure_dataset env a st) as [r1 s1]; cbn in E1s, E1f; subst r1 s1.
  unfold partition_step, table_partitioning. rewrite Hp. cbn [bret].
  rewrite build_schema_eq. cbn [bq_df]. rewrite Hs. cbn [blift].
  rewrite create_table_spec, Hc. cbn. rewrite app_assoc. reflexivity.
Qed.

Lemma upload_reaches env a df sch :
  bq_client_ok env = true ->
  get_dataset_ok env = true \/ create_dataset_ok env = true ->
  truthy_field (partitioning_field a) = None ->
  schema_of (bq_cols df) (bq_cols df) = Ok sch ->
  create_table_error env = None ->
  (0 < chunk_size a)%Z ->
  exists pre,
    snd (upload_to_bigquery env a (mkBqState df []))
    = snd (upload_chunks env (full_table_id a) (bq_rows df) (Z.to_nat (chunk_size a)) (if_exists a)
             (range_up (length (bq_rows df)) 0 (Z.to_nat (chunk_size a)) (length (bq_rows df)))
             (mkBqState df pre))
    /\ gbq_calls pre = []
    /\ In (CreateTable (full_table_id a) sch None (table_clustering a)) pre.
Proof.
  intros Hcl Hds Hp Hs Hc Hcs.
  destruct (prepare_reaches env a (mkBqState df []) sch Hds Hp Hs Hc) as (new & E & Hn).
  exists (new ++ [CreateTable (full_table_id a) sch None (table_clustering a)]).
  rewrite upload_state. unfold upload_body. rewrite Hcl. cbn [negb].
  unfold bbind at 1. rewrite E. cbn [app bq_df bq_calls].
  unfold upload_rows, bbind, get_frame, blift, py_range. cbn [bq_df].
  destruct (Z.eqb_spec (chunk_size a) 0); [lia|]. destruct (Z.ltb_spec (chunk_size a) 0); [lia|].
  split; [reflexivity|]. split.
  - rewrite gbq_calls_app, (gbq_calls_none new (datasets_no_gbq _ Hn)). reflexivity.
  - apply in_or_app. right. left. reflexivity.
Qed.

Lemma nth_map_seq {B} (f : nat -> B) L j d : j < L -> nth j (map f (seq 0 L)) d = f j.
Proof.
  intros H. apply nth_error_nth. rewrite nth_error_map, nth_error_seq.
  destruct (Nat.ltb_spec j L); [reflexivity|lia].
Qed.

Lemma range_up_nth n c j :
  0 < c -> j < length (range_up n 0 c n) -> nth j (range_up n 0 c n) 0 = j * c.
Proof.
  intros Hc Hj. rewrite range_up_shape in Hj |- *. rewrite length_map, length_seq in Hj.
  rewrite nth_map_seq by exact Hj. lia.
Qed.

Lemma range_up_len n c k : 0 < c -> k * c < n -> k < length (range_up n 0 c n).
Proof.
  intros Hc Hk. pose proof (range_up_cover n 0 c n Hc ltac:(lia)) as Hcov.
  destruct (Nat.lt_ge_cases k (length (range_up n 0 c n))) as [H|H]; [exact H|].
  pose proof (Nat.mul_le_mono_r _ _ c H). lia.
Qed.

Lemma dataset_calls_not_table l t sch part clus :
  forallb is_dataset_call l = true -> ~ In (CreateTable t sch part clus) l.
Proof.
  intros H Hin. rewrite forallb_forall in H. specialize (H _ Hin). discriminate.
Qed.

Lemma gbq_events_not_table a rows l t sch part clus :
  ~ In (CreateTable t sch part clus) (map (gbq_event a rows) l).
Proof. intros Hin. apply in_map_iff in Hin as (i & Hi & _). discriminate. Qed.

Lemma prepare_raise_calls env a st :
  fst (prepare env a st) = Raise ->
  exists new, bq_calls (snd (upload_to_bigquery env a st)) = bq_calls st ++ new
              /\ forallb is_dataset_call new = true.
Proof.
  intros Hr. rewrite upload_state. unfold upload_body.
  destruct (bq_client_ok env); cbn [negb].
  2: { exists []. rewrite app_nil_r. split; reflexivity. }
  unfold bbind at 1.
  pose proof (prepare_spec env a st) as (new & cols' & Es & Hd).
  destruct (prepare env a st) as [r s5]; cbn in Hr, Es, Hd; subst r s5.
  exists new. split; [reflexivity|].
  destruct Hd as [Hd|(dnew & sch & _ & _ & Hf & _)]; [exact Hd|discriminate].
Qed.

Lemma prepare_create_error env a st msg :
  create_table_error env = Some msg -> str_contains "Already Exists" msg = false ->
  fst (prepare env a st) = Raise.
Proof.
  intros H1 H2. unfold prepare, bbind.
  destruct (ensure_dataset env a st) as [[[]|] s1]; [|reflexivity].
  destruct (partition_step env a s1) as [[[]|] s2]; [|reflexivity].
  rewrite build_schema_eq. destruct (schema_of _ _); [|reflexivity].
  destruct (table_partitioning a s2) as [[part|] s3]; [|reflexivity].
  rewrite create_table_spec, H1, H2. reflexivity.
Qed.

Lemma prepare_invalid_type env a st p :
  truthy_field (partitioning_field a) = Some p ->
  mem (upper (time_partitioning_type a)) partition_types = false ->
  fst (prepare env a st) = Raise.
Proof.
  intros H1 H2. unfold prepare, bbind.
  destruct (ensure_dataset env a st) as [[[]|] s1]; [|reflexivity].
  destruct (partition_step env a s1) as [[[]|] s2]; [|reflexivity].
  rewrite build_schema_eq. destruct (schema_of _ _); [|reflexivity].
  unfold table_partitioning. rewrite H1, H2. reflexivity.
Qed.

Lemma ensure_dataset_eq env a st :
  exists new, (get_dataset_ok env = true \/ create_dataset_ok env = true ->
               ensure_dataset env a st = (Ok tt, mkBqState (bq_df st) (bq_calls st ++ new)))
              /\ snd (ensure_dataset env a st) = mkBqState (bq_df st) (bq_calls st ++ new)
              /\ forallb is_dataset_call new = true.
Proof.
  pose proof (ensure_dataset_spec env a st) as [n1 [E1s H1]].
  exists n1. split; [|split; assumption].
  intros Hds. pose proof (ensure_dataset_ok env a st Hds) as E1f.
  destruct (ensure_dataset env a st) as [r s1]. cbn in *. subst. reflexivity.
Qed.

Lemma create_table_event env a df t sch part clus :
  In (CreateTable t sch part clus) (bq_calls (snd (upload_to_bigquery env a (mkBqState df [])))) ->
  let cols := bq_cols (bq_df (snd (upload_to_bigquery env a (mkBqState df [])))) in
  schema_of cols cols = Ok sch /\ part = partition_of a
  /\ (forall p, truthy_field (partitioning_field a) = Some p ->
        upper (time_partitioning_type a) = "DAY" ->
        exists c, filter (fun d => String.eqb (cname d) p) cols = [c] /\ cdtype c = DObject).
Proof.
  cbv zeta. rewrite upload_state. unfold upload_body.
  destruct (bq_client_ok env); cbn [negb]; [|cbn; intros []].
  unfold bbind.
  pose proof (prepare_spec env a (mkBqState df [])) as (new & cols' & Es & Hd).
  destruct (prepare env a (mkBqState df [])) as [r s5]; cbn in Es, Hd; subst s5.
  assert (Hnew : In (CreateTable t sch part clus) new ->
                 schema_of cols' cols' = Ok sch /\ part = partition_of a
                 /\ (forall p, truthy_field (partitioning_field a) = Some p ->
                       upper (time_partitioning_type a) = "DAY" ->
                       exists c, filter (fun d => String.eqb (cname d) p) cols' = [c]
                                 /\ cdtype c = DObject)
                 /\ r = Ok tt).
  { intros Hin. destruct Hd as [Hd|(dnew & sch' & -> & Hdn & Hf & _ & Hs & Hday)].
    - exfalso. exact (dataset_calls_not_table _ _ _ _ _ Hd Hin).
    - apply in_app_or in Hin as [Hin|[Hin|[]]].
      + exfalso. exact (dataset_calls_not_table _ _ _ _ _ Hdn Hin).
      + injection Hin as <- <- <- <-. auto. }
  destruct r as [[]|].
  - pose proof (upload_rows_spec env a (mkBqState (mkBq cols' (bq_rows df)) new))
      as (post & Eu & Hp).
    rewrite Eu. cbn [bq_calls bq_df bq_cols app]. intros Hin.
    apply in_app_or in Hin as [Hin|Hin].
    + destruct (Hnew Hin) as (H1 & H2 & H3 & _). split; [exact H1|split; [exact H2|exact H3]].
    + exfalso. destruct Hp as [->|(offs & k & _ & ->)]; [exact Hin|].
      exact (gbq_events_not_table _ _ _ _ _ _ _ Hin).
  - cbn [bq_calls bq_df bq_cols app]. intros Hin.
    destruct (Hnew Hin) as (_ & _ & _ & Hr). discriminate.
Qed.

Lemma schema_in_datetime cols sch c x :
  schema_of cols cols = Ok sch -> In c cols -> cdtype c = DDatetime false ->
  In (cname c, x) sch -> x = "DATE" \/ x = "TIMESTAMP" ->
  (x = "DATE" <-> forallb (fun t => N.eqb t timestamp_min_time) (dropna (ctimes c)) = true).
Proof.
  intros Hs Hc Hd Hin Hx.
  destruct (schema_of_from _ _ _ _ Hs Hin) as (c' & Hc' & Hf).
  destruct (schema_field_datetime _ _ _ _ Hc' Hf Hx) as (Hn & _ & Hfl & Hiff).
  assert (Hcc : In c (filter (fun d => String.eqb (cname d) (cname c')) cols)).
  { apply filter_In. split; [exact Hc|]. rewrite <- Hn. apply String.eqb_refl. }
  rewrite Hfl in Hcc. destruct Hcc as [<-|[]]. exact Hiff.
Qed.

Lemma schema_has_datetime cols sch c :
  schema_of cols cols = Ok sch -> In c cols -> cdtype c = DDatetime false ->
  In (cname c, if forallb (fun t => N.eqb t timestamp_min_time) (dropna (ctimes c))
               then "DATE" else "TIMESTAMP") sch.
Proof.
  intros Hs Hc Hd. destruct (schema_of_in _ _ _ _ Hs Hc) as (f & Hf & Hin).
  unfold schema_field in Hf. rewrite Hd in Hf. cbn [orb negb] in Hf.
  destruct (Nat.eqb _ 1); [|discriminate]. cbn in Hf.
  destruct (forallb _ _); injection Hf as <-; exact Hin.
Qed.

End BqFacts.

(** ** The claims *)

(** C2: whatever the collaborators do (listing, log read, download, parse
    or log upload raising), [read_gcs_files_to_dataframes_aserta] returns
    a DataFrame and never lets an exception escape. *)
Theorem read_gcs_never_raises env a s :
  exists df s', read_gcs_files_to_dataframes_aserta env a s = (Ok df, s').
Proof.
  unfold read_gcs_files_to_dataframes_aserta, try_except, ret.
  destruct (body env a s) as [[df|] s']; eauto.
Qed.

(** C7: a listed blob is a candidate exactly when its name ends with
    [file_type], its trailing segment starts with [file_prefix] when one is
    given, and its trailing segment is not [file_already_read.txt]; for
    [a_data.csv], [b_other.csv], [a_data.txt] with [.csv] and [a_], only
    [a_data.csv] is a candidate. *)
Theorem candidate_files_correct :
  (forall ft fp blobs b,
     In b (candidate_files ft fp blobs) <->
     In b blobs /\ endswith b ft = true /\
     (match fp with None => True | Some p => startswith (trailing_name b) p = true end) /\
     trailing_name b <> log_filename) /\
  candidate_files ".csv" (Some "a_") ["a_data.csv"; "b_other.csv"; "a_data.txt"]
  = ["a_data.csv"].
Proof.
  split; [|reflexivity].
  intros ft fp blobs b. unfold candidate_files, is_candidate.
  rewrite filter_In, !andb_true_iff, negb_true_iff, String.eqb_neq.
  destruct fp; tauto.
Qed.

(** C8: when the candidate set is empty, or every candidate's trailing
    name is already in the ledger (with [read_log_file]), the run returns
    [pd.DataFrame()] and leaves the store, ledger object included,
    untouched: no upload is attempted. *)
Theorem early_exit_no_write env a s blobs :
  list_blobs env (prefix a) (delimiter a) = Some blobs ->
  (candidate_files (file_type a) (file_prefix a) blobs = [] \/
   (read_log_file a = true /\
    forall b, In b (candidate_files (file_type a) (file_prefix a) blobs) ->
              In (trailing_name b) (ledger_names s))) ->
  read_gcs_files_to_dataframes_aserta env a s = (Ok empty_df, s).
Proof.
  intros Hl Hc. apply (run_nothing_to_read env a s blobs Hl).
  destruct Hc as [Hc|[Hr Hin]].
  - rewrite Hc. reflexivity.
  - apply filter_all_false. intros b Hb. unfold keep, already_of.
    rewrite Hr. apply negb_false_iff. simpl. apply mem_In. apply Hin. exact Hb.
Qed.

(** C9: for a [file_type] other than [.xlsx] and [.csv] the run returns
    [pd.DataFrame()] and never writes the ledger, whatever the store holds;
    the names of the files skipped as unsupported (their download did not
    raise) all stay in the pending-update list. *)
Theorem unsupported_type_no_write env a s :
  file_type a <> ".xlsx" -> file_type a <> ".csv" ->
  read_gcs_files_to_dataframes_aserta env a s = (Ok empty_df, s) /\
  (forall already blobs,
     let sel := select_files (read_log_file a) already
                  (candidate_files (file_type a) (file_prefix a) blobs) in
     forall b, In b (fst sel) -> download_as_bytes env b <> None ->
       In (trailing_name b) (snd (read_loop env (file_type a) (fst sel) (snd sel)))).
Proof.
  intros H1 H2.
  assert (Hnone : forall l, tagged_frames env (file_type a) l = []).
  { intros l. apply tagged_frames_none. intros b _.
    destruct (parsed_ok env (file_type a) b) eqn:E; [|reflexivity].
    apply parsed_ok_type in E. tauto. }
  split.
  - destruct (read_gcs_shape env a s) as [H|[blobs [_ [_ Heq]]]]; [exact H|].
    rewrite Heq, process_blobs_eq. cbv zeta. rewrite read_loop_fst, Hnone, orb_true_r.
    reflexivity.
  - intros already blobs sel b Hb Hd.
    subst sel. rewrite select_files_spec in *. cbn [fst snd] in *.
    unfold read_loop.
    eapply Permutation_in.
    + apply Permutation_sym. apply (read_loop_perm env (file_type a) _ [] _ []).
      reflexivity.
    + cbn [app]. apply in_map. apply filter_In. split; [exact Hb|].
      unfold not_failed, read_table.
      destruct (download_as_bytes env b); [|congruence].
      apply String.eqb_neq in H1, H2. rewrite H1, H2. reflexivity.
Qed.

(** C6: when at least one file parsed and the ledger upload raises, the run
    still returns the concatenation of every parsed file's DataFrame, the
    same DataFrame it returns when the upload succeeds; the ledger object is
    left as it was, so those files are read again next time. *)
Theorem ledger_write_failure_keeps_result env a s blobs :
  client_ok env = true -> exists_ok env = true ->
  (ledger s = None \/ text_ok env = true) ->
  list_blobs env (prefix a) (delimiter a) = Some blobs ->
  upload_ok env = false ->
  let to_read := fst (select_files (read_log_file a) (already_of a s)
                        (candidate_files (file_type a) (file_prefix a) blobs)) in
  tagged_frames env (file_type a) to_read <> [] ->
  fst (read_gcs_files_to_dataframes_aserta env a s)
    = Ok (concat (tagged_frames env (file_type a) to_read)) /\
  ledger (snd (read_gcs_files_to_dataframes_aserta env a s)) = ledger s /\
  fst (read_gcs_files_to_dataframes_aserta env a s)
    = fst (read_gcs_files_to_dataframes_aserta (with_upload env true) a s).
Proof.
  intros Hc He Ht Hl Hu to_read Hne.
  assert (Hto : to_read <> []).
  { intros E. apply Hne. rewrite E. reflexivity. }
  rewrite (read_gcs_setup env a s blobs Hc He Ht Hl).
  rewrite (read_gcs_setup (with_upload env true) a s blobs Hc He Ht Hl).
  rewrite !process_blobs_eq. cbv zeta. fold to_read.
  assert (Hrt : forall b, read_table (with_upload env true) (file_type a) b
                          = read_table env (file_type a) b) by reflexivity.
  assert (Hlp : read_loop (with_upload env true) (file_type a) to_read
                  = read_loop env (file_type a) to_read).
  { reflexivity. }
  rewrite Hlp, read_loop_fst, (is_nil_false _ Hto), (is_nil_false _ Hne). cbn [orb fst snd].
  split; [reflexivity|]. split; [|reflexivity].
  unfold after_write. rewrite Hu.
  destruct (_ && _); reflexivity.
Qed.

(** C3: three candidates A, B, C, none in the ledger, with distinct
    trailing names; A and C parse, B's download or parse raises.  The
    result holds the rows of A then the rows of C, each carrying its own
    file name in column [file], and the ledger written at the end lists
    the previous names, then A and C, and not B. *)
Theorem partial_failure_isolation env a s blobs A B C dfA dfC :
  client_ok env = true -> exists_ok env = true ->
  (ledger s = None \/ text_ok env = true) ->
  list_blobs env (prefix a) (delimiter a) = Some blobs ->
  read_log_file a = true -> upload_ok env = true ->
  candidate_files (file_type a) (file_prefix a) blobs = [A; B; C] ->
  ~ In (trailing_name A) (ledger_names s) ->
  ~ In (trailing_name B) (ledger_names s) ->
  ~ In (trailing_name C) (ledger_names s) ->
  trailing_name A <> trailing_name B -> trailing_name C <> trailing_name B ->
  read_table env (file_type a) A = Ok (Some dfA) ->
  read_table env (file_type a) B = Raise ->
  read_table env (file_type a) C = Ok (Some dfC) ->
  let rowsA := map (row_set "file" (trailing_name A)) (df_rows dfA) in
  let rowsC := map (row_set "file" (trailing_name C)) (df_rows dfC) in
  let written := ledger_names s ++ [trailing_name A; trailing_name C] in
  exists df,
    fst (read_gcs_files_to_dataframes_aserta env a s) = Ok df /\
    df_rows df = rowsA ++ rowsC /\
    Forall (fun r => row_get "file" r = Some (trailing_name A)) rowsA /\
    Forall (fun r => row_get "file" r = Some (trailing_name C)) rowsC /\
    ledger (snd (read_gcs_files_to_dataframes_aserta env a s))
      = Some (join newline written) /\
    In (trailing_name A) written /\ In (trailing_name C) written /\
    ~ In (trailing_name B) written.
Proof.
  intros Hc He Ht Hl Hr Hu Hcand HA HB HC HAB HCB EA EB EC rowsA rowsC written.
  assert (Hsel : select_files (read_log_file a) (already_of a s) [A; B; C]
                 = ([A; B; C], map trailing_name [A; B; C])).
  { rewrite select_files_spec. unfold already_of. rewrite Hr.
    unfold keep. cbn [filter andb negb].
    rewrite (proj1 (not_true_iff_false _) (fun H => HA (proj1 (mem_In _ _) H))),
            (proj1 (not_true_iff_false _) (fun H => HB (proj1 (mem_In _ _) H))),
            (proj1 (not_true_iff_false _) (fun H => HC (proj1 (mem_In _ _) H))).
    reflexivity. }
  assert (Hok : filter (not_failed env (file_type a)) [A; B; C] = [A; C]).
  { unfold not_failed. cbn [filter]. rewrite EA, EB, EC. reflexivity. }
  assert (Hup : snd (read_loop env (file_type a) [A; B; C] (map trailing_name [A; B; C]))
                = [trailing_name A; trailing_name C]).
  { unfold read_loop. rewrite <- (app_nil_l (map trailing_name [A; B; C])).
    rewrite read_loop_exact.
    - rewrite Hok. reflexivity.
    - intros b Hb Hf. rewrite Hok. cbn.
      destruct Hb as [<-|[<-|[<-|[]]]].
      + unfold not_failed in Hf. rewrite EA in Hf. discriminate.
      + intros [H|[H|[]]]; congruence.
      + unfold not_failed in Hf. rewrite EC in Hf. discriminate. }
  assert (Hfr : tagged_frames env (file_type a) [A; B; C]
                = [set_column "file" (trailing_name A) dfA;
                   set_column "file" (trailing_name C) dfC]).
  { unfold tagged_frames. cbn [flat_map]. rewrite EA, EB, EC. reflexivity. }
  rewrite (read_gcs_setup env a s blobs Hc He Ht Hl), process_blobs_eq. cbv zeta.
  rewrite Hcand, Hsel. cbn [fst snd]. rewrite read_loop_fst, Hfr.
  cbn [is_nil orb].
  exists (concat [set_column "file" (trailing_name A) dfA;
                  set_column "file" (trailing_name C) dfC]).
  split; [reflexivity|].
  split; [cbn; rewrite app_nil_r; reflexivity|].
  split; [apply Forall_forall; intros r Hr'; apply in_map_iff in Hr' as [r0 [<- _]];
          apply row_get_row_set|].
  split; [apply Forall_forall; intros r Hr'; apply in_map_iff in Hr' as [r0 [<- _]];
          apply row_get_row_set|].
  split.
  - cbn [snd]. unfold after_write. rewrite Hup, Hr, Hu. cbn [andb negb is_nil].
    unfold already_of. rewrite Hr. reflexivity.
  - subst written. split; [|split].
    + apply in_app_iff. right. left. reflexivity.
    + apply in_app_iff. right. right. left. reflexivity.
    + intros H. apply in_app_iff in H as [H|[H|[H|[]]]]; [exact (HB H)|congruence|congruence].
Qed.

(** C5: when the files parsed in a run with [read_log_file] are, in order,
    [x.csv] then [y.csv] (no file that failed is named like them) and the
    upload succeeds, the ledger object becomes the previous names followed
    by [x.csv] and [y.csv] joined by newlines, and parsing it back gives
    exactly those names. *)
Theorem ledger_roundtrip env a s blobs :
  client_ok env = true -> exists_ok env = true ->
  (ledger s = None \/ text_ok env = true) ->
  list_blobs env (prefix a) (delimiter a) = Some blobs ->
  read_log_file a = true -> upload_ok env = true ->
  let to_read := fst (select_files true (ledger_names s)
                        (candidate_files (file_type a) (file_prefix a) blobs)) in
  map trailing_name (filter (parsed_ok env (file_type a)) to_read) = ["x.csv"; "y.csv"] ->
  (forall b, In b to_read -> not_failed env (file_type a) b = false ->
     trailing_name b <> "x.csv" /\ trailing_name b <> "y.csv") ->
  ledger (snd (read_gcs_files_to_dataframes_aserta env a s))
    = Some (join newline (ledger_names s ++ ["x.csv"; "y.csv"])) /\
  ledger_names (snd (read_gcs_files_to_dataframes_aserta env a s))
    = ledger_names s ++ ["x.csv"; "y.csv"].
Proof.
  intros Hc He Ht Hl Hr Hu to_read Hnames Hfail.
  assert (Hsel : select_files true (ledger_names s)
                   (candidate_files (file_type a) (file_prefix a) blobs)
                 = (to_read, map trailing_name to_read)).
  { unfold to_read. rewrite select_files_spec. reflexivity. }
  destruct (filter (parsed_ok env (file_type a)) to_read) as [|b0 rest] eqn:Ef;
    [discriminate|].
  assert (Hb0 : In b0 to_read /\ parsed_ok env (file_type a) b0 = true).
  { apply filter_In. rewrite Ef. left. reflexivity. }
  destruct Hb0 as [Hb0 Hp0].
  assert (Hnf : filter (not_failed env (file_type a)) to_read
                = filter (parsed_ok env (file_type a)) to_read).
  { apply filter_ext. intros b. apply not_failed_parsed, (parsed_ok_type env _ b0 Hp0). }
  assert (Hup : snd (read_loop env (file_type a) to_read (map trailing_name to_read))
                = ["x.csv"; "y.csv"]).
  { unfold read_loop. rewrite <- (app_nil_l (map trailing_name to_read)).
    rewrite read_loop_exact, Hnf, Ef; [exact Hnames|].
    intros b Hb Hf. rewrite Hnf, Ef, Hnames. cbn [app].
    destruct (Hfail b Hb Hf) as [Hx Hy]. intros [H|[H|[]]]; congruence. }
  assert (Hne : tagged_frames env (file_type a) to_read <> [])
    by exact (tagged_frames_in env _ _ b0 Hb0 Hp0).
  assert (Hto : to_read <> []) by (intros E; rewrite E in Hb0; destruct Hb0).
  assert (Hrun : snd (read_gcs_files_to_dataframes_aserta env a s)
                 = mkStore (Some (join newline (ledger_names s ++ ["x.csv"; "y.csv"])))
                           (S (uploads s))).
  { rewrite (read_gcs_setup env a s blobs Hc He Ht Hl), process_blobs_eq. cbv zeta.
    unfold already_of. rewrite Hr, Hsel. cbn [fst snd].
    rewrite read_loop_fst, (is_nil_false _ Hto), (is_nil_false _ Hne).
    cbn [orb snd]. unfold after_write.
    rewrite Hup, Hu. reflexivity. }
  rewrite Hrun. split; [reflexivity|].
  rewrite ledger_names_written. reflexivity.
Qed.

(** C4, as the code behaves: with [read_log_file], when every file to read
    parses, the upload succeeds and the names read carry no surrounding
    whitespace, the first run returns the concatenation of those files
    (non-empty as soon as one of them has a row), writes the ledger once,
    and a second run against the updated store returns [pd.DataFrame()]
    without touching the store. *)
Theorem idempotent_under_ledger env a s blobs :
  client_ok env = true -> exists_ok env = true -> text_ok env = true ->
  list_blobs env (prefix a) (delimiter a) = Some blobs ->
  read_log_file a = true -> upload_ok env = true ->
  let to_read := fst (select_files true (ledger_names s)
                        (candidate_files (file_type a) (file_prefix a) blobs)) in
  to_read <> [] ->
  (forall b, In b to_read -> parsed_ok env (file_type a) b = true) ->
  (forall b, In b to_read -> clean_name (trailing_name b) = true) ->
  let s1 := snd (read_gcs_files_to_dataframes_aserta env a s) in
  fst (read_gcs_files_to_dataframes_aserta env a s)
    = Ok (concat (tagged_frames env (file_type a) to_read)) /\
  ((exists b df, In b to_read /\ read_table env (file_type a) b = Ok (Some df) /\
                 df_rows df <> []) ->
   df_empty (concat (tagged_frames env (file_type a) to_read)) = false) /\
  ledger s1 = Some (join newline (ledger_names s ++ map trailing_name to_read)) /\
  uploads s1 = S (uploads s) /\
  read_gcs_files_to_dataframes_aserta env a s1 = (Ok empty_df, s1).
Proof.
  intros Hc He Ht Hl Hr Hu to_read Hto Hok Hclean s1.
  assert (Hsel : select_files true (ledger_names s)
                   (candidate_files (file_type a) (file_prefix a) blobs)
                 = (to_read, map trailing_name to_read)).
  { unfold to_read. rewrite select_files_spec. reflexivity. }
  assert (Hb0 : exists b0, In b0 to_read).
  { destruct to_read as [|b0 rest]; [congruence|]. exists b0. left. reflexivity. }
  destruct Hb0 as [b0 Hb0].
  assert (Hft := parsed_ok_type env _ b0 (Hok b0 Hb0)).
  assert (Hnf : filter (not_failed env (file_type a)) to_read = to_read).
  { apply filter_all_true. intros b Hb.
    rewrite not_failed_parsed by exact Hft. apply Hok, Hb. }
  assert (Hup : snd (read_loop env (file_type a) to_read (map trailing_name to_read))
                = map trailing_name to_read).
  { unfold read_loop. rewrite <- (app_nil_l (map trailing_name to_read)).
    rewrite read_loop_exact, Hnf; [reflexivity|].
    intros b Hb Hf. rewrite not_failed_parsed, Hok in Hf by assumption. discriminate. }
  assert (Hne : tagged_frames env (file_type a) to_read <> [])
    by exact (tagged_frames_in env _ _ b0 Hb0 (Hok b0 Hb0)).
  assert (Hmap : map trailing_name to_read <> [])
    by (intros E; apply Hto; apply map_eq_nil in E; exact E).
  assert (Hrun : read_gcs_files_to_dataframes_aserta env a s
                 = (Ok (concat (tagged_frames env (file_type a) to_read)),
                    mkStore (Some (join newline (ledger_names s ++ map trailing_name to_read)))
                            (S (uploads s)))).
  { rewrite (read_gcs_setup env a s blobs Hc He (or_intror Ht) Hl), process_blobs_eq.
    cbv zeta. unfold already_of. rewrite Hr, Hsel. cbn [fst snd].
    rewrite read_loop_fst, (is_nil_false _ Hto), (is_nil_false _ Hne). cbn [orb].
    unfold after_write. rewrite Hup, Hu, (is_nil_false _ Hmap). reflexivity. }
  subst s1. rewrite Hrun. cbn [fst snd].
  split; [reflexivity|]. split.
  - intros [b [df [Hb [Hrt Hrows]]]].
    apply (concat_not_empty _ (set_column "file" (trailing_name b) df) "file").
    + unfold tagged_frames. apply in_flat_map. exists b. rewrite Hrt.
      split; [exact Hb|left; reflexivity].
    + apply set_column_has.
    + unfold set_column. cbn [df_rows]. intros E. apply map_eq_nil in E. congruence.
  - split; [reflexivity|]. split; [reflexivity|].
    apply (run_nothing_to_read env a _ blobs Hl).
    apply filter_all_false. intros b Hb. unfold keep, already_of. rewrite Hr. cbn [andb].
    apply negb_false_iff. apply mem_In.
    rewrite ledger_names_written, flat_map_parse_clean.
    2: { apply Forall_forall. intros n Hn. apply in_map_iff in Hn as [b' [<- Hb']].
         apply Hclean, Hb'. }
    apply in_app_iff.
    destruct (mem (trailing_name b) (ledger_names s)) eqn:Em.
    + left. apply mem_In, Em.
    + right. apply in_map. unfold to_read. rewrite select_files_spec. cbn [fst].
      apply filter_In. split; [exact Hb|]. unfold keep. rewrite Em. reflexivity.
Qed.

(** C1, as the code behaves: with [read_log_file], a run either leaves the
    ledger object as it was or overwrites it with the names it read followed
    by a list of names, each the trailing name of a candidate of that run
    whose bytes were parsed into a DataFrame.  Entries are keyed by trailing
    name, so a failed file's name is only written when another candidate
    with the same trailing name parsed in the same run. *)
Theorem ledger_soundness env a s :
  read_log_file a = true ->
  let s' := snd (read_gcs_files_to_dataframes_aserta env a s) in
  ledger s' = ledger s \/
  exists blobs up,
    list_blobs env (prefix a) (delimiter a) = Some blobs /\
    ledger s' = Some (join newline (ledger_names s ++ up)) /\
    forall n, In n up ->
      exists b, In b (candidate_files (file_type a) (file_prefix a) blobs) /\
                trailing_name b = n /\ parsed_ok env (file_type a) b = true.
Proof.
  intros Hr s'. subst s'.
  destruct (read_gcs_shape env a s) as [H|[blobs [Hl [_ Heq]]]];
    [left; rewrite H; reflexivity|].
  rewrite Heq, process_blobs_eq. cbv zeta. rewrite select_files_spec. cbn [fst snd].
  set (cands := candidate_files (file_type a) (file_prefix a) blobs).
  set (to_read := filter (keep (read_log_file a) (already_of a s)) cands).
  destruct (is_nil to_read || is_nil (fst (read_loop env (file_type a) to_read
                                              (map trailing_name to_read)))) eqn:Eb;
    [left; reflexivity|].
  apply orb_false_iff in Eb as [_ Eb]. rewrite read_loop_fst in Eb.
  assert (Hne : tagged_frames env (file_type a) to_read <> [])
    by (intros E; rewrite E in Eb; discriminate).
  destruct (tagged_frames_some _ _ _ Hne) as [b0 [_ Hp0]].
  pose proof (parsed_ok_type _ _ _ Hp0) as Hft.
  cbn [snd]. unfold after_write. rewrite Hr. cbn [andb].
  destruct (negb _); [|left; reflexivity].
  destruct (upload_ok env); [|left; reflexivity].
  right. exists blobs, (snd (read_loop env (file_type a) to_read (map trailing_name to_read))).
  split; [exact Hl|]. split; [unfold already_of; rewrite Hr; reflexivity|].
  intros n Hn.
  pose proof (read_loop_perm env (file_type a) to_read [] (map trailing_name to_read) []
                (Permutation_refl _)) as Hp.
  apply (Permutation_in _ Hp) in Hn. cbn [app] in Hn.
  apply in_map_iff in Hn as [b [Hbn Hb]]. apply filter_In in Hb as [Hb Hnf].
  exists b. split; [apply filter_In in Hb as [Hb _]; exact Hb|].
  split; [exact Hbn|]. rewrite <- not_failed_parsed by exact Hft. exact Hnf.
Qed.

(** C10, as the code behaves: skipping keys on the trailing name only.  A
    ledger entry naming [p] skips every candidate with that trailing name;
    and once [p] has parsed in a run with [read_log_file] whose upload
    succeeds, every candidate sharing its trailing name (which carries no
    surrounding whitespace) is skipped in every later run. *)
Theorem trailing_name_keying env a s blobs p df :
  client_ok env = true -> exists_ok env = true ->
  (ledger s = None \/ text_ok env = true) ->
  list_blobs env (prefix a) (delimiter a) = Some blobs ->
  read_log_file a = true -> upload_ok env = true ->
  In p (candidate_files (file_type a) (file_prefix a) blobs) ->
  read_table env (file_type a) p = Ok (Some df) ->
  clean_name (trailing_name p) = true ->
  (forall already cands p', trailing_name p' = trailing_name p ->
     In (trailing_name p) already -> ~ In p' (fst (select_files true already cands))) /\
  (forall runs cands p', trailing_name p' = trailing_name p ->
     ~ In p' (fst (select_files true
                     (ledger_names (run_all runs
                        (snd (read_gcs_files_to_dataframes_aserta env a s))))
                     cands))).
Proof.
  intros Hc He Ht Hl Hr Hu Hp Hrt Hcl.
  split.
  { intros already cands p' Hn Hin. apply skipped_if_listed. rewrite Hn. exact Hin. }
  intros runs cands p' Hn. apply skipped_if_listed. rewrite Hn.
  apply run_all_monotone.
  destruct (mem (trailing_name p) (ledger_names s)) eqn:Em.
  { apply ledger_monotone, mem_In, Em. }
  set (cands0 := candidate_files (file_type a) (file_prefix a) blobs) in *.
  set (to_read := filter (keep true (ledger_names s)) cands0).
  assert (Hin : In p to_read).
  { apply filter_In. split; [exact Hp|]. unfold keep. rewrite Em. reflexivity. }
  assert (Hpok : parsed_ok env (file_type a) p = true)
    by (unfold parsed_ok; rewrite Hrt; reflexivity).
  assert (Hne : tagged_frames env (file_type a) to_read <> [])
    by exact (tagged_frames_in _ _ _ _ Hin Hpok).
  assert (Hto : to_read <> []) by (intros E; rewrite E in Hin; destruct Hin).
  set (up := snd (read_loop env (file_type a) to_read (map trailing_name to_read))).
  assert (Hup : In (trailing_name p) up).
  { pose proof (read_loop_perm env (file_type a) to_read [] (map trailing_name to_read) []
                  (Permutation_refl _)) as Hperm.
    apply (Permutation_in _ (Permutation_sym Hperm)). cbn [app].
    apply in_map, filter_In. split; [exact Hin|].
    unfold not_failed. rewrite Hrt. reflexivity. }
  assert (Hupn : up <> []) by (intros E; rewrite E in Hup; destruct Hup).
  rewrite (read_gcs_setup env a s blobs Hc He Ht Hl), process_blobs_eq. cbv zeta.
  unfold already_of. rewrite Hr, select_files_spec. cbn [fst snd]. fold cands0 to_read.
  rewrite read_loop_fst, (is_nil_false _ Hto), (is_nil_false _ Hne). cbn [orb snd].
  fold up. unfold after_write. rewrite Hu, (is_nil_false _ Hupn). cbn [andb negb].
  rewrite ledger_names_written. apply in_app_iff. right.
  apply in_flat_map_parse; assumption.
Qed.

(** ** Counterexamples *)

(** C1 as stated fails: [d1/a.csv] cannot be downloaded while [d2/a.csv]
    parses; the run writes [a.csv] to the ledger, and the next run reads
    neither file, so the failed one is not retried. *)
Lemma ledger_soundness_counterexample :
  let e := Examples.env ["d1/a.csv"; "d2/a.csv"] ["d1/a.csv"] Examples.frame1 true in
  let a := Examples.args ".csv" true in
  let s1 := snd (read_gcs_files_to_dataframes_aserta e a Examples.store0) in
  read_table e ".csv" "d1/a.csv" = Raise /\
  ledger Examples.store0 = None /\
  ledger s1 = Some "a.csv" /\
  fst (select_files true (ledger_names s1)
         (candidate_files ".csv" None ["d1/a.csv"; "d2/a.csv"])) = [] /\
  read_gcs_files_to_dataframes_aserta e a s1 = (Ok empty_df, s1).
Proof. cbv zeta. repeat split; vm_compute; reflexivity. Qed.

(** C4 as stated fails: the only candidate is a CSV with a header and no
    rows; it parses and the upload succeeds, yet the first run returns an
    empty DataFrame. *)
Lemma idempotence_counterexample :
  let e := Examples.env ["data/a.csv"] [] Examples.header_only true in
  let a := Examples.args ".csv" true in
  candidate_files ".csv" None ["data/a.csv"] = ["data/a.csv"] /\
  ledger Examples.store0 = None /\
  parsed_ok e ".csv" "data/a.csv" = true /\ upload_ok e = true /\
  fst (read_gcs_files_to_dataframes_aserta e a Examples.store0)
    = Ok (mkDF ["x"; "file"] []) /\
  df_empty (mkDF ["x"; "file"] []) = true.
Proof. cbv zeta. repeat split; vm_compute; reflexivity. Qed.

(** C10 as stated fails twice: when the upload raises, both [d1/a.csv] and
    [d2/a.csv] are read again on the next run; and with the trailing name
    [ a.csv] (leading space) the ledger gets [ a.csv], which reads back as
    [a.csv], so the next run reads both files again. *)
Lemma trailing_name_keying_counterexample :
  let a := Examples.args ".csv" true in
  let e1 := Examples.env ["d1/a.csv"; "d2/a.csv"] [] Examples.frame1 false in
  let s1 := snd (read_gcs_files_to_dataframes_aserta e1 a Examples.store0) in
  let e2 := Examples.env ["d1/ a.csv"; "d2/ a.csv"] [] Examples.frame1 true in
  let s2 := snd (read_gcs_files_to_dataframes_aserta e2 a Examples.store0) in
  (parsed_ok e1 ".csv" "d1/a.csv" = true /\ ledger s1 = None /\
   fst (select_files true (ledger_names s1)
          (candidate_files ".csv" None ["d1/a.csv"; "d2/a.csv"]))
   = ["d1/a.csv"; "d2/a.csv"]) /\
  (parsed_ok e2 ".csv" "d1/ a.csv" = true /\
   ledger s2 = Some (join newline [" a.csv"; " a.csv"]) /\
   ledger_names s2 = ["a.csv"; "a.csv"] /\
   fst (select_files true (ledger_names s2)
          (candidate_files ".csv" None ["d1/ a.csv"; "d2/ a.csv"]))
   = ["d1/ a.csv"; "d2/ a.csv"] /\
   match fst (read_gcs_files_to_dataframes_aserta e2 a s2) with
   | Ok d => df_empty d = false
   | Raise => False
   end).
Proof. cbv zeta. repeat split; vm_compute; reflexivity. Qed.

(** ** Witnesses: the theorems applied to concrete runs *)

Lemma ledger_soundness_witness :
  let e := Examples.env ["d1/a.csv"; "d2/a.csv"] ["d1/a.csv"] Examples.frame1 true in
  let a := Examples.args ".csv" true in
  read_log_file a = true /\
  (ledger (snd (read_gcs_files_to_dataframes_aserta e a Examples.store0))
     = ledger Examples.store0 \/
   exists up, ledger (snd (read_gcs_files_to_dataframes_aserta e a Examples.store0))
              = Some (join newline (ledger_names Examples.store0 ++ up))).
Proof.
  cbv zeta. split; [reflexivity|].
  destruct (ledger_soundness
              (Examples.env ["d1/a.csv"; "d2/a.csv"] ["d1/a.csv"] Examples.frame1 true)
              (Examples.args ".csv" true) Examples.store0 eq_refl)
    as [H|[blobs [up [_ [H _]]]]].
  - left. exact H.
  - right. exists up. exact H.
Defined.

Lemma partial_failure_isolation_witness :
  let e := Examples.env ["d/A.csv"; "d/B.csv"; "d/C.csv"] ["d/B.csv"] Examples.frame1 true in
  let a := Examples.args ".csv" true in
  read_table e ".csv" "d/B.csv" = Raise /\
  exists df, fst (read_gcs_files_to_dataframes_aserta e a Examples.store0) = Ok df /\
    df_rows df = map (row_set "file" "A.csv") (df_rows Examples.frame1)
                 ++ map (row_set "file" "C.csv") (df_rows Examples.frame1).
Proof.
  cbv zeta. split; [reflexivity|].
  destruct (partial_failure_isolation
              (Examples.env ["d/A.csv"; "d/B.csv"; "d/C.csv"] ["d/B.csv"] Examples.frame1 true)
              (Examples.args ".csv" true) Examples.store0
              ["d/A.csv"; "d/B.csv"; "d/C.csv"] "d/A.csv" "d/B.csv" "d/C.csv"
              Examples.frame1 Examples.frame1
              eq_refl eq_refl (or_introl eq_refl) eq_refl eq_refl eq_refl eq_refl
              ltac:(intros []) ltac:(intros []) ltac:(intros [])
              ltac:(vm_compute; discriminate) ltac:(vm_compute; discriminate)
              eq_refl eq_refl eq_refl)
    as [df [H1 [H2 _]]].
  exists df. split; [exact H1 | exact H2].
Defined.

Lemma idempotent_under_ledger_witness :
  let e := Examples.env ["data/a.csv"] [] Examples.frame1 true in
  let a := Examples.args ".csv" true in
  let s1 := snd (read_gcs_files_to_dataframes_aserta e a Examples.store0) in
  upload_ok e = true /\
  read_gcs_files_to_dataframes_aserta e a s1 = (Ok empty_df, s1).
Proof.
  cbv zeta. split; [reflexivity|].
  pose proof (idempotent_under_ledger
                (Examples.env ["data/a.csv"] [] Examples.frame1 true)
                (Examples.args ".csv" true) Examples.store0 ["data/a.csv"]
                eq_refl eq_refl eq_refl eq_refl eq_refl eq_refl
                ltac:(vm_compute; discriminate)
                ltac:(intros b Hb; vm_compute in Hb; destruct Hb as [<-|[]]; reflexivity)
                ltac:(intros b Hb; vm_compute in Hb; destruct Hb as [<-|[]]; reflexivity))
    as H.
  cbv zeta in H. destruct H as [_ [_ [_ [_ H]]]]. exact H.
Defined.

Lemma ledger_roundtrip_witness :
  let e := Examples.env ["data/x.csv"; "data/y.csv"] [] Examples.frame1 true in
  let a := Examples.args ".csv" true in
  upload_ok e = true /\
  ledger_names (snd (read_gcs_files_to_dataframes_aserta e a Examples.store0))
    = ["x.csv"; "y.csv"].
Proof.
  cbv zeta. split; [reflexivity|].
  destruct (ledger_roundtrip
              (Examples.env ["data/x.csv"; "data/y.csv"] [] Examples.frame1 true)
              (Examples.args ".csv" true) Examples.store0 ["data/x.csv"; "data/y.csv"]
              eq_refl eq_refl (or_introl eq_refl) eq_refl eq_refl eq_refl eq_refl
              ltac:(intros b Hb Hf; vm_compute in Hb;
                    destruct Hb as [<-|[<-|[]]]; vm_compute in Hf; discriminate))
    as [_ H].
  exact H.
Defined.

Lemma ledger_write_failure_keeps_result_witness :
  let e := Examples.env ["data/a.csv"] [] Examples.frame1 false in
  let a := Examples.args ".csv" true in
  upload_ok e = false /\
  ledger (snd (read_gcs_files_to_dataframes_aserta e a Examples.store0)) = None.
Proof.
  cbv zeta. split; [reflexivity|].
  destruct (ledger_write_failure_keeps_result
              (Examples.env ["data/a.csv"] [] Examples.frame1 false)
              (Examples.args ".csv" true) Examples.store0 ["data/a.csv"]
              eq_refl eq_refl (or_introl eq_refl) eq_refl eq_refl
              ltac:(vm_compute; discriminate))
    as [_ [H _]].
  exact H.
Defined.

Lemma early_exit_no_write_witness :
  candidate_files ".csv" None ["data/notes.txt"] = [] /\
  read_gcs_files_to_dataframes_aserta
    (Examples.env ["data/notes.txt"] [] Examples.frame1 true)
    (Examples.args ".csv" true) Examples.store0 = (Ok empty_df, Examples.store0).
Proof.
  split; [reflexivity|].
  apply (early_exit_no_write _ _ _ ["data/notes.txt"]); [reflexivity | left; reflexivity].
Defined.

Lemma unsupported_type_no_write_witness :
  ".txt" <> ".xlsx" /\ ".txt" <> ".csv" /\
  read_gcs_files_to_dataframes_aserta
    (Examples.env ["data/a.txt"] [] Examples.frame1 true)
    (Examples.args ".txt" true) Examples.store0 = (Ok empty_df, Examples.store0).
Proof.
  split; [discriminate|]. split; [discriminate|].
  apply (proj1 (unsupported_type_no_write
                  (Examples.env ["data/a.txt"] [] Examples.frame1 true)
                  (Examples.args ".txt" true) Examples.store0
                  ltac:(simpl; discriminate) ltac:(simpl; discriminate))).
Defined.

Lemma trailing_name_keying_witness :
  let e := Examples.env ["d1/a.csv"; "d2/a.csv"] [] Examples.frame1 true in
  let a := Examples.args ".csv" true in
  upload_ok e = true /\
  ~ In "d2/a.csv"
      (fst (select_files true
              (ledger_names (snd (read_gcs_files_to_dataframes_aserta e a Examples.store0)))
              (candidate_files ".csv" None ["d1/a.csv"; "d2/a.csv"]))).
Proof.
  cbv zeta. split; [reflexivity|].
  destruct (trailing_name_keying
              (Examples.env ["d1/a.csv"; "d2/a.csv"] [] Examples.frame1 true)
              (Examples.args ".csv" true) Examples.store0 ["d1/a.csv"; "d2/a.csv"]
              "d1/a.csv" Examples.frame1
              eq_refl eq_refl (or_introl eq_refl) eq_refl eq_refl eq_refl
              ltac:(vm_compute; left; reflexivity) eq_refl eq_refl)
    as [_ H].
  exact (H [] _ "d2/a.csv" eq_refl).
Defined.

(** ** Further properties

    Properties of [serie_cuentaajustada], [buscarcuenta],
    [upload_to_bigquery] and [extraer_excel_gcs], read off the source. *)

Import Cuentas CuentasFacts.

(** X1: [serie_cuentaajustada] raises, through its [assert], whenever [astype(str)] does not give the object dtype (pandas 3 and later); when it does, it never raises on an integer column, keeps its length, and leaves every cell whose int64 value is 0 or not a multiple of 100 as [str] of that value. *)
Theorem serie_cuentaajustada_total (col : list Z) :
  serie_cuentaajustada false col = Raise /\
  exists out, serie_cuentaajustada true col = Ok out /\ length out = length col /\
  forall i n, nth_error col i = Some n -> (- 2 ^ 63 <= n < 2 ^ 63)%Z ->
              (n = 0 \/ n mod 100 <> 0)%Z ->
              nth_error out i = Some (str_Z n).
Proof.
  split; [reflexivity|].
  exists (map (fun n => ajustada (wrap64 n)) col). split; [apply serie_cuentaajustada_map|].
  split; [apply length_map|].
  intros i n Hi Hr Hn. rewrite nth_error_map, Hi. cbn. f_equal.
  rewrite wrap64_small by exact Hr. apply ajustada_other. exact Hn.
Qed.

(** X2: with the object dtype, an int64 cell holding a nonzero multiple of 1000 (a principal account) becomes [x[1:5]] with trailing zeros stripped and padded back to 4 characters with zeros: always 4 characters, and exactly [x[1:5]] when [str(x)] has at least 5 characters. *)
Theorem serie_cuentaajustada_principal (col : list Z) (i : nat) (n : Z) :
  nth_error col i = Some n -> (- 2 ^ 63 <= n < 2 ^ 63)%Z ->
  n <> 0%Z -> (n mod 1000 = 0)%Z ->
  exists out v, serie_cuentaajustada true col = Ok out /\ nth_error out i = Some v /\
    v = ljust 4 "0" (slice 1 5 (str_Z n)) /\ String.length v = 4 /\
    (5 <= String.length (str_Z n) -> v = slice 1 5 (str_Z n)).
Proof.
  intros Hi Hr Hn Hmod. exists (map (fun n => ajustada (wrap64 n)) col), (ajustada n).
  split; [apply serie_cuentaajustada_map|].
  split; [rewrite nth_error_map, Hi; cbn; rewrite wrap64_small by exact Hr; reflexivity|].
  rewrite (ajustada_principal n Hn Hmod).
  split; [reflexivity|]. split.
  - apply ljust_length. rewrite slice_length. lia.
  - intros H5. apply ljust_full. rewrite slice_length. lia.
Qed.

(** X3: with the object dtype, an int64 cell holding a nonzero multiple of 100 that is not a multiple of 1000 (a secondary account) becomes [x[1:5].rstrip("0")] followed by 0 and the hundreds digit, which is nonzero. *)
Theorem serie_cuentaajustada_secundaria (col : list Z) (i : nat) (n : Z) :
  nth_error col i = Some n -> (- 2 ^ 63 <= n < 2 ^ 63)%Z ->
  n <> 0%Z -> (n mod 100 = 0)%Z -> (n mod 1000 <> 0)%Z ->
  exists out, serie_cuentaajustada true col = Ok out /\
    nth_error out i = Some (rstrip0 (slice 1 5 (str_Z n))
                            ++ String "0" (String (digit_char (Z.abs_N n / 100 mod 10)) EmptyString))%string /\
    (Z.abs_N n / 100 mod 10 <> 0)%N.
Proof.
  intros Hi Hr Hn H100 H1000. exists (map (fun n => ajustada (wrap64 n)) col).
  split; [apply serie_cuentaajustada_map|].
  split; [rewrite nth_error_map, Hi; cbn; rewrite wrap64_small by exact Hr;
          f_equal; apply ajustada_secundaria; assumption|].
  apply hundreds_nonzero; assumption.
Qed.

(** X6: edge cases of [buscarcuenta]: a [cuenta] of 7 or more characters finds nothing, one of 5 characters only finds 6-character codes, and the empty [cuenta] finds exactly the codes of at most one character. *)
Theorem buscarcuenta_edges (str_dtype : bool) (df df' : DataFrame) (cuenta : string) :
  buscarcuenta str_dtype df cuenta = Ok df' ->
  (7 <= py_len cuenta -> df_rows df' = []) /\
  (py_len cuenta = 5 -> forall r, In r (df_rows df') ->
     exists c, row_get "Cuenta" r = Some c /\ py_len c = 6) /\
  (cuenta = EmptyString -> forall r, In r (df_rows df') <->
     In r (df_rows df) /\ exists c, row_get "Cuenta" r = Some c /\ py_len c <= 1).
Proof.
  intros H. split; [|split].
  - intros H7. destruct (df_rows df') as [|r rs] eqn:E; [reflexivity|exfalso].
    assert (Hr : In r (df_rows df')) by (rewrite E; left; reflexivity).
    apply (in_buscarcuenta _ _ _ _ r H) in Hr as [_ [c [_ Hc]]].
    replace (Nat.eqb (py_len cuenta) 4) with false in Hc
      by (symmetry; apply Nat.eqb_neq; lia).
    apply (f_equal py_len) in Hc. rewrite py_len_slice in Hc. lia.
  - intros H5 r Hr.
    apply (in_buscarcuenta _ _ _ _ r H) in Hr as [_ [c [Hc Hs]]].
    replace (Nat.eqb (py_len cuenta) 4) with false in Hs by (rewrite H5; reflexivity).
    cbv iota beta in Hs. exists c. split; [exact Hc|].
    apply (f_equal py_len) in Hs. rewrite py_len_slice, H5 in Hs. lia.
  - intros -> r. rewrite (in_buscarcuenta _ _ _ _ r H).
    change (py_len EmptyString) with 0. cbn [Nat.eqb].
    split.
    + intros [Hr [c [Hc Hs]]]. split; [exact Hr|]. exists c. split; [exact Hc|].
      apply py_slice_nil_iff in Hs. lia.
    + intros [Hr [c [Hc Hs]]]. split; [exact Hr|]. exists c. split; [exact Hc|].
      apply py_slice_nil_iff. lia.
Qed.

(** X7: with the object dtype, looking up a principal account by its own adjusted code, in a frame with one [Cuenta] column, finds its row exactly when [str] of the account has at least 5 characters; a 4-digit principal account such as 1000 is not found. *)
Theorem buscarcuenta_principal_code (str_object str_dtype : bool) (df : DataFrame)
    (r : Row) (n : Z) (v : string) :
  count_occ string_dec (df_columns df) "Cuenta" = 1 -> In r (df_rows df) ->
  row_get "Cuenta" r = Some (str_Z n) ->
  (- 2 ^ 63 <= n < 2 ^ 63)%Z -> n <> 0%Z -> (n mod 1000 = 0)%Z ->
  serie_cuentaajustada str_object [n] = Ok [v] ->
  exists df', buscarcuenta str_dtype df v = Ok df' /\
    (In r (df_rows df') <-> 5 <= String.length (str_Z n)).
Proof.
  intros HC Hr Hget Hrange Hn Hmod Hs.
  destruct str_object; [|discriminate].
  rewrite serie_cuentaajustada_map in Hs. cbn in Hs. injection Hs as Hv.
  rewrite wrap64_small, (ajustada_principal n Hn Hmod) in Hv by exact Hrange.
  assert (Hasc : ascii7 (list_ascii_of_string v))
    by (rewrite <- Hv; apply ljust_ascii, slice_ascii, str_Z_ascii).
  assert (Hlen : py_len v = 4).
  { rewrite py_len_ascii by exact Hasc.
    rewrite <- Hv. apply ljust_length. rewrite slice_length. lia. }
  destruct (buscarcuenta_some str_dtype df v r _ HC Hr Hget) as [df' E].
  exists df'. split; [exact E|].
  rewrite (in_buscarcuenta _ _ _ _ r E), Hlen. cbn [Nat.eqb]. split.
  - intros [_ [c [Hc Hsl]]]. rewrite Hget in Hc. injection Hc as <-.
    rewrite py_slice_ascii in Hsl by apply str_Z_ascii.
    apply (f_equal String.length) in Hsl.
    rewrite slice_length, <- (py_len_ascii v Hasc), Hlen in Hsl. lia.
  - intros H5. split; [exact Hr|]. exists (str_Z n). split; [exact Hget|].
    rewrite py_slice_ascii by apply str_Z_ascii.
    rewrite <- Hv. symmetry. apply ljust_full. rewrite slice_length. lia.
Qed.

Import BigQuery BqFacts.

(** X8: the [to_gbq] calls of any run go to [project.dataset.table]; the k-th uploads rows [k*chunk_size : (k+1)*chunk_size] with [if_exists] "replace" when k = 0 and [if_exists] is "replace", "append" otherwise; when there is a call, [chunk_size] is positive and the last chunk starts inside the frame. *)
Theorem upload_to_bigquery_chunks env a df :
  let rows := bq_rows df in
  let c := Z.to_nat (chunk_size a) in
  let ups := gbq_calls (bq_calls (snd (upload_to_bigquery env a (mkBqState df [])))) in
  ups = map (fun k => (full_table_id a, firstn c (skipn (k * c) rows), if_exists_at k (if_exists a)))
            (seq 0 (length ups))
  /\ (ups = [] \/ (0 < chunk_size a)%Z /\ (length ups - 1) * c < length rows).
Proof. exact (upload_layout env a df). Qed.

(** X9: with no rows, or a [chunk_size] of zero or less, no [to_gbq] call is made, so [if_exists="replace"] leaves the table as it was. *)
Theorem upload_to_bigquery_nothing_to_send env a df :
  bq_rows df = [] \/ (chunk_size a <= 0)%Z ->
  gbq_calls (bq_calls (snd (upload_to_bigquery env a (mkBqState df [])))) = [].
Proof.
  intros H. pose proof (upload_layout env a df) as L. cbv zeta in L.
  destruct L as (_ & [E|[Hc Hb]]); [exact E|].
  exfalso. destruct H as [H|H]. { rewrite H in Hb. exact (Nat.nlt_0_r _ Hb). } lia.
Qed.

(** X10: without a partitioning field, with distinct column names, no tz-aware column, a table created, a positive [chunk_size] and every [to_gbq] succeeding, the table is created and the chunks sent are the rows of the frame, in order. *)
Theorem upload_to_bigquery_complete env a df :
  bq_client_ok env = true ->
  get_dataset_ok env = true \/ create_dataset_ok env = true ->
  truthy_field (partitioning_field a) = None ->
  NoDup (map cname (bq_cols df)) ->
  (forall c, In c (bq_cols df) -> cdtype c <> DDatetime true /\ cdtype c <> DDatetimeWide) ->
  create_table_error env = None ->
  (0 < chunk_size a)%Z ->
  (forall i, to_gbq_ok env i = true) ->
  let calls := bq_calls (snd (upload_to_bigquery env a (mkBqState df []))) in
  (exists sch, In (CreateTable (full_table_id a) sch None (table_clustering a)) calls)
  /\ List.concat (map (fun u => snd (fst u)) (gbq_calls calls)) = bq_rows df.
Proof.
  intros Hcl Hds Hp Hnd Htz Hc Hcs Hok calls.
  destruct (schema_of_ok (bq_cols df) (bq_cols df) Hnd Htz (incl_refl _)) as [sch Hs].
  destruct (upload_reaches env a df sch Hcl Hds Hp Hs Hc Hcs) as (pre & E & Hpre & Hin).
  set (offs := range_up _ _ _ _) in E.
  destruct (upload_chunks_spec env a (bq_rows df) offs (mkBqState df pre)) as (k & Hk & Es & _ & H2).
  assert (Hkl : k = length offs).
  { destruct (Nat.lt_ge_cases k (length offs)) as [H|H]; [|lia].
    specialize (H2 H). rewrite Hok in H2. discriminate. }
  subst calls. rewrite E, Es. cbn [bq_calls]. split.
  - exists sch. apply in_or_app. left. exact Hin.
  - rewrite gbq_calls_app, Hpre, gbq_calls_events. cbn [app].
    rewrite Hkl, firstn_all, map_map. cbn [fst snd].
    unfold offs. rewrite range_up_shape, map_map. cbn [Nat.add].
    rewrite chunks_concat. apply firstn_all2.
    pose proof (range_up_cover (length (bq_rows df)) 0 (Z.to_nat (chunk_size a)) (length (bq_rows df))
                  ltac:(lia) ltac:(lia)). lia.
Qed.

(** X11: under the same conditions, if the chunk at offset [k*chunk_size] is the first whose [to_gbq] raises, exactly [k] chunks were sent, holding the first [k*chunk_size] rows; the error is swallowed. *)
Theorem upload_to_bigquery_partial env a df k :
  bq_client_ok env = true ->
  get_dataset_ok env = true \/ create_dataset_ok env = true ->
  truthy_field (partitioning_field a) = None ->
  NoDup (map cname (bq_cols df)) ->
  (forall c, In c (bq_cols df) -> cdtype c <> DDatetime true /\ cdtype c <> DDatetimeWide) ->
  create_table_error env = None ->
  (0 < chunk_size a)%Z ->
  k * Z.to_nat (chunk_size a) < length (bq_rows df) ->
  (forall j, j < k -> to_gbq_ok env (j * Z.to_nat (chunk_size a)) = true) ->
  to_gbq_ok env (k * Z.to_nat (chunk_size a)) = false ->
  let ups := gbq_calls (bq_calls (snd (upload_to_bigquery env a (mkBqState df [])))) in
  length ups = k
  /\ List.concat (map (fun u => snd (fst u)) ups) = firstn (k * Z.to_nat (chunk_size a)) (bq_rows df).
Proof.
  intros Hcl Hds Hp Hnd Htz Hc Hcs Hkn Hbefore Hfail ups.
  destruct (schema_of_ok (bq_cols df) (bq_cols df) Hnd Htz (incl_refl _)) as [sch Hs].
  destruct (upload_reaches env a df sch Hcl Hds Hp Hs Hc Hcs) as (pre & E & Hpre & _).
  set (offs := range_up _ _ _ _) in E.
  assert (Hc0 : 0 < Z.to_nat (chunk_size a)) by lia.
  assert (HkL : k < length offs) by exact (range_up_len _ _ _ Hc0 Hkn).
  destruct (upload_chunks_spec env a (bq_rows df) offs (mkBqState df pre)) as (k' & Hk' & Es & H1 & H2).
  assert (Hkk : k' = k).
  { destruct (Nat.lt_trichotomy k' k) as [H|[H|H]]; [|exact H|].
    - specialize (H2 ltac:(lia)). unfold offs in H2. rewrite range_up_nth in H2 by (exact Hc0 || (fold offs; lia)).
      rewrite Hbefore in H2 by exact H. discriminate.
    - specialize (H1 k H). unfold offs in H1. rewrite range_up_nth in H1 by (exact Hc0 || (fold offs; lia)).
      congruence. }
  subst k'. subst ups. rewrite E, Es. cbn [bq_calls].
  rewrite gbq_calls_app, Hpre, gbq_calls_events. cbn [app]. split.
  - rewrite length_map, length_firstn. lia.
  - unfold offs. rewrite range_up_shape, firstn_map, firstn_seq, !map_map. cbn [fst snd Nat.add].
    rewrite chunks_concat. f_equal. unfold offs in HkL. rewrite range_up_shape, length_map, length_seq in HkL. lia.
Qed.

(** X12: when [create_table] raises an error whose text lacks "Already Exists", the only calls made are dataset creations: no table and no upload. *)
Theorem upload_to_bigquery_create_error env a df msg :
  create_table_error env = Some msg ->
  str_contains "Already Exists" msg = false ->
  forallb is_dataset_call (bq_calls (snd (upload_to_bigquery env a (mkBqState df [])))) = true.
Proof.
  intros H1 H2.
  destruct (prepare_raise_calls env a (mkBqState df [])
              (prepare_create_error env a (mkBqState df []) msg H1 H2)) as (new & E & H).
  rewrite E. exact H.
Qed.

(** X13: with a partitioning field and a [time_partitioning_type] whose upper case is not DAY, HOUR, MONTH or YEAR, no table is created and nothing is uploaded. *)
Theorem upload_to_bigquery_invalid_partition_type env a df p :
  truthy_field (partitioning_field a) = Some p ->
  ~ In (upper (time_partitioning_type a)) partition_types ->
  forallb is_dataset_call (bq_calls (snd (upload_to_bigquery env a (mkBqState df [])))) = true.
Proof.
  intros H1 H2.
  assert (Hm : mem (upper (time_partitioning_type a)) partition_types = false).
  { destruct (mem _ _) eqn:E; [|reflexivity]. apply RunFacts.mem_In in E. contradiction. }
  destruct (prepare_raise_calls env a (mkBqState df [])
              (prepare_invalid_type env a (mkBqState df []) p H1 Hm)) as (new & E & H).
  rewrite E. exact H.
Qed.

(** X14: with a partitioning field that is not a column, no table is created, nothing is uploaded and the DataFrame is left unchanged. *)
Theorem upload_to_bigquery_missing_partition_field env a df p :
  truthy_field (partitioning_field a) = Some p ->
  ~ In p (map cname (bq_cols df)) ->
  let st := snd (upload_to_bigquery env a (mkBqState df [])) in
  forallb is_dataset_call (bq_calls st) = true /\ bq_df st = df.
Proof.
  intros Hp Hnin st.
  assert (Hm : mem p (map cname (bq_cols df)) = false).
  { destruct (mem _ _) eqn:E; [|reflexivity]. apply RunFacts.mem_In in E. contradiction. }
  destruct (ensure_dataset_eq env a (mkBqState df [])) as (n1 & _ & E1s & H1).
  assert (Ep : prepare env a (mkBqState df []) = (Raise, mkBqState df n1)).
  { unfold prepare, bbind at 1.
    destruct (ensure_dataset env a (mkBqState df [])) as [[[]|] s1]; cbn in E1s; subst s1;
      [|reflexivity].
    unfold bbind, partition_step. rewrite Hp. unfold check_partition, bbind, get_frame.
    cbn [bq_df]. rewrite Hm. reflexivity. }
  subst st. rewrite upload_state. unfold upload_body.
  destruct (bq_client_ok env); cbn [negb]; [|split; reflexivity].
  unfold bbind. rewrite Ep. split; [exact H1|reflexivity].
Qed.

(** X15: every table created with DAY partitioning on [p] has [p] typed STRING in its schema, since the column was turned into [datetime.date] objects first. *)
Theorem upload_to_bigquery_day_partition_string env a df t sch p clus :
  In (CreateTable t sch (Some (p, "DAY")) clus)
     (bq_calls (snd (upload_to_bigquery env a (mkBqState df [])))) ->
  In (p, "STRING") sch.
Proof.
  intros Hin. destruct (create_table_event env a df t sch (Some (p, "DAY")) clus Hin) as (Hs & Hpart & Hday).
  unfold partition_of in Hpart.
  destruct (truthy_field (partitioning_field a)) as [q|] eqn:Eq; [|discriminate].
  injection Hpart as <- Hu.
  destruct (Hday p eq_refl (eq_sym Hu)) as (c & Hf & Hd).
  assert (Hc : In c (filter (fun d => String.eqb (cname d) p)
                       (bq_cols (bq_df (snd (upload_to_bigquery env a (mkBqState df []))))))).
  { rewrite Hf. left. reflexivity. }
  apply filter_In in Hc as [Hc Hn]. apply String.eqb_eq in Hn.
  destruct (schema_of_in _ _ _ _ Hs Hc) as (f & Hfe & Hfin).
  unfold schema_field in Hfe. rewrite Hd in Hfe. injection Hfe as <-. rewrite <- Hn. exact Hfin.
Qed.

(** X16: in a created table, a naive datetime column is typed DATE exactly when all its non-null times equal the time of [pd.Timestamp.min] (00:12:43.145224), and TIMESTAMP exactly when one differs, so a column of midnights is TIMESTAMP. *)
Theorem upload_to_bigquery_datetime_schema env a df t sch part clus c :
  let st := snd (upload_to_bigquery env a (mkBqState df [])) in
  In (CreateTable t sch part clus) (bq_calls st) ->
  In c (bq_cols (bq_df st)) -> cdtype c = DDatetime false ->
  (In (cname c, "DATE") sch <-> (forall x, In (Some x) (ctimes c) -> x = timestamp_min_time))
  /\ (In (cname c, "TIMESTAMP") sch <-> (exists x, In (Some x) (ctimes c) /\ x <> timestamp_min_time)).
Proof.
  intros st Hin Hc Hd.
  destruct (create_table_event env a df t sch part clus Hin) as (Hs & _ & _).
  fold st in Hs.
  pose proof (schema_has_datetime _ _ _ Hs Hc Hd) as Hhas.
  split; split.
  - intros H. apply forallb_min_iff.
    apply (proj1 (schema_in_datetime _ _ _ _ Hs Hc Hd H (or_introl eq_refl))). reflexivity.
  - intros H. apply forallb_min_iff in H. rewrite H in Hhas. exact Hhas.
  - intros H. apply forallb_min_false.
    pose proof (schema_in_datetime _ _ _ _ Hs Hc Hd H (or_intror eq_refl)) as Hiff.
    destruct (forallb _ _); [|reflexivity].
    discriminate (proj2 Hiff eq_refl).
  - intros H. apply forallb_min_false in H. rewrite H in Hhas. exact Hhas.
Qed.

(** X17: with DAY partitioning on a datetime column [p] named once, the caller's DataFrame ends with [p] converted to an object column, whatever happens in later steps. *)
Theorem upload_to_bigquery_day_converts env a df p c :
  bq_client_ok env = true ->
  get_dataset_ok env = true \/ create_dataset_ok env = true ->
  truthy_field (partitioning_field a) = Some p ->
  filter (fun d => String.eqb (cname d) p) (bq_cols df) = [c] ->
  is_datetime (cdtype c) = true ->
  upper (time_partitioning_type a) = "DAY" ->
  bq_df (snd (upload_to_bigquery env a (mkBqState df [])))
  = mkBq (map (fun d => if String.eqb (cname d) p then mkCol p DObject (ctimes c) else d) (bq_cols df))
         (bq_rows df).
Proof.
  intros Hcl Hds Hp Hf Hdt Hday.
  set (df' := mkBq _ (bq_rows df)).
  assert (Hin : In c (filter (fun d => String.eqb (cname d) p) (bq_cols df))) by (rewrite Hf; left; reflexivity).
  apply filter_In in Hin as [Hin Hn]. apply String.eqb_eq in Hn.
  assert (Hm : mem p (map cname (bq_cols df)) = true).
  { apply RunFacts.mem_In. rewrite <- Hn. apply in_map. exact Hin. }
  assert (Hpart : forall calls, partition_step env a (mkBqState df calls) = (Ok tt, mkBqState df' calls)).
  { intros calls. unfold partition_step. rewrite Hp.
    unfold check_partition, bbind, get_frame, blift, bret, bfail, set_col. cbn [bq_df bq_cols bq_rows bq_calls].
    pose proof (filter_lookup_col _ _ _ Hf) as Hl.
    rewrite Hm, Hl, Hday. cbn [negb].
    destruct (cdtype c) eqn:Ed; try discriminate; cbn; rewrite Hl, Ed; reflexivity. }
  destruct (ensure_dataset_eq env a (mkBqState df [])) as (n1 & E1 & _ & _).
  specialize (E1 Hds).
  assert (Hprep : bq_df (snd (prepare env a (mkBqState df []))) = df').
  { unfold prepare, bbind at 1. rewrite E1. cbn [bq_df bq_calls].
    unfold bbind at 1. rewrite Hpart.
    unfold bbind at 1. rewrite build_schema_eq.
    destruct (schema_of _ _) as [sch|]; [|reflexivity]. cbn [blift].
    unfold bbind. destruct (table_partitioning a (mkBqState df' ([] ++ n1))) as [[part|] s3] eqn:E3;
      [|pose proof (table_partitioning_state a (mkBqState df' ([] ++ n1))) as Hs3;
        rewrite E3 in Hs3; cbn in Hs3; subst s3; reflexivity].
    pose proof (table_partitioning_state a (mkBqState df' ([] ++ n1))) as Hs3.
    rewrite E3 in Hs3. cbn in Hs3. subst s3.
    rewrite create_table_spec. destruct (create_table_error env); [destruct (str_contains _ _)|]; reflexivity. }
  rewrite upload_state. unfold upload_body. rewrite Hcl. cbn [negb]. unfold bbind at 1.
  destruct (prepare env a (mkBqState df [])) as [[[]|] s5]; cbn in Hprep; [|exact Hprep].
  pose proof (upload_rows_spec env a s5) as (post & Eu & _). rewrite Eu. exact Hprep.
Qed.

(** X18: with a working client, [extraer_excel_gcs] returns the frame that
    the batch reader's [.xlsx] step reads from the same object, and raises
    exactly where the batch reader's inner [try] fails and skips the file. *)
Theorem extraer_excel_gcs_read_table env p df :
  client_ok env = true ->
  (extraer_excel_gcs env p = Ok df <-> read_table env ".xlsx" p = Ok (Some df))
  /\ (extraer_excel_gcs env p = Raise <-> not_failed env ".xlsx" p = false).
Proof.
  intros H. unfold extraer_excel_gcs, not_failed, read_table. rewrite H. cbn [negb].
  destruct (download_as_bytes env p) as [b|]; [|split; split; congruence].
  cbn. destruct (read_excel env b); split; split; congruence.
Qed.

(** *** Witnesses of the further properties *)

Lemma serie_cuentaajustada_total_witness :
  serie_cuentaajustada false [1101050%Z] = Raise /\
  exists out, serie_cuentaajustada true [1101050%Z] = Ok out /\ length out = length [1101050%Z] /\
  forall i n, nth_error [1101050%Z] i = Some n -> (- 2 ^ 63 <= n < 2 ^ 63)%Z ->
              (n = 0 \/ n mod 100 <> 0)%Z ->
              nth_error out i = Some (str_Z n).
Proof.
  exact (serie_cuentaajustada_total [1101050%Z]).
Defined.

Lemma serie_cuentaajustada_principal_witness :
  exists out v, serie_cuentaajustada true [1101000%Z] = Ok out /\ nth_error out 0 = Some v /\
    v = ljust 4 "0" (slice 1 5 (str_Z 1101000)) /\ String.length v = 4 /\
    (5 <= String.length (str_Z 1101000) -> v = slice 1 5 (str_Z 1101000)).
Proof.
  apply (serie_cuentaajustada_principal [1101000%Z] 0 1101000);
    [reflexivity|lia|lia|reflexivity].
Defined.

Lemma serie_cuentaajustada_secundaria_witness :
  exists out, serie_cuentaajustada true [1101100%Z] = Ok out /\
    nth_error out 0 = Some (rstrip0 (slice 1 5 (str_Z 1101100))
                            ++ String "0" (String (digit_char (Z.abs_N 1101100 / 100 mod 10)) EmptyString))%string /\
    (Z.abs_N 1101100 / 100 mod 10 <> 0)%N.
Proof.
  apply (serie_cuentaajustada_secundaria [1101100%Z] 0 1101100);
    [reflexivity|lia|lia|reflexivity|discriminate].
Defined.

Lemma buscarcuenta_edges_witness :
  let df' := mkDF ["Cuenta"] [] in
  buscarcuenta false BqExamples.cuentas_df "" = Ok df' /\
  (7 <= py_len "" -> df_rows df' = []) /\
  (py_len "" = 5 -> forall r, In r (df_rows df') ->
     exists c, row_get "Cuenta" r = Some c /\ py_len c = 6) /\
  ("" = EmptyString -> forall r, In r (df_rows df') <->
     In r (df_rows BqExamples.cuentas_df) /\ exists c, row_get "Cuenta" r = Some c /\ py_len c <= 1).
Proof.
  cbv zeta. split; [vm_compute; reflexivity|].
  apply (buscarcuenta_edges false). vm_compute. reflexivity.
Defined.

Lemma buscarcuenta_principal_code_witness :
  exists df', buscarcuenta false BqExamples.cuentas_df "0000" = Ok df' /\
    (In [("Cuenta", "1000")] (df_rows df') <-> 5 <= String.length (str_Z 1000)).
Proof.
  apply (buscarcuenta_principal_code true false BqExamples.cuentas_df [("Cuenta", "1000")] 1000 "0000").
  - vm_compute. reflexivity.
  - right. right. left. reflexivity.
  - vm_compute. reflexivity.
  - lia.
  - lia.
  - reflexivity.
  - vm_compute. reflexivity.
Defined.

Lemma upload_to_bigquery_nothing_to_send_witness :
  gbq_calls (bq_calls (snd (upload_to_bigquery BqExamples.env_ok
                              (BqExamples.args None "DAY" 2 "replace")
                              (mkBqState BqExamples.frame0 [])))) = [].
Proof.
  apply upload_to_bigquery_nothing_to_send. left. reflexivity.
Defined.

Lemma upload_to_bigquery_complete_witness :
  let calls := bq_calls (snd (upload_to_bigquery BqExamples.env_ok
                                (BqExamples.args None "DAY" 2 "append")
                                (mkBqState BqExamples.frame3 []))) in
  (exists sch, In (CreateTable "project.dataset.table" sch None None) calls)
  /\ List.concat (map (fun u => snd (fst u)) (gbq_calls calls)) = bq_rows BqExamples.frame3.
Proof.
  apply (upload_to_bigquery_complete BqExamples.env_ok (BqExamples.args None "DAY" 2 "append")
           BqExamples.frame3).
  - reflexivity.
  - left. reflexivity.
  - reflexivity.
  - repeat constructor; cbn; intuition discriminate.
  - intros c Hc. cbn in Hc. destruct Hc as [<-|[<-|[]]]; split; discriminate.
  - reflexivity.
  - reflexivity.
  - reflexivity.
Defined.

Lemma upload_to_bigquery_partial_witness :
  let ups := gbq_calls (bq_calls (snd (upload_to_bigquery (BqExamples.env_fail_at 2)
                                         (BqExamples.args None "DAY" 2 "replace")
                                         (mkBqState BqExamples.frame3 [])))) in
  length ups = 1
  /\ List.concat (map (fun u => snd (fst u)) ups) = firstn 2 (bq_rows BqExamples.frame3).
Proof.
  apply (upload_to_bigquery_partial (BqExamples.env_fail_at 2) (BqExamples.args None "DAY" 2 "replace")
           BqExamples.frame3 1).
  - reflexivity.
  - left. reflexivity.
  - reflexivity.
  - repeat constructor; cbn; intuition discriminate.
  - intros c Hc. cbn in Hc. destruct Hc as [<-|[<-|[]]]; split; discriminate.
  - reflexivity.
  - reflexivity.
  - cbn. lia.
  - intros j Hj. assert (j = 0) as -> by lia. reflexivity.
  - reflexivity.
Defined.

Lemma upload_to_bigquery_create_error_witness :
  forallb is_dataset_call
    (bq_calls (snd (upload_to_bigquery (BqExamples.env_create_error "403 Access Denied")
                      (BqExamples.args None "DAY" 2 "append")
                      (mkBqState BqExamples.frame3 [])))) = true.
Proof.
  apply (upload_to_bigquery_create_error _ _ _ "403 Access Denied"); reflexivity.
Defined.

Lemma upload_to_bigquery_invalid_partition_type_witness :
  forallb is_dataset_call
    (bq_calls (snd (upload_to_bigquery BqExamples.env_ok
                      (BqExamples.args (Some "fecha") "week" 2 "append")
                      (mkBqState BqExamples.frame3 [])))) = true.
Proof.
  apply (upload_to_bigquery_invalid_partition_type _ _ _ "fecha").
  - reflexivity.
  - vm_compute. intuition discriminate.
Defined.

Lemma upload_to_bigquery_missing_partition_field_witness :
  let st := snd (upload_to_bigquery BqExamples.env_ok
                   (BqExamples.args (Some "fecha_corte") "DAY" 2 "append")
                   (mkBqState BqExamples.frame3 [])) in
  forallb is_dataset_call (bq_calls st) = true /\ bq_df st = BqExamples.frame3.
Proof.
  apply (upload_to_bigquery_missing_partition_field _ _ _ "fecha_corte").
  - reflexivity.
  - cbn. intuition discriminate.
Defined.

Lemma upload_to_bigquery_day_partition_string_witness :
  In (CreateTable "project.dataset.table" [("id", "INTEGER"); ("fecha", "STRING")]
        (Some ("fecha", "DAY")) None)
     (bq_calls (snd (upload_to_bigquery BqExamples.env_ok
                       (BqExamples.args (Some "fecha") "day" 2 "replace")
                       (mkBqState BqExamples.frame3 []))))
  /\ In ("fecha", "STRING") [("id", "INTEGER"); ("fecha", "STRING")].
Proof.
  assert (H : In (CreateTable "project.dataset.table" [("id", "INTEGER"); ("fecha", "STRING")]
                    (Some ("fecha", "DAY")) None)
                 (bq_calls (snd (upload_to_bigquery BqExamples.env_ok
                                   (BqExamples.args (Some "fecha") "day" 2 "replace")
                                   (mkBqState BqExamples.frame3 []))))).
  { vm_compute. left. reflexivity. }
  split; [exact H|].
  exact (upload_to_bigquery_day_partition_string _ _ _ _ _ _ _ H).
Defined.

Lemma upload_to_bigquery_datetime_schema_witness :
  let c := mkCol "fecha" (DDatetime false) [Some 0%N; None; Some 0%N] in
  let sch := [("id", "INTEGER"); ("fecha", "TIMESTAMP")] in
  In (CreateTable "project.dataset.table" sch None None)
     (bq_calls (snd (upload_to_bigquery BqExamples.env_ok (BqExamples.args None "DAY" 2 "append")
                       (mkBqState BqExamples.frame3 []))))
  /\ (In (cname c, "DATE") sch <-> (forall x, In (Some x) (ctimes c) -> x = timestamp_min_time))
  /\ (In (cname c, "TIMESTAMP") sch <-> (exists x, In (Some x) (ctimes c) /\ x <> timestamp_min_time)).
Proof.
  cbv zeta.
  assert (H : In (CreateTable "project.dataset.table" [("id", "INTEGER"); ("fecha", "TIMESTAMP")] None None)
                 (bq_calls (snd (upload_to_bigquery BqExamples.env_ok (BqExamples.args None "DAY" 2 "append")
                                   (mkBqState BqExamples.frame3 []))))).
  { vm_compute. left. reflexivity. }
  split; [exact H|].
  apply (upload_to_bigquery_datetime_schema _ _ _ _ _ _ _ _ H).
  - vm_compute. right. left. reflexivity.
  - reflexivity.
Defined.

Lemma upload_to_bigquery_day_converts_witness :
  bq_df (snd (upload_to_bigquery BqExamples.env_ok (BqExamples.args (Some "fecha") "Day" 2 "append")
                (mkBqState BqExamples.frame3 [])))
  = mkBq [mkCol "id" DInt []; mkCol "fecha" DObject [Some 0%N; None; Some 0%N]]
         (bq_rows BqExamples.frame3).
Proof.
  rewrite (upload_to_bigquery_day_converts BqExamples.env_ok (BqExamples.args (Some "fecha") "Day" 2 "append")
             BqExamples.frame3 "fecha" (mkCol "fecha" (DDatetime false) [Some 0%N; None; Some 0%N])
             eq_refl (or_introl eq_refl) eq_refl eq_refl eq_refl ltac:(vm_compute; reflexivity)).
  vm_compute. reflexivity.
Defined.

Lemma extraer_excel_gcs_read_table_witness :
  let e := Examples.env ["data/a.xlsx"] [] Examples.frame1 true in
  (extraer_excel_gcs e "data/a.xlsx" = Ok Examples.frame1
   <-> read_table e ".xlsx" "data/a.xlsx" = Ok (Some Examples.frame1))
  /\ (extraer_excel_gcs e "data/a.xlsx" = Raise <-> not_failed e ".xlsx" "data/a.xlsx" = false).
Proof.
  cbv zeta. apply extraer_excel_gcs_read_table. reflexivity.
Defined.
